(** * Commission report (sistema-comissoes): a shallow embedding

    The development follows the Python sources

    - [audaz_comissoes/number.py]          ([parse_ptbr_number]),
    - [audaz_comissoes/sheets_client.py]   ([_safe_headers],
      [_get_records_tolerant], [_records_to_df], [read_sheet_by_gid]),
    - [audaz_comissoes/mysql_repo.py]      ([get_shipment_dates_by_number],
      [get_dates_by_shipment_number]),
    - [scripts/test_sales_exec_comp_by_date_creation_and_date_comission.py]
      (the report script), and
    - [scripts/test_danielle_set_out_pay_dez.py] (its one-person variant).

    Part I models the pieces of the Python runtime the sources call
    ([str] methods, [float], [Decimal], [round]); part II the tables and
    the effects; part III the functions of the repository; part IV the
    properties. *)

From Stdlib Require Import ZArith List String Ascii Bool Lia.
From Stdlib Require Import Sorting.Permutation Sorting.Sorted.
From Stdlib Require Import Floats.SpecFloat Floats.PrimFloat Floats.FloatOps.
Import ListNotations.

#[local] Set Warnings "-inexact-float".
#[local] Open Scope string_scope.
#[local] Open Scope Z_scope.

(* ================================================================== *)
(** * Part I.  The Python runtime *)
(* ================================================================== *)

(** ** Text

    A Python [str] is a sequence of code points.  The model keeps the
    code points below U+0100 (Latin-1, which holds the Portuguese
    alphabet): a [string] is read as one code point per character.  On
    that range the Unicode tables the sources rely on are finite and are
    written out below. *)

Module Text.

Definition code (c : ascii) : Z := Z.of_nat (nat_of_ascii c).
Definition chr (z : Z) : ascii := ascii_of_nat (Z.to_nat z).

Definition between (lo hi : Z) (c : ascii) : bool :=
  (lo <=? code c) && (code c <=? hi).

(** Source text is UTF-8; [u8] turns the two-byte sequences of the
    literals below into their single Latin-1 code point, so that
    [u8 "ã"] is the one-character string U+00E3. *)
Fixpoint u8 (s : string) : string :=
  match s with
  | EmptyString => EmptyString
  | String c rest =>
      match rest with
      | String d rest' =>
          if code c =? 194 then String d (u8 rest')
          else if code c =? 195 then String (chr (code d + 64)) (u8 rest')
          else String c (u8 rest)
      | EmptyString => String c EmptyString
      end
  end.

(** [str.isspace] on one code point: the characters of bidirectional
    type WS, B or S, or of category Zs. *)
Definition isspace (c : ascii) : bool :=
  between 9 13 c || between 28 32 c || (code c =? 133) || (code c =? 160).

(** [str.isdecimal] (category Nd), which is also the regular
    expression class [\d]. *)
Definition isdigit (c : ascii) : bool := between 48 57 c.

(** [str.lower] on one code point: A-Z, and À-Þ without the
    multiplication sign. *)
Definition lower_char (c : ascii) : ascii :=
  if between 65 90 c then chr (code c + 32)
  else if between 192 222 c && negb (code c =? 215) then chr (code c + 32)
  else c.

Fixpoint lower (s : string) : string :=
  match s with
  | EmptyString => EmptyString
  | String c rest => String (lower_char c) (lower rest)
  end.

(** Dropping the leading, or the trailing, characters that pass [sp]. *)
Fixpoint lstrip_by (sp : ascii -> bool) (s : string) : string :=
  match s with
  | String c rest => if sp c then lstrip_by sp rest else s
  | EmptyString => EmptyString
  end.

(** A character stays when something that stays follows it, or when it
    does not pass [sp] itself. *)
Fixpoint rstrip_by (sp : ascii -> bool) (s : string) : string :=
  match s with
  | EmptyString => EmptyString
  | String c rest =>
      match rstrip_by sp rest with
      | EmptyString => if sp c then EmptyString else String c EmptyString
      | kept => String c kept
      end
  end.

(** [s.strip()] *)
Definition strip (s : string) : string := rstrip_by isspace (lstrip_by isspace s).

(** [s.lstrip()], as the regular expression [\s*] skips. *)
Definition lstrip (s : string) : string := lstrip_by isspace s.

(** [s.startswith(p)] *)
Fixpoint startswith (p s : string) : bool :=
  match p, s with
  | EmptyString, _ => true
  | String a p', String b s' => Ascii.eqb a b && startswith p' s'
  | String _ _, EmptyString => false
  end.

(** [p in s] *)
Fixpoint contains (p s : string) : bool :=
  startswith p s ||
  match s with
  | EmptyString => false
  | String _ rest => contains p rest
  end.

(** [s.endswith(p)] *)
Fixpoint endswith (p s : string) : bool :=
  String.eqb p s ||
  match s with
  | EmptyString => false
  | String _ rest => endswith p rest
  end.

(** [s.replace(old, new)] for a non-empty [old]: the occurrences are
    taken from the left and do not overlap.  [skip] counts the
    characters of an occurrence that are still to be dropped. *)
Fixpoint replace_from (old new : string) (skip : nat) (s : string) : string :=
  match s with
  | EmptyString => EmptyString
  | String c rest =>
      match skip with
      | S k => replace_from old new k rest
      | O =>
          if startswith old s
          then new ++ replace_from old new (Nat.pred (String.length old)) rest
          else String c (replace_from old new O rest)
      end
  end.

(** With an empty [old], Python puts [new] before every character and
    at the end. *)
Fixpoint interleave (new s : string) : string :=
  match s with
  | EmptyString => new
  | String c rest => new ++ String c (interleave new rest)
  end.

Definition replace (old new s : string) : string :=
  match old with
  | EmptyString => interleave new s
  | _ => replace_from old new O s
  end.

(** [re.sub(r"[^...]", "", s)]: the characters of the class are kept. *)
Fixpoint keep (p : ascii -> bool) (s : string) : string :=
  match s with
  | EmptyString => EmptyString
  | String c rest => if p c then String c (keep p rest) else keep p rest
  end.

Fixpoint forallb (p : ascii -> bool) (s : string) : bool :=
  match s with
  | EmptyString => true
  | String c rest => p c && forallb p rest
  end.

Fixpoint existsb (p : ascii -> bool) (s : string) : bool :=
  match s with
  | EmptyString => false
  | String c rest => p c || existsb p rest
  end.

(** Truth value of a string: [bool(s)]. *)
Definition truthy (s : string) : bool :=
  match s with EmptyString => false | _ => true end.

(** [mem x l] is [x in l] for a list of strings. *)
Definition mem (x : string) (l : list string) : bool :=
  List.existsb (String.eqb x) l.

(** Code point order on strings, as [<] compares two [str]. *)
Fixpoint ltb (a b : string) : bool :=
  match a, b with
  | _, EmptyString => false
  | EmptyString, String _ _ => true
  | String x a', String y b' =>
      (code x <? code y) || ((code x =? code y) && ltb a' b')
  end.

(** Decimal digits of a natural number, as [str(n)] prints them. *)
Fixpoint digits_fuel (fuel : nat) (n : Z) (acc : string) : string :=
  match fuel with
  | O => acc
  | S k =>
      let acc' := String (chr (48 + n mod 10)) acc in
      if n <? 10 then acc' else digits_fuel k (n / 10) acc'
  end.

Definition str_of_nat (n : Z) : string :=
  digits_fuel (S (Z.to_nat (Z.log2 n))) n EmptyString.

(** [f"{n:0{w}d}"] for a non-negative [n]. *)
Fixpoint zeros (k : nat) : string :=
  match k with O => EmptyString | S k' => String "0" (zeros k') end.

Definition zfill (w : nat) (n : Z) : string :=
  let d := str_of_nat n in
  zeros (w - String.length d) ++ d.

End Text.

Import Text.

(** ** Floating point

    A Python [float] is an IEEE 754 binary64 number.  The model is the
    specification type [spec_float] of the standard library with its
    operations at precision 53 and exponent bound 1024 (round to nearest,
    ties to even). *)

Module Float.

Definition float : Type := spec_float.

Definition prec : Z := 53.
Definition emax : Z := 1024.

Definition add : float -> float -> float := SFadd prec emax.
Definition mul : float -> float -> float := SFmul prec emax.
Definition div : float -> float -> float := SFdiv prec emax.

Definition zero : float := S754_zero false.

(** The binary64 number nearest to the integer [z]. *)
Definition of_Z (z : Z) : float := binary_normalize prec emax z 0 false.

(** The binary64 number nearest to [(-1)^neg * m * 10^e], for [0 <= m]:
    what [strtod] returns for a decimal numeral. *)
Definition of_decimal (neg : bool) (m e : Z) : float :=
  if m =? 0 then S754_zero neg
  else if 0 <=? e then
    binary_normalize prec emax (cond_Zopp neg (m * 10 ^ e)) 0 neg
  else
    div (S754_finite neg (Z.to_pos m) 0)
        (S754_finite false (Z.to_pos (10 ^ (- e))) 0).

Definition is_finite (x : float) : bool :=
  match x with
  | S754_zero _ | S754_finite _ _ _ => true
  | S754_infinity _ | S754_nan => false
  end.

(** [a / b] rounded to the nearest integer, ties to the even one
    ([0 <= a], [0 < b]). *)
Definition div_half_even (a b : Z) : Z :=
  let q := a / b in
  let r := a mod b in
  if 2 * r <? b then q
  else if b <? 2 * r then q + 1
  else if Z.even q then q else q + 1.

(** The magnitude [m * 2^e] times [10^k], rounded to an integer, ties
    to even. *)
Definition scaled_half_even (m : positive) (e : Z) (k : Z) : Z :=
  if 0 <=? e then Z.pos m * 2 ^ e * 10 ^ k
  else div_half_even (Z.pos m * 10 ^ k) (2 ^ (- e)).

(** [round(x, 2)]: CPython prints [x] with two correctly rounded
    decimals and reads the numeral back; zeros, infinities and NaN are
    returned as they are. *)
Definition round2 (x : float) : float :=
  match x with
  | S754_finite s m e => of_decimal s (scaled_half_even m e 2) (-2)
  | _ => x
  end.

End Float.

(** ** Numerals

    The grammars of [float(s)], [Decimal(s)] and [int(s)]. *)

Module Numeral.

Definition digit_value (c : ascii) : Z := code c - 48.

(** [scan_digits s acc n]: the longest run of digits at the head of
    [s], read in base ten onto [acc]; the number of digits read is added
    to [n]. *)
Fixpoint scan_digits (s : string) (acc n : Z) : Z * Z * string :=
  match s with
  | String c rest =>
      if isdigit c then scan_digits rest (10 * acc + digit_value c) (n + 1)
      else (acc, n, s)
  | EmptyString => (acc, n, s)
  end.

(** An optional sign; [true] is minus. *)
Definition scan_sign (s : string) : bool * string :=
  match s with
  | String "-" rest => (true, rest)
  | String "+" rest => (false, rest)
  | _ => (false, s)
  end.

Definition is_e (c : ascii) : bool := Ascii.eqb c "e" || Ascii.eqb c "E".

(** The exponent part: nothing, or [e], an optional sign and at least
    one digit, up to the end of the text. *)
Definition scan_exponent (s : string) : option Z :=
  match s with
  | EmptyString => Some 0
  | String c rest =>
      if is_e c then
        let '(eneg, r1) := scan_sign rest in
        let '(ev, en, r2) := scan_digits r1 0 0 in
        if (en =? 0) || truthy r2 then None else Some (cond_Zopp eneg ev)
      else None
  end.

(** An unsigned decimal numeral, [digits [. digits] [exponent]] with at
    least one digit before the exponent: its value is [m * 10^e]. *)
Definition scan_decimal (s : string) : option (Z * Z) :=
  let '(m1, n1, r1) := scan_digits s 0 0 in
  let '(m2, n2, r2) :=
    match r1 with
    | String "." r => scan_digits r m1 0
    | _ => (m1, 0, r1)
    end in
  if n1 + n2 =? 0 then None
  else match scan_exponent r2 with
       | Some e => Some (m2, e - n2)
       | None => None
       end.

(** ASCII lower case, as the C runtime compares keywords. *)
Fixpoint ascii_lower (s : string) : string :=
  match s with
  | EmptyString => EmptyString
  | String c rest =>
      String (if between 65 90 c then chr (code c + 32) else c) (ascii_lower rest)
  end.

(** *** [float(s)] *)

(** White space of the C locale. *)
Definition c_isspace (c : ascii) : bool :=
  between 9 13 c || (code c =? 32).

(** [float] first maps a non-ASCII white space to a blank and any other
    non-ASCII character that is not a decimal digit to a question
    mark. *)
Definition to_ascii_char (c : ascii) : ascii :=
  if code c <? 127 then c
  else if isspace c then " "%char
  else "?"%char.

Fixpoint to_ascii (s : string) : string :=
  match s with
  | EmptyString => EmptyString
  | String c rest => String (to_ascii_char c) (to_ascii rest)
  end.

(** Underscores may stand between two digits only.  [prev] is the
    character before the head of [s]. *)
Fixpoint drop_underscores (prev : ascii) (s : string) : option string :=
  match s with
  | EmptyString => if Ascii.eqb prev "_" then None else Some EmptyString
  | String c rest =>
      if Ascii.eqb c "_" then
        if isdigit prev then drop_underscores c rest else None
      else if Ascii.eqb prev "_" && negb (isdigit c) then None
      else match drop_underscores c rest with
           | Some r => Some (String c r)
           | None => None
           end
  end.

Definition float_of_literal (s : string) : option Float.float :=
  let '(neg, body) := scan_sign s in
  let kw := ascii_lower body in
  if String.eqb kw "inf" || String.eqb kw "infinity" then Some (S754_infinity neg)
  else if String.eqb kw "nan" then Some S754_nan
  else match scan_decimal body with
       | Some (m, e) => Some (Float.of_decimal neg m e)
       | None => None
       end.

(** [float(s)] for a [str]; [None] is [ValueError].  After the
    underscores, the white space of the C locale is stripped from both
    ends and what is left has to be one literal. *)
Definition float_of_str (s : string) : option Float.float :=
  match drop_underscores "000"%char (to_ascii s) with
  | None => None
  | Some t => float_of_literal (rstrip_by c_isspace (lstrip_by c_isspace t))
  end.

(** [float(n)] for an [int]; [None] is [OverflowError]. *)
Definition float_of_int (n : Z) : option Float.float :=
  let x := Float.of_Z n in
  if Float.is_finite x then Some x else None.

(** *** [Decimal(s)] *)

Inductive Decimal : Type :=
  | DFinite (neg : bool) (coefficient exponent : Z)
  | DInfinity (neg : bool)
  | DNaN (signaling : bool).

Definition drop_all_underscores (s : string) : string :=
  keep (fun c => negb (Ascii.eqb c "_")) s.

(** [Decimal(s)] for a [str]; [None] is [InvalidOperation].  White space
    around the numeral and underscores anywhere are dropped. *)
Definition decimal_of_str (s : string) : option Decimal :=
  let '(neg, body) := scan_sign (drop_all_underscores (strip s)) in
  let kw := ascii_lower body in
  if String.eqb kw "inf" || String.eqb kw "infinity" then Some (DInfinity neg)
  else if startswith "nan" kw && forallb isdigit (substring 3 (String.length kw) kw)
  then Some (DNaN false)
  else if startswith "snan" kw && forallb isdigit (substring 4 (String.length kw) kw)
  then Some (DNaN true)
  else match scan_decimal body with
       | Some (m, e) => Some (DFinite neg m e)
       | None => None
       end.

(** [float(d)] for a [Decimal]; [None] is [ValueError] (a signaling
    NaN). *)
Definition float_of_decimal (d : Decimal) : option Float.float :=
  match d with
  | DFinite neg m e => Some (Float.of_decimal neg m e)
  | DInfinity neg => Some (S754_infinity neg)
  | DNaN false => Some S754_nan
  | DNaN true => None
  end.

(** *** [int(s)] *)

(** [int(s)] in base ten; [None] is [ValueError]. *)
Definition int_of_str (s : string) : option Z :=
  match drop_underscores "000"%char (strip s) with
  | None => None
  | Some t =>
      let '(neg, body) := scan_sign t in
      let '(v, n, rest) := scan_digits body 0 0 in
      if (n =? 0) || truthy rest then None else Some (cond_Zopp neg v)
  end.

(** *** [round(x)] and [int] *)

(** [int(round(x))]: the nearest integer, ties to even. *)
Inductive round_result : Type :=
  | Rounded (n : Z)
  | RoundNaN        (* ValueError: cannot convert float NaN to integer *)
  | RoundInfinity.  (* OverflowError: cannot convert float infinity to integer *)

Definition round_to_int (x : Float.float) : round_result :=
  match x with
  | S754_zero _ => Rounded 0
  | S754_finite s m e => Rounded (cond_Zopp s (Float.scaled_half_even m e 0))
  | S754_infinity _ => RoundInfinity
  | S754_nan => RoundNaN
  end.

End Numeral.

(** ** Values and exceptions *)

(** The arguments [parse_ptbr_money] and [parse_ptbr_number] tell
    apart. *)
Inductive PyVal : Type :=
  | PNone
  | PInt (n : Z)
  | PFloat (x : Float.float)
  | PStr (s : string).

(** The [RuntimeError]s of the repository, by message. *)
Inductive Message : Type :=
  | MissingColumn (sheet column : string)
      (* "A aba <sheet> precisa ter a coluna '<column>'." *)
  | LevelNotFound (nivel : string)
      (* "Não achei o nível '<nivel>' na aba Níveis." *)
  | InvalidPercent (nivel pct_str : string)
      (* "Percentual inválido para Sales Executive/<nivel>: '<pct_str>'" *)
  | MissingProfitColumn
      (* "Não achei coluna de GP. Esperava 'Profit Liquido' na aba Apurado." *)
  | MissingKeys
      (* "Defina GSHEETS_PARAM_KEY e GSHEETS_SPREADSHEET_KEY." *)
  | NoSalesExecutive
      (* "Não encontrei ninguém com Função = Sales Executive ..." *)
  | GidNotFound (gid : Z) (spreadsheet_key : string).
      (* "GID <gid> não encontrado na planilha <key>." *)

Inductive Exc : Type :=
  | RuntimeError (m : Message)
  | ValueError
  | OverflowError
  | AttributeError
  | KeyError (key : string)
  | Foreign (what : string).   (* raised inside gspread, re or pymysql *)

Inductive outcome (A : Type) : Type :=
  | Return (a : A)
  | Raise (e : Exc).
Arguments Return {A} a.
Arguments Raise {A} e.

(* ================================================================== *)
(** * Part II.  Tables, collaborators and effects *)
(* ================================================================== *)

(** ** Data frames

    A row is a pandas [Series]: cells by column label, in column order.
    The cells are the strings [get_all_values] returns.  A frame built
    by [read_sheet_by_gid] gives every row the labels of [columns]. *)

Definition Row : Type := list (string * string).

Record DataFrame : Type := {
  columns : list string;
  rows : list Row
}.

(** [r.get(c)] *)
Fixpoint get (r : Row) (c : string) : option string :=
  match r with
  | [] => None
  | (k, v) :: rest => if String.eqb k c then Some v else get rest c
  end.

(** [str(r.get(c) or "")] *)
Definition text (r : Row) (c : string) : string :=
  match get r c with
  | Some v => v
  | None => EmptyString
  end.

(** [r[c] = v]: the cell is replaced where it stands, or added last. *)
Fixpoint set (r : Row) (c v : string) : Row :=
  match r with
  | [] => [(c, v)]
  | (k, w) :: rest =>
      if String.eqb k c then (k, v) :: rest else (k, w) :: set rest c v
  end.

(** The labels after an assignment to column [c]. *)
Definition add_column (cols : list string) (c : string) : list string :=
  if mem c cols then cols else (cols ++ [c])%list.

(** [df[c] = ...], the new cell computed from each row.  The cells
    being strings, [astype(str)] and [fillna("")] change none, and a
    [copy()] is the frame itself, held as a value. *)
Definition assign (df : DataFrame) (c : string) (f : Row -> string) : DataFrame :=
  {| columns := add_column (columns df) c;
     rows := map (fun r => set r c (f r)) (rows df) |}.

(** [df[mask]] *)
Definition select (df : DataFrame) (mask : Row -> bool) : DataFrame :=
  {| columns := columns df; rows := filter mask (rows df) |}.

Definition empty_frame : DataFrame := {| columns := []; rows := [] |}.

(** ** Dates *)

(** A [datetime] of the shipment table; the code reads its year, month
    and day only.  Years have four digits (1000 to 9999 in MySQL). *)
Record datetime : Type := {
  year : Z;
  month : Z;
  day : Z
}.

(** [d.strftime("%Y-%m-%d")] *)
Definition strftime_Ymd (d : datetime) : string :=
  zfill 4 (year d) ++ "-" ++ zfill 2 (month d) ++ "-" ++ zfill 2 (day d).

(** ** Collaborators

    What the run reads from outside and does not change: the process
    environment, the spreadsheets, the shipment table, and the two
    library functions whose behaviour is taken as given. *)

Record Env : Type := {
  (** [os.getenv(name)] *)
  getenv : string -> option string;
  (** The cell values of the worksheet with a given id in a
      spreadsheet: [Return None] when no worksheet has the id, [Raise]
      when gspread fails. *)
  worksheet_values : string -> Z -> outcome (option (list (list string)));
  (** The row [SELECT DATE_CREATION, DATE_COMMISSION FROM
      M0020_SHIPMENT_HOUSE WHERE SHIPMENT_NUMBER = %s ORDER BY
      DATE_CREATION ASC LIMIT 1] fetches, if any. *)
  shipment_row : string -> option (option datetime * option datetime);
  (** [re.compile(pat, re.IGNORECASE)] for a pattern that holds a
      metacharacter: the matcher [search(s) is not None], or the
      [re.error] raised. *)
  re_compile_ignorecase : string -> outcome (string -> bool);
  (** [dateutil.parser.parse(s, dayfirst=b)]; [None] when it raises. *)
  dateutil_parse : bool -> string -> option datetime
}.

(** [os.getenv(name, default)] *)
Definition getenv_default (E : Env) (name default : string) : string :=
  match getenv E name with
  | Some v => v
  | None => default
  end.

(** ** Effects *)

(** The frames [main] shares with the functions it calls. *)
Inductive Ref : Type := DfNiveis | DfMeta | DfApurado.

(** One line of the printed table. *)
Record ReportLine : Type := {
  codigo : string;
  date_creation : string;
  date_comission : string;
  line_nivel : string;
  percentual : Z;            (* printed as "<n>%" *)
  gp : Float.float;
  valor_comissao : Float.float
}.

(** What is printed, by content; the layout of the text is left out. *)
Inductive Out : Type :=
  | PersonHeader (nome email nivel : string) (pct : Z)
                 (competencias : list string) (pay : string)
  | PeriodHeader (nome comp pay : string)
  | NoRows                              (* "Nenhum processo encontrado ..." *)
  | Table (lines : list ReportLine)
  | Totals (gp_total com_total : Float.float)
  | PersonTotals (nome : string) (gp_total com_total : Float.float)
  | GrandTotals (gp_total com_total : Float.float)
  | DebugPrecheck (debug_code : string)
  | DebugNoCodigoColumn
  | DebugHits (n : nat) (first : option Row)
  | DebugRow (comp pay codigo vendedor_raw : string)
             (dt_creation dt_comission : option datetime)
  | DebugVerdict (accepted : bool).

Inductive DbEvent : Type :=
  | Connect
  | Execute (shipment_number : string)
  | Close.

Record State : Type := {
  df_niveis : DataFrame;
  df_meta : DataFrame;
  df_apurado : DataFrame;
  db_log : list DbEvent;      (* newest first *)
  stdout : list Out           (* newest first *)
}.

(** A computation may change the state and ends by returning a value or
    by raising; what it did before raising stays done. *)
Definition M (A : Type) : Type := State -> outcome A * State.

Definition ret {A : Type} (a : A) : M A := fun st => (Return a, st).

Definition raise {A : Type} (e : Exc) : M A := fun st => (Raise e, st).

Definition bind {A B : Type} (c : M A) (k : A -> M B) : M B :=
  fun st =>
    match c st with
    | (Return a, st') => k a st'
    | (Raise e, st') => (Raise e, st')
    end.

Declare Scope py_scope.
Delimit Scope py_scope with py.
Notation "x <- c ;; k" := (bind c (fun x => k))
  (at level 61, c at next level, right associativity) : py_scope.
Notation "c ;;; k" := (bind c (fun _ => k))
  (at level 61, right associativity) : py_scope.
#[local] Open Scope py_scope.

(** An [outcome] computed without touching the state. *)
Definition lift {A : Type} (o : outcome A) : M A := fun st => (o, st).

(** Reading the object a name is bound to. *)
Definition frame (r : Ref) : M DataFrame :=
  fun st =>
    (Return match r with
            | DfNiveis => df_niveis st
            | DfMeta => df_meta st
            | DfApurado => df_apurado st
            end, st).

(** Changing the object in place (or binding the name, in [main]). *)
Definition store (r : Ref) (df : DataFrame) : M unit :=
  fun st =>
    (Return tt,
     match r with
     | DfNiveis => {| df_niveis := df; df_meta := df_meta st; df_apurado := df_apurado st;
                      db_log := db_log st; stdout := stdout st |}
     | DfMeta => {| df_niveis := df_niveis st; df_meta := df; df_apurado := df_apurado st;
                    db_log := db_log st; stdout := stdout st |}
     | DfApurado => {| df_niveis := df_niveis st; df_meta := df_meta st; df_apurado := df;
                       db_log := db_log st; stdout := stdout st |}
     end).

Definition print (o : Out) : M unit :=
  fun st =>
    (Return tt,
     {| df_niveis := df_niveis st; df_meta := df_meta st; df_apurado := df_apurado st;
        db_log := db_log st; stdout := o :: stdout st |}).

Definition db (ev : DbEvent) : M unit :=
  fun st =>
    (Return tt,
     {| df_niveis := df_niveis st; df_meta := df_meta st; df_apurado := df_apurado st;
        db_log := ev :: db_log st; stdout := stdout st |}).

(** [if cond: raise e] *)
Definition raise_if (cond : bool) (e : Exc) : M unit :=
  if cond then raise e else ret tt.

(** The frames of a state, which is what the callers share. *)
Definition frames (st : State) : DataFrame * DataFrame * DataFrame :=
  (df_niveis st, df_meta st, df_apurado st).

(* ================================================================== *)
(** * Part III.  The functions of the repository *)
(* ================================================================== *)

(** ** [audaz_comissoes/number.py] *)

Module Number.

(** The class [[\d,\.\-+]] of the pattern in [re.sub]. *)
Definition numeric_char (c : ascii) : bool :=
  isdigit c || Ascii.eqb c "," || Ascii.eqb c "." || Ascii.eqb c "-" || Ascii.eqb c "+".

Definition parse_ptbr_number (x : PyVal) : outcome Float.float :=
  match x with
  | PNone => Return Float.zero
  | PInt n =>
      match Numeral.float_of_int n with
      | Some f => Return f
      | None => Raise OverflowError
      end
  | PFloat f => Return f
  | PStr x =>
      let s := strip x in
      if negb (truthy s) then Return Float.zero
      else
        let s := keep numeric_char s in
        let s := if contains "," s then replace "," "." (replace "." "" s) else s in
        match Numeral.decimal_of_str s with
        | None => Return Float.zero                 (* InvalidOperation *)
        | Some d =>
            match Numeral.float_of_decimal d with
            | None => Return Float.zero             (* ValueError *)
            | Some f => Return f
            end
        end
  end.

End Number.

(** ** [audaz_comissoes/sheets_client.py] *)

Module Sheets.

(** The dictionary [used]. *)
Fixpoint used_get (used : list (string * Z)) (k : string) : Z :=
  match used with
  | [] => 0
  | (k', n) :: rest => if String.eqb k' k then n else used_get rest k
  end.

Fixpoint used_set (used : list (string * Z)) (k : string) (n : Z) : list (string * Z) :=
  match used with
  | [] => [(k, n)]
  | (k', m) :: rest =>
      if String.eqb k' k then (k', n) :: rest else (k', m) :: used_set rest k n
  end.

(** The body of the loop of [_safe_headers], from index [i] on. *)
Fixpoint safe_headers_from (i : Z) (used : list (string * Z)) (headers : list string)
  : list string :=
  match headers with
  | [] => []
  | h :: rest =>
      let base := if truthy (strip h) then strip h
                  else "COLUNA " ++ str_of_nat (i + 1) in
      let n := used_get used base in
      let name := if n =? 0 then base else base ++ "__" ++ str_of_nat (n + 1) in
      name :: safe_headers_from (i + 1) (used_set used base (n + 1)) rest
  end.

Definition _safe_headers (headers : list string) : list string :=
  safe_headers_from 0 [] headers.

(** [(row + [""] * n)[:n]] *)
Definition fit (n : nat) (row : list string) : list string :=
  firstn n (row ++ repeat EmptyString n).

(** [dict(zip(headers, row))] *)
Fixpoint dict_zip (d : Row) (headers row : list string) : Row :=
  match headers, row with
  | h :: hs, v :: vs => dict_zip (set d h v) hs vs
  | _, _ => d
  end.

(** [_get_records_tolerant(ws)], from the values of the worksheet. *)
Definition _get_records_tolerant (values : list (list string)) : list Row :=
  match values with
  | [] => []
  | header_row :: data =>
      let headers := _safe_headers header_row in
      let step (row : list string) : list Row :=
        let row := fit (List.length headers) row in
        if List.forallb (fun x => negb (truthy (strip x))) row then []
        else [dict_zip [] headers row] in
      flat_map step data
  end.

(** The labels of a list of records, each at its first appearance. *)
Fixpoint labels (seen : list string) (records : list Row) : list string :=
  match records with
  | [] => seen
  | r :: rest =>
      labels (fold_left (fun acc k => if mem k acc then acc else (acc ++ [k])%list)
                        (map fst r) seen) rest
  end.

(** [pd.DataFrame(records)] with the labels stripped.  The records of
    [_get_records_tolerant] all carry the same labels. *)
Definition _records_to_df (records : list Row) : DataFrame :=
  let cols := labels [] records in
  {| columns := map strip cols;
     rows := map (fun r => map (fun c => (strip c, text r c)) cols) records |}.

Definition read_sheet_by_gid (E : Env) (spreadsheet_key : string) (gid : Z) : M DataFrame :=
  (alvo <- lift (worksheet_values E spreadsheet_key gid) ;;
   match alvo with
   | None => raise (RuntimeError (GidNotFound gid spreadsheet_key))
   | Some values => ret (_records_to_df (_get_records_tolerant values))
   end)%py.

End Sheets.

(** ** [audaz_comissoes/mysql_repo.py] *)

Module MysqlRepo.

Definition ShipmentDates : Type := (option datetime * option datetime)%type.

(** The argument is annotated [str]; [None] stands for a caller that
    passes [None].  Opening the connection is taken to succeed. *)
Definition get_shipment_dates_by_number (E : Env) (shipment_number : option string)
  : M ShipmentDates :=
  match shipment_number with
  | None => ret (None, None)
  | Some number =>
      if negb (truthy number) then ret (None, None)
      else
        (db Connect ;;;
         db (Execute number) ;;;
         let found := match shipment_row E number with
                      | None => (None, None)
                      | Some row => row
                      end in
         db Close ;;;
         ret found)%py
  end.

Definition get_dates_by_shipment_number (E : Env) (shipment_number : option string)
  : M (option datetime * option datetime) :=
  (d <- get_shipment_dates_by_number E shipment_number ;;
   ret (fst d, snd d))%py.

End MysqlRepo.

(** ** [scripts/test_sales_exec_comp_by_date_creation_and_date_comission.py] *)

Module Report.

Import MysqlRepo.

Definition _to_yyyymm (d : datetime) : string :=
  zfill 4 (year d) ++ "-" ++ zfill 2 (month d).

Definition _norm_text (s : string) : string :=
  let s := lower (strip s) in
  let s := replace (u8 "â") "a" (replace (u8 "à") "a"
             (replace (u8 "á") "a" (replace (u8 "ã") "a" s))) in
  let s := replace (u8 "ê") "e" (replace (u8 "é") "e" s) in
  let s := replace (u8 "í") "i" s in
  let s := replace (u8 "ô") "o" (replace (u8 "ó") "o" s) in
  let s := replace (u8 "ú") "u" s in
  let s := replace (u8 "ç") "c" s in
  s.

Definition parse_ptbr_money (x : PyVal) : outcome Float.float :=
  match x with
  | PNone => Return Float.zero
  | PInt n =>
      match Numeral.float_of_int n with
      | Some f => Return f
      | None => Raise OverflowError
      end
  | PFloat f => Return f
  | PStr x =>
      let s := strip x in
      if negb (truthy s) then Return Float.zero
      else
        let s := replace " " "" (replace "R$" "" s) in
        let s := if contains "," s then replace "," "." (replace "." "" s) else s in
        match Numeral.float_of_str s with
        | Some f => Return f
        | None => Return Float.zero                 (* except Exception *)
        end
  end.

(** The digits of a percentage cell that ends in a percent sign. *)
Definition pct_num (pct_str : string) : string :=
  replace "," "." (replace "." "" (strip (replace "%" "" pct_str))).

Definition get_percentual_sales_exec (df_niveis : Ref) (nivel : string) : M Float.float :=
  (niveis <- frame df_niveis ;;
   raise_if (negb (mem "Niveis" (columns niveis)))
            (RuntimeError (MissingColumn (u8 "Níveis") "Niveis")) ;;;
   (* df = df_niveis.copy(); df["Niveis"] = df["Niveis"].astype(str) *)
   let df := assign niveis "Niveis" (fun r => text r "Niveis") in
   let nk := _norm_text nivel in
   let row := select df (fun r => String.eqb (_norm_text (text r "Niveis")) nk) in
   match rows row with
   | [] => raise (RuntimeError (LevelNotFound nivel))
   | first :: _ =>
       let pct_str := strip (text first "Sales Executive") in
       raise_if (negb (endswith "%" pct_str))
                (RuntimeError (InvalidPercent nivel pct_str)) ;;;
       match Numeral.float_of_str (pct_num pct_str) with
       | None => raise ValueError
       | Some x => ret (Float.div x (Float.of_Z 100))
       end
   end)%py.

Record Person : Type := {
  nome : string;
  email : string;
  nivel : string
}.

(** The first loop of [get_sales_exec_people]. *)
Definition person_of_row (r : Row) : list Person :=
  let nome := strip (text r "Colaborador") in
  let email := strip (text r "Email") in
  let nivel := strip (text r (u8 "Nível")) in
  if negb (truthy nome) || negb (truthy nivel) then []
  else [{| nome := nome; email := email; nivel := nivel |}].

Definition person_key (p : Person) : string :=
  lower (strip (if truthy (email p) then email p else nome p)).

(** The second loop: [seen] is the set of keys met so far. *)
Fixpoint uniq (seen : list string) (people : list Person) : list Person :=
  match people with
  | [] => []
  | p :: rest =>
      let key := person_key p in
      if mem key seen then uniq seen rest
      else p :: uniq (key :: seen) rest
  end.

Definition required_columns : list string :=
  ["Colaborador"; "Email"; u8 "Função"; u8 "Nível"].

Fixpoint require_columns (sheet : string) (required cols : list string) : M unit :=
  match required with
  | [] => ret tt
  | c :: rest =>
      (raise_if (negb (mem c cols)) (RuntimeError (MissingColumn sheet c)) ;;;
       require_columns sheet rest cols)%py
  end.

Definition get_sales_exec_people (df_meta : Ref) : M (list Person) :=
  (meta <- frame df_meta ;;
   require_columns "Meta Colaborador" required_columns (columns meta) ;;;
   (* df = df_meta.copy(); df[c] = df[c].astype(str).fillna("") *)
   let df := fold_left (fun df c => assign df c (fun r => text r c))
                       required_columns meta in
   let df := assign df "_func_norm" (fun r => _norm_text (text r (u8 "Função"))) in
   let df := select df (fun r => String.eqb (text r "_func_norm")
                                            (_norm_text "Sales Executive")) in
   let people := flat_map person_of_row (rows df) in
   ret (uniq [] people))%py.

(** The metacharacters of a regular expression. *)
Definition re_meta (c : ascii) : bool :=
  Text.existsb (Ascii.eqb c) ".^$*+?{}[]\|()".

(** [Series.str.contains(pat, case=False, na=False)] compiles [pat] as
    a regular expression that ignores case.  A pattern without
    metacharacters matches where it occurs, letter case apart. *)
Definition compile_ignorecase (E : Env) (pat : string) : outcome (string -> bool) :=
  if Text.existsb re_meta pat then re_compile_ignorecase E pat
  else Return (fun s => contains (lower pat) (lower s)).

Definition filter_apurado_by_vendedor (E : Env) (df_ap : Ref) (nome : string)
  : M DataFrame :=
  (ap <- frame df_ap ;;
   raise_if (negb (mem (u8 "Código") (columns ap)))
            (RuntimeError (MissingColumn "Apurado" (u8 "Código"))) ;;;
   raise_if (negb (mem "Vendedor" (columns ap)))
            (RuntimeError (MissingColumn "Apurado" "Vendedor")) ;;;
   (* df = df_ap.copy(); df["Vendedor"] = df["Vendedor"].astype(str) *)
   let df := assign ap "Vendedor" (fun r => text r "Vendedor") in
   matches <- lift (compile_ignorecase E nome) ;;
   ret (select df (fun r => matches (text r "Vendedor"))))%py.

Definition _debug_precheck_in_apurados (df_ap : Ref) (debug_code : string) : M unit :=
  if negb (truthy debug_code) then ret tt
  else
    (print (DebugPrecheck debug_code) ;;;
     ap <- frame df_ap ;;
     if negb (mem (u8 "Código") (columns ap)) then print DebugNoCodigoColumn
     else
       (* df_ap["_codigo_norm"] = ...: no copy, the caller's frame is written *)
       let ap' := assign ap "_codigo_norm" (fun r => strip (text r (u8 "Código"))) in
       store df_ap ap' ;;;
       let hits := select ap' (fun r => String.eqb (text r "_codigo_norm") debug_code) in
       print (DebugHits (List.length (rows hits)) (hd_error (rows hits))))%py.

(** [int(round(pct*100))], printed in the header and in every line. *)
Definition percent_label (pct : Float.float) : outcome Z :=
  match Numeral.round_to_int (Float.mul pct (Float.of_Z 100)) with
  | Numeral.Rounded n => Return n
  | Numeral.RoundNaN => Raise ValueError
  | Numeral.RoundInfinity => Raise OverflowError
  end.

(** [r.get(c)] as an argument of [parse_ptbr_money]. *)
Definition value (r : Row) (c : string) : PyVal :=
  match get r c with
  | Some v => PStr v
  | None => PNone
  end.

Definition when (cond : bool) (c : M unit) : M unit :=
  if cond then c else ret tt.

(** What [run_for_person] fixes before its loops.  The source computes
    the label [int(round(pct*100))] for the header and again for every
    line; [run_label] is that one value. *)
Record Run : Type := {
  run_nivel : string;
  run_pct : Float.float;
  run_label : Z;
  run_pay : string;
  run_debug_code : string
}.

(** One turn of the loop over [df_person.iterrows()], up to the line it
    appends: [None] is a [continue]. *)
Definition row_step (E : Env) (R : Run) (comp : string) (r : Row) : M (option ReportLine) :=
  let debug := truthy (run_debug_code R) in
  let codigo := strip (text r (u8 "Código")) in
  if negb (truthy codigo) then ret None
  else if debug && negb (String.eqb codigo (run_debug_code R)) then ret None
  else
    (dates <- get_dates_by_shipment_number E (Some codigo) ;;
     when debug (print (DebugRow comp (run_pay R) codigo (text r "Vendedor")
                                 (fst dates) (snd dates))) ;;;
     match dates with
     | (Some dt_creation, Some dt_comission) =>
         let comp_ok := String.eqb (_to_yyyymm dt_creation) comp in
         let pay_ok := String.eqb (_to_yyyymm dt_comission) (run_pay R) in
         if negb comp_ok then when debug (print (DebugVerdict false)) ;;; ret None
         else if negb pay_ok then when debug (print (DebugVerdict false)) ;;; ret None
         else
           gp <- lift (parse_ptbr_money (value r "Profit Liquido")) ;;
           let valor_com := Float.round2 (Float.mul gp (run_pct R)) in
           ret (Some {| codigo := codigo;
                        date_creation := strftime_Ymd dt_creation;
                        date_comission := strftime_Ymd dt_comission;
                        line_nivel := run_nivel R;
                        percentual := run_label R;
                        gp := gp;
                        valor_comissao := valor_com |})
     | _ => when debug (print (DebugVerdict false)) ;;; ret None
     end)%py.

(** [out_rows], [gp_total] and [com_total] of one period. *)
Definition Period : Type := (list ReportLine * Float.float * Float.float)%type.

Definition append_line (acc : Period) (l : ReportLine) : Period :=
  let '(out_rows, gp_total, com_total) := acc in
  ((out_rows ++ [l])%list, Float.add gp_total (gp l), Float.add com_total (valor_comissao l)).

(** The loop over the rows; with a debug code it stops at the first
    line it appends. *)
Fixpoint rows_loop (E : Env) (R : Run) (comp : string) (rs : list Row) (acc : Period)
  : M Period :=
  match rs with
  | [] => ret acc
  | r :: rest =>
      (step <- row_step E R comp r ;;
       match step with
       | None => rows_loop E R comp rest acc
       | Some l =>
           if truthy (run_debug_code R)
           then print (DebugVerdict true) ;;; ret (append_line acc l)
           else rows_loop E R comp rest (append_line acc l)
       end)%py
  end.

(** [sort_values(["date_creation", "codigo"])]: a stable sort. *)
Definition line_le (a b : ReportLine) : bool :=
  ltb (date_creation a) (date_creation b)
  || (String.eqb (date_creation a) (date_creation b) && negb (ltb (codigo b) (codigo a))).

Fixpoint insert_line (l : ReportLine) (sorted : list ReportLine) : list ReportLine :=
  match sorted with
  | [] => [l]
  | x :: rest => if line_le l x then l :: sorted else x :: insert_line l rest
  end.

Definition sort_lines (ls : list ReportLine) : list ReportLine :=
  fold_right insert_line [] ls.

(** The loop over [competencias]. *)
Fixpoint periods_loop (E : Env) (R : Run) (nome : string) (df_person : DataFrame)
    (competencias : list string) (gp_total_all com_total_all : Float.float)
  : M (Float.float * Float.float) :=
  match competencias with
  | [] => ret (gp_total_all, com_total_all)
  | comp :: rest =>
      (period <- rows_loop E R comp (rows df_person) ([], Float.zero, Float.zero) ;;
       let '(out_rows, gp_total, com_total) := period in
       print (PeriodHeader nome comp (run_pay R)) ;;;
       match out_rows with
       | [] =>
           print NoRows ;;;
           periods_loop E R nome df_person rest gp_total_all com_total_all
       | _ =>
           print (Table (sort_lines out_rows)) ;;;
           print (Totals gp_total com_total) ;;;
           periods_loop E R nome df_person rest
                        (Float.add gp_total_all gp_total)
                        (Float.add com_total_all com_total)
       end)%py
  end.

Definition run_for_person (E : Env) (df_niveis df_ap : Ref) (nome email nivel : string)
    (competencias : list string) (pay_yyyymm : string)
  : M (Float.float * Float.float) :=
  (ap <- frame df_ap ;;
   raise_if (negb (mem "Profit Liquido" (columns ap)))
            (RuntimeError MissingProfitColumn) ;;;
   pct <- get_percentual_sales_exec df_niveis nivel ;;
   df_person <- filter_apurado_by_vendedor E df_ap nome ;;
   let debug_code := strip (getenv_default E "DEBUG_CODE" "") in
   label <- lift (percent_label pct) ;;
   print (PersonHeader nome email nivel label competencias pay_yyyymm) ;;;
   let R := {| run_nivel := nivel; run_pct := pct; run_label := label;
               run_pay := pay_yyyymm; run_debug_code := debug_code |} in
   totals <- periods_loop E R nome df_person competencias Float.zero Float.zero ;;
   print (PersonTotals nome (fst totals) (snd totals)) ;;;
   ret totals)%py.

(** [s.split(",")] *)
Fixpoint split_comma (s : string) (current : string) : list string :=
  match s with
  | EmptyString => [current]
  | String c rest =>
      if Ascii.eqb c "," then current :: split_comma rest EmptyString
      else split_comma rest (current ++ String c EmptyString)
  end.

(** The loop of [main] over [people]. *)
Fixpoint people_loop (E : Env) (people : list Person) (competencias : list string)
    (pay_yyyymm : string) (gp_geral com_geral : Float.float)
  : M (Float.float * Float.float) :=
  match people with
  | [] => ret (gp_geral, com_geral)
  | p :: rest =>
      (totals <- run_for_person E DfNiveis DfApurado (nome p) (email p) (nivel p)
                                competencias pay_yyyymm ;;
       people_loop E rest competencias pay_yyyymm
                   (Float.add gp_geral (fst totals))
                   (Float.add com_geral (snd totals)))%py
  end.

(** [int(os.getenv(name, default))] *)
Definition getenv_int (E : Env) (name default : string) : M Z :=
  match Numeral.int_of_str (getenv_default E name default) with
  | Some n => ret n
  | None => raise ValueError
  end.

Definition main (E : Env) : M unit :=
  let PARAM_KEY := getenv_default E "GSHEETS_PARAM_KEY" "" in
  let ATLANTIS_KEY := getenv_default E "GSHEETS_SPREADSHEET_KEY" "" in
  (raise_if (negb (truthy PARAM_KEY) || negb (truthy ATLANTIS_KEY))
            (RuntimeError MissingKeys) ;;;
   GID_NIVEIS <- getenv_int E "GSHEETS_NIVEIS_GID" "1124232309" ;;
   GID_META_COLAB <- getenv_int E "GSHEETS_META_COLABORADOR_GID" "873121416" ;;
   GID_APURADO <- getenv_int E "GSHEETS_OPERACOES_GID" "1259003990" ;;
   let pay_yyyymm := strip (getenv_default E "TEST_PAY_YYYYMM" "2025-12") in
   let competencias_raw :=
     strip (getenv_default E "TEST_COMPETENCIAS" "2025-08,2025-09,2025-10") in
   let competencias :=
     filter truthy (map strip (split_comma competencias_raw EmptyString)) in
   let debug_code := strip (getenv_default E "DEBUG_CODE" "") in
   niveis <- Sheets.read_sheet_by_gid E PARAM_KEY GID_NIVEIS ;;
   store DfNiveis niveis ;;;
   meta <- Sheets.read_sheet_by_gid E PARAM_KEY GID_META_COLAB ;;
   store DfMeta meta ;;;
   ap <- Sheets.read_sheet_by_gid E ATLANTIS_KEY GID_APURADO ;;
   store DfApurado ap ;;;
   _debug_precheck_in_apurados DfApurado debug_code ;;;
   people <- get_sales_exec_people DfMeta ;;
   raise_if (match people with [] => true | _ => false end)
            (RuntimeError NoSalesExecutive) ;;;
   geral <- people_loop E people competencias pay_yyyymm Float.zero Float.zero ;;
   print (GrandTotals (fst geral) (snd geral)))%py.

End Report.

(** ** [scripts/test_danielle_set_out_pay_dez.py]

    The variant script; it shares [parse_ptbr_money] and the level
    normalisation with the report script, text for text. *)

Module Variant.

Definition _to_yyyymm (d : datetime) : string :=
  zfill 4 (year d) ++ "-" ++ zfill 2 (month d).

(** [_ISO_DATE_PREFIX.match(s)]: white space, then [dddd-dd-dd]. *)
Definition iso_date_prefix (s : string) : bool :=
  let t := lstrip s in
  let digits (from n : nat) := forallb isdigit (substring from n t) in
  (10 <=? String.length t)%nat
  && digits 0%nat 4%nat && String.eqb (substring 4 1 t) "-"
  && digits 5%nat 2%nat && String.eqb (substring 7 1 t) "-"
  && digits 8%nat 2%nat.

(** [_parse_date_any(x)] for a cell of the sheet. *)
Definition _parse_date_any (E : Env) (x : string) : option datetime :=
  let s := strip x in
  if negb (truthy s) then None
  else if iso_date_prefix s then dateutil_parse E false s
  else dateutil_parse E true s.

Definition _norm_level (s : string) : string :=
  let s := lower (strip s) in
  let s := replace (u8 "â") "a" (replace (u8 "à") "a"
             (replace (u8 "á") "a" (replace (u8 "ã") "a" s))) in
  let s := replace (u8 "ê") "e" (replace (u8 "é") "e" s) in
  let s := replace (u8 "í") "i" s in
  let s := replace (u8 "ô") "o" (replace (u8 "ó") "o" s) in
  let s := replace (u8 "ú") "u" s in
  let s := replace (u8 "ç") "c" s in
  s.

Definition parse_ptbr_money (x : PyVal) : outcome Float.float :=
  match x with
  | PNone => Return Float.zero
  | PInt n =>
      match Numeral.float_of_int n with
      | Some f => Return f
      | None => Raise OverflowError
      end
  | PFloat f => Return f
  | PStr x =>
      let s := strip x in
      if negb (truthy s) then Return Float.zero
      else
        let s := replace " " "" (replace "R$" "" s) in
        let s := if contains "," s then replace "," "." (replace "." "" s) else s in
        match Numeral.float_of_str s with
        | Some f => Return f
        | None => Return Float.zero                 (* except Exception *)
        end
  end.

(** Without a column [Niveis], [df.get("Niveis", "")] is the string
    [""], which has no [astype]. *)
Definition get_percentual_sales_exec (df_niveis : Ref) (nivel : string) : M Float.float :=
  (niveis <- frame df_niveis ;;
   raise_if (negb (mem "Niveis" (columns niveis))) AttributeError ;;;
   (* df = df_niveis.copy(); df["Niveis"] = df.get("Niveis", "").astype(str) *)
   let df := assign niveis "Niveis" (fun r => text r "Niveis") in
   let nk := _norm_level nivel in
   let row := select df (fun r => String.eqb (_norm_level (text r "Niveis")) nk) in
   match rows row with
   | [] => raise (RuntimeError (LevelNotFound nivel))
   | first :: _ =>
       let pct_str := strip (text first "Sales Executive") in
       raise_if (negb (endswith "%" pct_str))
                (RuntimeError (InvalidPercent nivel pct_str)) ;;;
       match Numeral.float_of_str (Report.pct_num pct_str) with
       | None => raise ValueError
       | Some x => ret (Float.div x (Float.of_Z 100))
       end
   end)%py.

(** The column [_pay_dt] holds dates; the frame keeps them as text. *)
Definition date_text (d : option datetime) : string :=
  match d with
  | Some d => strftime_Ymd d
  | None => EmptyString
  end.

Definition filter_apurado (E : Env) (df_ap : Ref) (vendedor_nome pay_yyyymm : string)
  : M (DataFrame * string) :=
  (df <- frame df_ap ;;                       (* df = df_ap.copy() *)
   let pay_col := strip (getenv_default E "PAY_DATE_COLUMN" "") in
   let pay_col := if truthy pay_col then pay_col
                  else if mem "Aprovada" (columns df) then "Aprovada" else "" in
   raise_if (negb (mem (u8 "Código") (columns df)))
            (RuntimeError (MissingColumn "Apurado" (u8 "Código"))) ;;;
   raise_if (negb (mem "Vendedor" (columns df)))
            (RuntimeError (MissingColumn "Apurado" "Vendedor")) ;;;
   let df := assign df "Vendedor" (fun r => text r "Vendedor") in
   matches <- lift (Report.compile_ignorecase E vendedor_nome) ;;
   let df := select df (fun r => matches (text r "Vendedor")) in
   if truthy pay_col then
     raise_if (negb (mem pay_col (columns df))) (KeyError pay_col) ;;;
     let dated (r : Row) : Row :=
       let d := _parse_date_any E (text r pay_col) in
       set (set r "_pay_dt" (date_text d)) "_pay_yyyymm"
           (match d with
            | Some d => _to_yyyymm d
            | None => EmptyString
            end) in
     let df := {| columns := add_column (add_column (columns df) "_pay_dt") "_pay_yyyymm";
                  rows := map dated (rows df) |} in
     let df := select df (fun r => String.eqb (text r "_pay_yyyymm") pay_yyyymm) in
     ret (df, pay_col)
   else
     ret (assign df "_pay_yyyymm" (fun _ => EmptyString), pay_col))%py.

End Variant.

(** ** A run of the script

    One person at level Guardiao, one shipment created in August 2025
    and settled in December 2025. *)

Module Scenario.

Definition niveis_values : list (list string) :=
  [["Niveis"; "Sales Executive"]; ["Guardiao"; "50%"]].
Definition meta_values : list (list string) :=
  [["Colaborador"; "Email"; u8 "Função"; u8 "Nível"];
   ["Ana Souza"; "ana@audaz.example"; "Sales Executive"; u8 "Guardião"]].
Definition apurado_values : list (list string) :=
  [[u8 "Código"; "Vendedor"; "Profit Liquido"];
   ["SH001"; "Ana Souza"; "R$ 1.000,00"]].

Definition E : Env :=
  {| getenv := fun name =>
       if String.eqb name "GSHEETS_PARAM_KEY" then Some "param"
       else if String.eqb name "GSHEETS_SPREADSHEET_KEY" then Some "atlantis"
       else None;
     worksheet_values := fun key gid =>
       if String.eqb key "param" && (gid =? 1124232309) then Return (Some niveis_values)
       else if String.eqb key "param" && (gid =? 873121416) then Return (Some meta_values)
       else if String.eqb key "atlantis" && (gid =? 1259003990) then Return (Some apurado_values)
       else Return None;
     shipment_row := fun number =>
       if String.eqb number "SH001"
       then Some (Some {| year := 2025; month := 8; day := 15 |},
                  Some {| year := 2025; month := 12; day := 5 |})
       else None;
     re_compile_ignorecase := fun _ => Raise (Foreign "re.error");
     dateutil_parse := fun _ _ => None |}.

Definition initial : State :=
  {| df_niveis := empty_frame; df_meta := empty_frame; df_apurado := empty_frame;
     db_log := []; stdout := [] |}.

(** The state once [main] has read the three sheets. *)
Definition loaded : State :=
  {| df_niveis := Sheets._records_to_df (Sheets._get_records_tolerant niveis_values);
     df_meta := Sheets._records_to_df (Sheets._get_records_tolerant meta_values);
     df_apurado := Sheets._records_to_df (Sheets._get_records_tolerant apurado_values);
     db_log := []; stdout := [] |}.

(** The same collaborators with the variable DEBUG_CODE set. *)
Definition with_debug_code (debug_code : string) : Env :=
  {| getenv := fun name =>
       if String.eqb name "DEBUG_CODE" then Some debug_code else getenv E name;
     worksheet_values := worksheet_values E;
     shipment_row := shipment_row E;
     re_compile_ignorecase := re_compile_ignorecase E;
     dateutil_parse := dateutil_parse E |}.

(** What [run_for_person] fixes for Ana Souza. *)
Definition ana : Report.Run :=
  {| Report.run_nivel := u8 "Guardião"; Report.run_pct := Prim2SF 0.5;
     Report.run_label := 50; Report.run_pay := "2025-12";
     Report.run_debug_code := EmptyString |}.

End Scenario.

(** ** Vocabulary of the properties *)

(** The first [k] characters of [s] all fail [p]. *)
Fixpoint head_fails (p : ascii -> bool) (k : nat) (s : string) : bool :=
  match k, s with
  | S k', String c rest => negb (p c) && head_fails p k' rest
  | _, _ => true
  end.

(** The characters of a plain numeral: digits, point and signs. *)
Definition plain_char (c : ascii) : bool :=
  isdigit c || Ascii.eqb c "." || Ascii.eqb c "-" || Ascii.eqb c "+".

(** [try: return float(...) except: return 0.0] *)
Definition or_zero (o : option Float.float) : outcome Float.float :=
  match o with
  | Some f => Return f
  | None => Return Float.zero
  end.

(** What the scripts leave of a cell before looking for a comma. *)
Definition script_text (s : string) : string :=
  replace " " "" (replace "R$" "" (strip s)).

(** What [number.py] leaves of it. *)
Definition number_text (s : string) : string :=
  keep Number.numeric_char (strip s).

(** The dot taken as thousands separator, the comma as decimal point. *)
Definition comma_as_point (t : string) : string :=
  replace "," "." (replace "." "" t).

(** [float(Decimal(t))]; [None] when either step raises. *)
Definition float_of_decimal_str (t : string) : option Float.float :=
  match Numeral.decimal_of_str t with
  | Some d => Numeral.float_of_decimal d
  | None => None
  end.

(** The three implementations of the money parser. *)
Definition money_parsers : list (PyVal -> outcome Float.float) :=
  [Report.parse_ptbr_money; Variant.parse_ptbr_money; Number.parse_ptbr_number].

(** [not shipment_number] *)
Definition falsy (x : option string) : bool :=
  match x with
  | None => true
  | Some s => negb (truthy s)
  end.

(** A row of the worksheet without a non-blank cell, once fitted to
    [n] columns. *)
Definition blank_row (n : nat) (row : list string) : bool :=
  List.forallb (fun x => negb (truthy (strip x))) (Sheets.fit n row).

(** The row is the row of the level [nivel]. *)
Definition level_matches (nivel : string) (r : Row) : bool :=
  String.eqb (Report._norm_text (text r "Niveis")) (Report._norm_text nivel).

(** The row holds the role Sales Executive. *)
Definition is_sales_executive (r : Row) : bool :=
  String.eqb (Report._norm_text (text r (u8 "Função")))
             (Report._norm_text "Sales Executive").

(** The row enters the roster: it has the role, a name and a level. *)
Definition roster_row (r : Row) : bool :=
  is_sales_executive r
  && truthy (strip (text r "Colaborador"))
  && truthy (strip (text r (u8 "Nível"))).

Definition person_of (r : Row) : Report.Person :=
  {| Report.nome := strip (text r "Colaborador");
     Report.email := strip (text r "Email");
     Report.nivel := strip (text r (u8 "Nível")) |}.

(** The first element of each key, in the order of the list. *)
Fixpoint first_by_key {A : Type} (key : A -> string) (l : list A) : list A :=
  match l with
  | [] => []
  | x :: rest =>
      x :: filter (fun y => negb (String.eqb (key y) (key x))) (first_by_key key rest)
  end.

(** A state whose level sheet is the given frame. *)
Definition with_niveis (df : DataFrame) : State :=
  {| df_niveis := df; df_meta := empty_frame; df_apurado := empty_frame;
     db_log := []; stdout := [] |}.

Definition with_meta (df : DataFrame) : State :=
  {| df_niveis := empty_frame; df_meta := df; df_apurado := empty_frame;
     db_log := []; stdout := [] |}.

(** The level sheet of the specification: Guardiao at 50%. *)
Definition guardiao_sheet (pct : string) : DataFrame :=
  {| columns := ["Niveis"; "Sales Executive"];
     rows := [[("Niveis", "Guardiao"); ("Sales Executive", pct)]] |}.

(** A roster sheet with the same e-mail address in two spellings. *)
Definition two_spellings_sheet : DataFrame :=
  {| columns := ["Colaborador"; "Email"; u8 "Função"; u8 "Nível"];
     rows := [[("Colaborador", "Ana Souza"); ("Email", "Ana.Souza@audaz.example");
               (u8 "Função", "Sales Executive"); (u8 "Nível", u8 "Guardião")];
              [("Colaborador", "Bruno Lima"); ("Email", "bruno@audaz.example");
               (u8 "Função", "sales executive "); (u8 "Nível", "Aprendiz")];
              [("Colaborador", "Ana S."); ("Email", "ana.souza@AUDAZ.example");
               (u8 "Função", "Sales Executive"); (u8 "Nível", "Mestre")]] |}.

(** The dates the lookup returns for a code. *)
Definition dates_of (E : Env) (codigo : string) : option datetime * option datetime :=
  match shipment_row E codigo with
  | Some row => row
  | None => (None, None)
  end.

(** The trimmed code of a row. *)
Definition code_of (r : Row) : string := strip (text r (u8 "Código")).

(** The gross value of a row. *)
Definition money (r : Row) : Float.float :=
  match Report.parse_ptbr_money (Report.value r "Profit Liquido") with
  | Return x => x
  | Raise _ => Float.zero
  end.

Definition date_label (d : option datetime) : string :=
  match d with
  | Some d => strftime_Ymd d
  | None => EmptyString
  end.

(** The line of the table for a row. *)
Definition line_for (E : Env) (R : Report.Run) (r : Row) : ReportLine :=
  {| codigo := code_of r;
     date_creation := date_label (fst (dates_of E (code_of r)));
     date_comission := date_label (snd (dates_of E (code_of r)));
     line_nivel := Report.run_nivel R;
     percentual := Report.run_label R;
     gp := money r;
     valor_comissao := Float.round2 (Float.mul (money r) (Report.run_pct R)) |}.

(** The code is not blank, both dates are found, the creation date is
    of the period [comp] and the settlement date of the period [pay]. *)
Definition in_periods (E : Env) (comp pay : string) (r : Row) : bool :=
  truthy (code_of r)
  && match dates_of E (code_of r) with
     | (Some dt_creation, Some dt_comission) =>
         String.eqb (Report._to_yyyymm dt_creation) comp
         && String.eqb (Report._to_yyyymm dt_comission) pay
     | _ => false
     end.

(** The seller's name holds [nome], letter case apart. *)
Definition vendedor_matches (nome : string) (r : Row) : bool :=
  contains (lower nome) (lower (text r "Vendedor")).

(** The five conditions of a row of the report. *)
Definition contributes (E : Env) (nome comp pay : string) (r : Row) : bool :=
  vendedor_matches nome r && in_periods E comp pay r.

(** The debug code, when there is one, lets its own row through
    only. *)
Definition debug_passes (R : Report.Run) (r : Row) : bool :=
  negb (truthy (Report.run_debug_code R))
  || String.eqb (code_of r) (Report.run_debug_code R).

(** What one turn of the loop over the rows yields (the outcome of
    [Report.row_step], see [row_step_yields]). *)
Definition row_result (E : Env) (R : Report.Run) (comp : string) (r : Row)
  : option ReportLine :=
  if in_periods E comp (Report.run_pay R) r && debug_passes R r
  then Some (line_for E R r) else None.

(** The lines a period appends; with a debug code, the first only
    (the lines of [Report.rows_loop], see [rows_loop_yields]). *)
Fixpoint rows_lines (E : Env) (R : Report.Run) (comp : string) (rs : list Row)
  : list ReportLine :=
  match rs with
  | [] => []
  | r :: rest =>
      match row_result E R comp r with
      | None => rows_lines E R comp rest
      | Some l =>
          if truthy (Report.run_debug_code R) then [l]
          else l :: rows_lines E R comp rest
      end
  end.

(** The sum of a list of floats, added from the left onto [z]. *)
Definition sum_from (z : Float.float) (xs : list Float.float) : Float.float :=
  fold_left Float.add xs z.

(** The lines of a period with their two sums. *)
Definition period_of_lines (ls : list ReportLine) : Report.Period :=
  (ls, sum_from Float.zero (map gp ls), sum_from Float.zero (map valor_comissao ls)).

(** The totals of a person after one more period; a period without
    lines adds nothing. *)
Definition add_period (totals : Float.float * Float.float) (ls : list ReportLine)
  : Float.float * Float.float :=
  match ls with
  | [] => totals
  | _ => (Float.add (fst totals) (sum_from Float.zero (map gp ls)),
          Float.add (snd totals) (sum_from Float.zero (map valor_comissao ls)))
  end.

Definition person_totals (E : Env) (R : Report.Run) (rs : list Row)
    (competencias : list string) (start : Float.float * Float.float)
  : Float.float * Float.float :=
  fold_left (fun totals comp => add_period totals (rows_lines E R comp rs))
            competencias start.

(** The rate of a level on a level sheet (the outcome of
    [Report.get_percentual_sales_exec], see [resolver_reads]). *)
Definition level_rate (niveis : DataFrame) (nivel : string) : outcome Float.float :=
  if negb (mem "Niveis" (columns niveis))
  then Raise (RuntimeError (MissingColumn (u8 "Níveis") "Niveis"))
  else
    match find (level_matches nivel) (rows niveis) with
    | None => Raise (RuntimeError (LevelNotFound nivel))
    | Some first =>
        let pct_str := strip (text first "Sales Executive") in
        if endswith "%" pct_str then
          match Numeral.float_of_str (Report.pct_num pct_str) with
          | Some x => Return (Float.div x (Float.of_Z 100))
          | None => Raise ValueError
          end
        else Raise (RuntimeError (InvalidPercent nivel pct_str))
    end.

(** The rows of a seller, or the error of the filter (see
    [seller_reads]). *)
Definition seller_rows (E : Env) (ap : DataFrame) (nome : string) : outcome (list Row) :=
  if negb (mem (u8 "Código") (columns ap))
  then Raise (RuntimeError (MissingColumn "Apurado" (u8 "Código")))
  else if negb (mem "Vendedor" (columns ap))
  then Raise (RuntimeError (MissingColumn "Apurado" "Vendedor"))
  else
    match Report.compile_ignorecase E nome with
    | Raise e => Raise e
    | Return matches => Return (filter (fun r => matches (text r "Vendedor")) (rows ap))
    end.

(** The totals [run_for_person] returns, from the two sheets (see
    [run_for_person_reads]). *)
Definition person_outcome (E : Env) (niveis ap : DataFrame) (nome nivel : string)
    (competencias : list string) (pay_yyyymm : string)
  : outcome (Float.float * Float.float) :=
  if negb (mem "Profit Liquido" (columns ap))
  then Raise (RuntimeError MissingProfitColumn)
  else
    match level_rate niveis nivel with
    | Raise e => Raise e
    | Return pct =>
        match seller_rows E ap nome with
        | Raise e => Raise e
        | Return rs =>
            match Report.percent_label pct with
            | Raise e => Raise e
            | Return label =>
                let R := {| Report.run_nivel := nivel; Report.run_pct := pct;
                            Report.run_label := label; Report.run_pay := pay_yyyymm;
                            Report.run_debug_code :=
                              strip (getenv_default E "DEBUG_CODE" "") |} in
                Return (person_totals E R rs competencias (Float.zero, Float.zero))
            end
        end
    end.

(** The totals of [main], person after person (see
    [people_loop_reads]). *)
Fixpoint grand_totals (E : Env) (niveis ap : DataFrame) (people : list Report.Person)
    (competencias : list string) (pay_yyyymm : string)
    (start : Float.float * Float.float)
  : outcome (Float.float * Float.float) :=
  match people with
  | [] => Return start
  | p :: rest =>
      match person_outcome E niveis ap (Report.nome p) (Report.nivel p)
                           competencias pay_yyyymm with
      | Raise e => Raise e
      | Return totals =>
          grand_totals E niveis ap rest competencias pay_yyyymm
                       (Float.add (fst start) (fst totals),
                        Float.add (snd start) (snd totals))
      end
  end.

(** [yields c o]: from every state [c] ends with the outcome [o] and
    leaves the frames as they were. *)
Definition yields {A : Type} (c : M A) (o : outcome A) : Prop :=
  forall st, exists st', c st = (o, st') /\ frames st' = frames st.

(** The frame a name is bound to in a state. *)
Definition deref (r : Ref) (st : State) : DataFrame :=
  match r with
  | DfNiveis => df_niveis st
  | DfMeta => df_meta st
  | DfApurado => df_apurado st
  end.

(** ** Vocabulary of the further properties *)

(** A text, character by character. *)
Fixpoint map_chars (f : ascii -> ascii) (s : string) : string :=
  match s with
  | EmptyString => EmptyString
  | String c rest => String (f c) (map_chars f rest)
  end.

(** One [replace] of a character by another. *)
Definition subst_char (a b c : ascii) : ascii :=
  if Ascii.eqb a c then b else c.

(** What [_norm_text] does to one character: lower case, then the
    eleven replacements in their order. *)
Definition fold_char (c : ascii) : ascii :=
  let c := lower_char c in
  let c := subst_char (chr 227) "a" c in
  let c := subst_char (chr 225) "a" c in
  let c := subst_char (chr 224) "a" c in
  let c := subst_char (chr 226) "a" c in
  let c := subst_char (chr 233) "e" c in
  let c := subst_char (chr 234) "e" c in
  let c := subst_char (chr 237) "i" c in
  let c := subst_char (chr 243) "o" c in
  let c := subst_char (chr 244) "o" c in
  let c := subst_char (chr 250) "u" c in
  subst_char (chr 231) "c" c.

(** The letters [_norm_text] replaces, and the capital letters. *)
Definition folded_away (c : ascii) : bool :=
  Text.existsb (Ascii.eqb c) (u8 "ãáàâéêíóôúç")
  || between 65 90 c
  || (between 192 222 c && negb (code c =? 215)).

(** Reading a period ["YYYY-MM"] back: the digits before the hyphen
    and the digits after it. *)
Definition read_yyyymm (s : string) : option (Z * Z) :=
  let '(y, _, rest) := Numeral.scan_digits s 0 0 in
  match rest with
  | String "-" rest' =>
      let '(m, _, rest'') := Numeral.scan_digits rest' 0 0 in
      match rest'' with
      | EmptyString => Some (y, m)
      | _ => None
      end
  | _ => None
  end.

(** An amount as it is written in Brazil, without thousands
    separators: the reais, a comma, the centavos on two digits. *)
Definition reais (i f : Z) : string :=
  str_of_nat i ++ "," ++ zfill 2 f.

(** The name [_safe_headers] gives to the base name [base] met [n]
    times before. *)
Definition header_name (base : string) (n : Z) : string :=
  if n =? 0 then base else base ++ "__" ++ str_of_nat (n + 1).

(** The text has no underscore. *)
Definition no_underscore (s : string) : bool :=
  negb (Text.existsb (Ascii.eqb "_") s).

(** The rows of a worksheet under distinct header names: each cell
    under the name of its column. *)
Definition rows_under (names : list string) (data : list (list string)) : list Row :=
  map (fun row => combine names (Sheets.fit (List.length names) row))
      (filter (fun row => negb (blank_row (List.length names) row)) data).

(** The run of Ana Souza with the debug code SH001. *)
Definition ana_debug : Report.Run :=
  {| Report.run_nivel := u8 "Guardião"; Report.run_pct := Prim2SF 0.5;
     Report.run_label := 50; Report.run_pay := "2025-12";
     Report.run_debug_code := "SH001" |}.

(** Two rows of the same shipment. *)
Definition twice_sh001 : list Row :=
  [[(u8 "Código", "SH001"); ("Vendedor", "Ana Souza"); ("Profit Liquido", "1.000,00")];
   [(u8 "Código", "SH001"); ("Vendedor", "Ana Souza"); ("Profit Liquido", "250,00")]].

(** [logs c o events]: from any state, [c] ends with the outcome [o]
    and has added [events] to the log of the shipment table (newest
    first). *)
Definition logs {A : Type} (c : M A) (o : outcome A) (events : list DbEvent) : Prop :=
  forall st, exists st', c st = (o, st') /\ db_log st' = (events ++ db_log st)%list.

(** The queries of one period over the rows of a seller, in their
    order: one connection for every row with a code. *)
Definition queries (rs : list Row) : list DbEvent :=
  flat_map (fun r => [Connect; Execute (code_of r); Close])
           (filter (fun r => truthy (code_of r)) rs).

(** The label of the rate of a whole percentage is the percentage. *)
Definition whole_percent_ok (n : Z) : bool :=
  match Report.percent_label (Float.div (Float.of_Z n) (Float.of_Z 100)) with
  | Return m => m =? n
  | Raise _ => false
  end.

(** The column [filter_apurado] reads the pay date from: the one the
    variable PAY_DATE_COLUMN names, else Aprovada when the sheet has
    it, else none. *)
Definition pay_column (E : Env) (cols : list string) : string :=
  let named := strip (getenv_default E "PAY_DATE_COLUMN" "") in
  if truthy named then named
  else if mem "Aprovada" cols then "Aprovada" else "".

(** The cells of [out] are those of [r], the columns [added] apart. *)
Definition same_cells_but (added : list string) (out r : Row) : Prop :=
  forall c, mem c added = false -> text out c = text r c.

(** The collaborators of the scenario with the variable
    PAY_DATE_COLUMN set. *)
Definition with_pay_column (pay_col : string) : Env :=
  {| getenv := fun name =>
       if String.eqb name "PAY_DATE_COLUMN" then Some pay_col else getenv Scenario.E name;
     worksheet_values := worksheet_values Scenario.E;
     shipment_row := shipment_row Scenario.E;
     re_compile_ignorecase := re_compile_ignorecase Scenario.E;
     dateutil_parse := dateutil_parse Scenario.E |}.

(** A date as Brazil writes it: [d.strftime("%d/%m/%Y")]. *)
Definition br_date (d : datetime) : string :=
  zfill 2 (day d) ++ "/" ++ zfill 2 (month d) ++ "/" ++ zfill 4 (year d).

(** A period as [main] keeps it: not empty, without a comma and
    without white space at its ends. *)
Definition clean (c : string) : bool :=
  truthy c && negb (Text.existsb (Ascii.eqb ",") c) && String.eqb (strip c) c.

(** [prints c o outs]: from any state, [c] ends with the outcome [o]
    and has printed [outs] (newest first). *)
Definition prints {A : Type} (c : M A) (o : outcome A) (outs : list Out) : Prop :=
  forall st, exists st', c st = (o, st') /\ stdout st' = (outs ++ stdout st)%list.

(** What the report prints for one period of a person, in order. *)
Definition period_output (E : Env) (R : Report.Run) (nome : string) (rs : list Row)
    (comp : string) : list Out :=
  let lines := rows_lines E R comp rs in
  PeriodHeader nome comp (Report.run_pay R)
  :: match lines with
     | [] => [NoRows]
     | _ => [Table (Report.sort_lines lines);
             Totals (sum_from Float.zero (map gp lines))
                    (sum_from Float.zero (map valor_comissao lines))]
     end.

(** Case analysis on the 256 characters. *)
Ltac ascii_cases c := destruct c as [[] [] [] [] [] [] [] []].

(* ================================================================== *)
(** * Part IV.  Properties *)
(* ================================================================== *)

(** ** The runtime model on examples *)

Example u8_a_tilde : u8 "ã" = String (chr 227) EmptyString.
Proof. reflexivity. Qed.

Example strip_ex : strip (u8 "  R$ 1,5 ") = "R$ 1,5".
Proof. reflexivity. Qed.

Example replace_ex :
  (replace "R$" "" "R$ R$R 1R$", replace "aa" "b" "aaaaa", replace "" "x" "abc")
  = (" R 1", "bba", "xaxbxcx").
Proof. reflexivity. Qed.

Example lower_ex : lower (u8 "GUARDIÃO") = u8 "guardião".
Proof. reflexivity. Qed.

Example str_of_nat_ex :
  (str_of_nat 0, str_of_nat 9, str_of_nat 10, str_of_nat 1024,
   zfill 2 8, zfill 4 2025, zfill 2 12)
  = ("0", "9", "10", "1024", "08", "2025", "12").
Proof. reflexivity. Qed.

(** The conversions agree with the literals of the primitive floats. *)
Example of_decimal_ex :
  (Float.of_decimal false 437434 (-2), Float.of_decimal true 5 (-1),
   Float.of_decimal false 15 2, Float.of_decimal false 0 3)
  = (Prim2SF 4374.34, Prim2SF (-0.5), Prim2SF 1500, Prim2SF 0).
Proof. vm_compute. reflexivity. Qed.

Example round2_ex :
  map Float.round2
      [Prim2SF 500; Prim2SF 0.125; Prim2SF 0.375; Prim2SF 2.675; Prim2SF 1.005;
       Prim2SF (-0.001); Prim2SF 1e300; Prim2SF 123.456; Prim2SF 0.005; Prim2SF 1e-320]
  = [Prim2SF 500; Prim2SF 0.12; Prim2SF 0.38; Prim2SF 2.67; Prim2SF 1.0;
     Prim2SF (-0); Prim2SF 1e300; Prim2SF 123.46; Prim2SF 0.01; Prim2SF 0].
Proof. vm_compute. reflexivity. Qed.

Example float_of_str_ex :
  map Numeral.float_of_str
      ["4374.34"; " 1_000.5 "; "1e3"; "-.5"; "5."; "-0"; "1e-400"; "1e400";
       "inf"; "-Infinity"]
  = map Some
      [Prim2SF 4374.34; Prim2SF 1000.5; Prim2SF 1000; Prim2SF (-0.5); Prim2SF 5;
       Prim2SF (-0); Prim2SF 0; Prim2SF infinity;
       Prim2SF infinity; Prim2SF neg_infinity].
Proof. vm_compute. reflexivity. Qed.

Example float_of_str_rejects :
  map Numeral.float_of_str
      ["."; ""; "1__0"; "_1"; "1_"; "infin"; "1e"; "1e+"; "0x10"; "+-5"; "1 2";
       "R5"; "12abc"; "1_e3"; String (chr 31) "1"]
  = repeat None 15.
Proof. vm_compute. reflexivity. Qed.

(** [Decimal] drops every underscore and strips like [str.strip]. *)
Example float_of_decimal_str_ex :
  map float_of_decimal_str
      ["4374.34"; "1__0"; "_1"; "1_e3"; String (chr 31) "1"; "."; "1 2"; "snan"]
  = [Some (Prim2SF 4374.34); Some (Prim2SF 10); Some (Prim2SF 1); Some (Prim2SF 1000);
     Some (Prim2SF 1); None; None; None].
Proof. vm_compute. reflexivity. Qed.

Example float_of_int_ex :
  map Numeral.float_of_int
      [1500; -3; 0; 2 ^ 53 + 1; 2 ^ 1024 - 2 ^ 970 - 1; 2 ^ 1024 - 2 ^ 970; 2 ^ 1024]
  = [Some (Prim2SF 1500); Some (Prim2SF (-3)); Some (Prim2SF 0);
     Some (Prim2SF 9007199254740992); Some (Prim2SF 0x1.fffffffffffffp+1023);
     None; None].
Proof. vm_compute. reflexivity. Qed.

Example int_of_str_ex :
  map Numeral.int_of_str [" 1_0 "; "+5"; "1124232309"; "1__0"; "_1"; ""; "5.0"]
  = [Some 10; Some 5; Some 1124232309; None; None; None; None].
Proof. vm_compute. reflexivity. Qed.

Example round_to_int_ex :
  map Numeral.round_to_int
      [Prim2SF 50; Prim2SF 0.5; Prim2SF 1.5; Prim2SF 2.5; Prim2SF (-2.5);
       Prim2SF 12.500000000000002; Prim2SF 0.49999999999999994]
  = map Numeral.Rounded [50; 0; 2; 2; -2; 13; 0].
Proof. vm_compute. reflexivity. Qed.

Example safe_headers_ex :
  Sheets._safe_headers ["Nome"; " "; "Nome"; ""; "Nome"; "COLUNA 2"]
  = ["Nome"; "COLUNA 2"; "Nome__2"; "COLUNA 4"; "Nome__3"; "COLUNA 2__2"].
Proof. reflexivity. Qed.

Example records_ex :
  Sheets._records_to_df
    (Sheets._get_records_tolerant
       [["A"; "B"; "A"]; ["1"]; [" "; ""]; ["1"; "2"; "3"; "4"]])
  = {| columns := ["A"; "B"; "A__2"];
       rows := [[("A", "1"); ("B", ""); ("A__2", "")];
                [("A", "1"); ("B", "2"); ("A__2", "3")]] |}.
Proof. reflexivity. Qed.

(** ** Facts about text *)

Section TextFacts.

Variable p : ascii -> bool.

Lemma startswith_char (a b : ascii) (s : string) :
  startswith (String a EmptyString) (String b s) = Ascii.eqb a b.
Proof. simpl. apply andb_true_r. Qed.

Lemma contains_char (a : ascii) (s : string) :
  contains (String a EmptyString) s = Text.existsb (Ascii.eqb a) s.
Proof.
  induction s as [|b s IH].
  - reflexivity.
  - cbn [contains Text.existsb]. rewrite startswith_char, IH. reflexivity.
Qed.

Lemma existsb_keep (s : string) : Text.existsb p s = truthy (keep p s).
Proof.
  induction s as [|c s IH]; [reflexivity|].
  simpl. destruct (p c); [reflexivity|exact IH].
Qed.

Lemma keep_id (s : string) : Text.forallb p s = true -> keep p s = s.
Proof.
  induction s as [|c s IH]; [reflexivity|].
  simpl. intros H. apply andb_true_iff in H as [Hc Hs].
  rewrite Hc, IH by assumption. reflexivity.
Qed.

Lemma forallb_keep (s : string) : Text.forallb p (keep p s) = true.
Proof.
  induction s as [|c s IH]; [reflexivity|].
  simpl. destruct (p c) eqn:Hc; [simpl; rewrite Hc|]; assumption.
Qed.

Lemma keep_append (s t : string) : keep p (s ++ t) = keep p s ++ keep p t.
Proof.
  induction s as [|c s IH]; [reflexivity|].
  simpl. destruct (p c); simpl; rewrite IH; reflexivity.
Qed.

Lemma startswith_head_fails (old s : string) :
  Text.forallb (fun c => negb (p c)) old = true ->
  startswith old s = true ->
  head_fails p (String.length old) s = true.
Proof.
  revert s. induction old as [|a old IH]; intros s Hold Hs; [reflexivity|].
  destruct s as [|c s]; [discriminate|].
  simpl in *. apply andb_true_iff in Hold as [Ha Hold].
  apply andb_true_iff in Hs as [Hac Hs].
  apply Ascii.eqb_eq in Hac. subst c. rewrite Ha. simpl. auto.
Qed.

(** Deleting the occurrences of a text none of whose characters passes
    [p] does not change what [p] keeps. *)
Lemma keep_replace_from (old : string) (k : nat) (s : string) :
  old <> EmptyString ->
  Text.forallb (fun c => negb (p c)) old = true ->
  head_fails p k s = true ->
  keep p (replace_from old EmptyString k s) = keep p s.
Proof.
  intros Hne Hold. revert k.
  induction s as [|c s IH]; intros k Hk; [reflexivity|].
  destruct k as [|k].
  - cbn [replace_from].
    destruct (startswith old (String c s)) eqn:Hs.
    + pose proof (startswith_head_fails old _ Hold Hs) as Hf.
      destruct old as [|a old]; [congruence|].
      cbn [String.length head_fails Nat.pred] in *.
      apply andb_true_iff in Hf as [Hc Hf].
      cbn [append keep]. apply negb_true_iff in Hc. rewrite Hc.
      apply IH. exact Hf.
    + cbn [keep]. rewrite (IH O) by reflexivity. reflexivity.
  - cbn [replace_from head_fails keep] in *.
    apply andb_true_iff in Hk as [Hc Hk].
    apply negb_true_iff in Hc. rewrite Hc. apply IH. exact Hk.
Qed.

Lemma keep_delete (old s : string) :
  old <> EmptyString ->
  Text.forallb (fun c => negb (p c)) old = true ->
  keep p (replace old EmptyString s) = keep p s.
Proof.
  intros Hne Hold. unfold replace.
  destruct old as [|a old]; [congruence|].
  apply keep_replace_from; [assumption|assumption|reflexivity].
Qed.

Variable sp : ascii -> bool.
Hypothesis p_not_space : forall c, sp c = true -> p c = false.

Lemma keep_lstrip_by (s : string) : keep p (lstrip_by sp s) = keep p s.
Proof.
  induction s as [|c s IH]; [reflexivity|].
  cbn [lstrip_by]. destruct (sp c) eqn:Hc; [|reflexivity].
  cbn [keep]. rewrite (p_not_space c Hc). exact IH.
Qed.

Lemma keep_rstrip_by (s : string) : keep p (rstrip_by sp s) = keep p s.
Proof.
  induction s as [|c s IH]; [reflexivity|].
  cbn [rstrip_by keep]. rewrite <- IH.
  destruct (rstrip_by sp s) as [|d t].
  - destruct (sp c) eqn:Hc.
    + rewrite (p_not_space c Hc). reflexivity.
    + cbn [keep]. destruct (p c); reflexivity.
  - cbn [keep]. reflexivity.
Qed.

(** Nothing is stripped from a text without such characters. *)
Lemma lstrip_by_id (s : string) :
  Text.forallb (fun c => negb (sp c)) s = true -> lstrip_by sp s = s.
Proof.
  destruct s as [|c s]; [reflexivity|].
  cbn [Text.forallb lstrip_by]. intros H.
  apply andb_true_iff in H as [Hc _]. apply negb_true_iff in Hc.
  rewrite Hc. reflexivity.
Qed.

Lemma rstrip_by_id (s : string) :
  Text.forallb (fun c => negb (sp c)) s = true -> rstrip_by sp s = s.
Proof.
  induction s as [|c s IH]; [reflexivity|].
  cbn [Text.forallb rstrip_by]. intros H.
  apply andb_true_iff in H as [Hc Hs]. apply negb_true_iff in Hc.
  rewrite (IH Hs), Hc. destruct s; reflexivity.
Qed.

End TextFacts.

Lemma keep_keep (p q : ascii -> bool) (s : string) :
  (forall c, p c = true -> q c = true) ->
  keep p (keep q s) = keep p s.
Proof.
  intros Hpq. induction s as [|c s IH]; [reflexivity|].
  cbn [keep]. destruct (q c) eqn:Hq.
  - cbn [keep]. rewrite IH. reflexivity.
  - destruct (p c) eqn:Hp; [rewrite (Hpq c Hp) in Hq; discriminate|exact IH].
Qed.

Lemma keep_strip (p : ascii -> bool) (s : string) :
  (forall c, isspace c = true -> p c = false) ->
  keep p (strip s) = keep p s.
Proof.
  intros Hp. unfold strip.
  rewrite (keep_rstrip_by p isspace Hp), (keep_lstrip_by p isspace Hp). reflexivity.
Qed.

Lemma truthy_strip_of_keep (p : ascii -> bool) (s : string) :
  (forall c, isspace c = true -> p c = false) ->
  truthy (keep p s) = true -> truthy (strip s) = true.
Proof.
  intros Hp H. rewrite <- (keep_strip p s Hp) in H.
  destruct (strip s); [discriminate|reflexivity].
Qed.

(** ** Facts about numerals *)

Lemma plain_char_facts (c : ascii) :
  plain_char c = true ->
  Numeral.to_ascii_char c = c
  /\ Ascii.eqb c "_" = false
  /\ isspace c = false
  /\ Numeral.c_isspace c = false
  /\ (if between 65 90 c then chr (code c + 32) else c) = c
  /\ Ascii.eqb c "i" = false /\ Ascii.eqb c "n" = false /\ Ascii.eqb c "s" = false
  /\ Ascii.eqb c "," = false.
Proof.
  ascii_cases c; vm_compute; intros H; try discriminate H; repeat split; reflexivity.
Qed.

Lemma numeric_char_cases (c : ascii) :
  Number.numeric_char c = plain_char c || Ascii.eqb c ",".
Proof. ascii_cases c; reflexivity. Qed.

Lemma space_not_numeric (c : ascii) : isspace c = true -> Number.numeric_char c = false.
Proof. ascii_cases c; vm_compute; intros H; try discriminate H; reflexivity. Qed.

Lemma space_not_comma (c : ascii) : isspace c = true -> Ascii.eqb "," c = false.
Proof. ascii_cases c; vm_compute; intros H; try discriminate H; reflexivity. Qed.

Lemma comma_is_numeric (c : ascii) : Ascii.eqb "," c = true -> Number.numeric_char c = true.
Proof. ascii_cases c; vm_compute; intros H; try discriminate H; reflexivity. Qed.

Section PlainNumerals.

Variable w : string.
Hypothesis w_plain : Text.forallb plain_char w = true.

Lemma plain_forall (q : ascii -> bool) (s : string) :
  (forall c, plain_char c = true -> q c = true) ->
  Text.forallb plain_char s = true -> Text.forallb q s = true.
Proof.
  intros Hq. induction s as [|c s IH]; [reflexivity|].
  cbn [Text.forallb]. intros H. apply andb_true_iff in H as [Hc Hs].
  rewrite (Hq c Hc), (IH Hs). reflexivity.
Qed.

Lemma to_ascii_plain (s : string) :
  Text.forallb plain_char s = true -> Numeral.to_ascii s = s.
Proof.
  induction s as [|c s IH]; [reflexivity|].
  cbn [Text.forallb Numeral.to_ascii]. intros H.
  apply andb_true_iff in H as [Hc Hs].
  destruct (plain_char_facts c Hc) as [-> _]. rewrite (IH Hs). reflexivity.
Qed.

Lemma drop_underscores_plain (s : string) (prev : ascii) :
  Ascii.eqb prev "_" = false ->
  Text.forallb plain_char s = true -> Numeral.drop_underscores prev s = Some s.
Proof.
  revert prev. induction s as [|c s IH]; intros prev Hprev.
  - intros _. cbn. rewrite Hprev. reflexivity.
  - cbn [Text.forallb Numeral.drop_underscores]. intros H.
    apply andb_true_iff in H as [Hc Hs].
    destruct (plain_char_facts c Hc) as (_ & Hu & _).
    rewrite Hu, Hprev. cbn [andb]. rewrite (IH c Hu Hs). reflexivity.
Qed.

Lemma scan_sign_plain (s : string) :
  Text.forallb plain_char s = true ->
  Text.forallb plain_char (snd (Numeral.scan_sign s)) = true.
Proof.
  destruct s as [|c s]; [reflexivity|].
  intros H. unfold Numeral.scan_sign.
  cbn [Text.forallb] in H. apply andb_true_iff in H as [Hc Hs].
  assert (Hall : Text.forallb plain_char (String c s) = true)
    by (cbn [Text.forallb]; rewrite Hc, Hs; reflexivity).
  ascii_cases c; first [exact Hs | exact Hall].
Qed.

(** A plain numeral is none of the keywords [inf], [infinity], [nan]
    and [snan]. *)
Lemma plain_not_keyword (s : string) :
  Text.forallb plain_char s = true ->
  let kw := Numeral.ascii_lower s in
  String.eqb kw "inf" = false /\ String.eqb kw "infinity" = false
  /\ String.eqb kw "nan" = false
  /\ startswith "nan" kw = false /\ startswith "snan" kw = false.
Proof.
  destruct s as [|c s]; [intros _; repeat split; reflexivity|].
  cbn [Text.forallb]. intros H. apply andb_true_iff in H as [Hc _].
  destruct (plain_char_facts c Hc) as (_ & _ & _ & _ & Hl & Hi & Hn & Hs & _).
  cbn [Numeral.ascii_lower]. rewrite Hl.
  rewrite Ascii.eqb_sym in Hi, Hn, Hs.
  cbn [String.eqb startswith].
  rewrite ?(Ascii.eqb_sym c), ?Hi, ?Hn, ?Hs.
  repeat split; try reflexivity.
  all: rewrite Ascii.eqb_sym; try rewrite Hi; try rewrite Hn; try rewrite Hs; reflexivity.
Qed.

(** On a plain numeral [float(Decimal(w))] and [float(w)] agree. *)
Lemma float_of_decimal_str_plain : float_of_decimal_str w = Numeral.float_of_str w.
Proof.
  unfold float_of_decimal_str, Numeral.float_of_str, Numeral.decimal_of_str.
  rewrite (to_ascii_plain w w_plain).
  rewrite (drop_underscores_plain w "000"%char eq_refl w_plain).
  assert (Hsp : Text.forallb (fun c => negb (isspace c)) w = true).
  { apply plain_forall; [|exact w_plain]. intros c Hc.
    destruct (plain_char_facts c Hc) as (_ & _ & -> & _). reflexivity. }
  assert (Hcs : Text.forallb (fun c => negb (Numeral.c_isspace c)) w = true).
  { apply plain_forall; [|exact w_plain]. intros c Hc.
    destruct (plain_char_facts c Hc) as (_ & _ & _ & -> & _). reflexivity. }
  assert (Hus : Text.forallb (fun c => negb (Ascii.eqb c "_")) w = true).
  { apply plain_forall; [|exact w_plain]. intros c Hc.
    destruct (plain_char_facts c Hc) as (_ & -> & _). reflexivity. }
  unfold strip. rewrite !lstrip_by_id, !rstrip_by_id by assumption.
  unfold Numeral.drop_all_underscores. rewrite (keep_id _ w Hus).
  unfold Numeral.float_of_literal.
  pose proof (scan_sign_plain w w_plain) as Hbody.
  destruct (Numeral.scan_sign w) as [neg body]. cbn [snd] in Hbody.
  destruct (plain_not_keyword body Hbody) as (H1 & H2 & H3 & H4 & H5).
  rewrite H1, H2, H3, H4, H5. cbn [orb andb].
  destruct (Numeral.scan_decimal body) as [[m e]|]; reflexivity.
Qed.

End PlainNumerals.

(** ** The money parsers *)

Lemma forallb_delete (q : ascii -> bool) (old : string) (k : nat) (s : string) :
  Text.forallb q s = true -> Text.forallb q (replace_from old EmptyString k s) = true.
Proof.
  revert k. induction s as [|c s IH]; intros k H; [reflexivity|].
  cbn [Text.forallb] in H. apply andb_true_iff in H as [Hc Hs].
  destruct k as [|k]; cbn [replace_from].
  - destruct (startswith old (String c s)).
    + cbn [append]. apply IH, Hs.
    + cbn [Text.forallb]. rewrite Hc. apply IH, Hs.
  - apply IH, Hs.
Qed.

Lemma comma_to_point_plain (s : string) :
  Text.forallb Number.numeric_char s = true ->
  Text.forallb plain_char (replace_from "," "." O s) = true.
Proof.
  induction s as [|c s IH]; [reflexivity|].
  cbn [Text.forallb]. intros H. apply andb_true_iff in H as [Hc Hs].
  cbn [replace_from]. rewrite startswith_char.
  destruct (Ascii.eqb "," c) eqn:Hcomma.
  - cbn. apply IH, Hs.
  - cbn [Text.forallb]. rewrite IH by exact Hs.
    rewrite numeric_char_cases, Ascii.eqb_sym, Hcomma, orb_false_r in Hc.
    rewrite Hc. reflexivity.
Qed.

Lemma comma_as_point_plain (t : string) :
  Text.forallb Number.numeric_char t = true ->
  Text.forallb plain_char (comma_as_point t) = true.
Proof.
  intros H. unfold comma_as_point, replace.
  apply comma_to_point_plain, forallb_delete, H.
Qed.

Lemma no_comma_plain (t : string) :
  Text.forallb Number.numeric_char t = true ->
  contains "," t = false ->
  Text.forallb plain_char t = true.
Proof.
  rewrite contains_char.
  induction t as [|c t IH]; [reflexivity|].
  cbn [Text.forallb Text.existsb]. intros H Hc.
  apply andb_true_iff in H as [Hn Ht]. apply orb_false_iff in Hc as [Hc Hrest].
  rewrite numeric_char_cases, Ascii.eqb_sym, Hc, orb_false_r in Hn.
  rewrite Hn, (IH Ht Hrest). reflexivity.
Qed.

(** Where the scripts leave numeral characters only, [number.py]
    leaves the same text. *)
Lemma number_text_script_text (s : string) :
  Text.forallb Number.numeric_char (script_text s) = true ->
  number_text s = script_text s.
Proof.
  intros H. unfold number_text.
  rewrite <- (keep_id Number.numeric_char (script_text s) H).
  unfold script_text.
  rewrite !keep_delete; try reflexivity; discriminate.
Qed.

Lemma number_parser_text (s : string) :
  Number.parse_ptbr_number (PStr s) =
  if truthy (strip s)
  then or_zero (float_of_decimal_str
                  (if contains "," (number_text s)
                   then comma_as_point (number_text s) else number_text s))
  else Return Float.zero.
Proof.
  unfold Number.parse_ptbr_number, float_of_decimal_str, number_text, comma_as_point.
  destruct (truthy (strip s)); [|reflexivity].
  cbn [negb].
  destruct (contains "," (keep Number.numeric_char (strip s)));
    match goal with
    | |- context [Numeral.decimal_of_str ?t] =>
        destruct (Numeral.decimal_of_str t) as [d|]; [|reflexivity];
        destruct (Numeral.float_of_decimal d); reflexivity
    end.
Qed.

Lemma script_parser_text (s : string) :
  Report.parse_ptbr_money (PStr s) =
  if truthy (strip s)
  then or_zero (Numeral.float_of_str
                  (if contains "," (script_text s)
                   then comma_as_point (script_text s) else script_text s))
  else Return Float.zero.
Proof.
  unfold Report.parse_ptbr_money, script_text, comma_as_point.
  destruct (truthy (strip s)); [|reflexivity].
  cbn [negb].
  destruct (contains "," (replace " " "" (replace "R$" "" (strip s))));
    match goal with
    | |- context [Numeral.float_of_str ?t] =>
        destruct (Numeral.float_of_str t); reflexivity
    end.
Qed.

Lemma variant_parser_same (x : PyVal) :
  Variant.parse_ptbr_money x = Report.parse_ptbr_money x.
Proof. reflexivity. Qed.

(** A comma in the cell is a comma in the cleaned text. *)
Lemma comma_survives (s : string) :
  contains "," s = true ->
  truthy (strip s) = true
  /\ contains "," (script_text s) = true
  /\ contains "," (number_text s) = true.
Proof.
  rewrite !contains_char, !existsb_keep. intros H.
  split; [|split].
  - apply (truthy_strip_of_keep (Ascii.eqb ",")); [exact space_not_comma|exact H].
  - unfold script_text.
    rewrite !keep_delete by (reflexivity || discriminate).
    rewrite keep_strip by exact space_not_comma. exact H.
  - unfold number_text.
    rewrite keep_keep by exact comma_is_numeric.
    rewrite keep_strip by exact space_not_comma. exact H.
Qed.

(** C4: the money parsers on the vectors of the specification: a
    currency symbol, dots and a comma give 4374.34, a bare comma numeral
    too, the empty text and [None] give 0.0, the integer 1500 gives
    1500.0; a float is returned as it is and an int as [float] converts
    it; and for a text with a comma the result is the float read after
    the dots are dropped and the commas turned into points (0.0 when
    that is not a numeral). *)
Theorem parse_money_vectors (s : string) :
  contains "," s = true ->
  Forall (fun parse : PyVal -> outcome Float.float =>
            parse (PStr "R$ 4.374,34") = Return (Prim2SF 4374.34)
            /\ parse (PStr "4374,34") = Return (Prim2SF 4374.34)
            /\ parse (PStr "") = Return (Prim2SF 0)
            /\ parse PNone = Return (Prim2SF 0)
            /\ parse (PInt 1500) = Return (Prim2SF 1500)
            /\ (forall x, parse (PFloat x) = Return x)
            /\ (forall n, parse (PInt n) =
                          match Numeral.float_of_int n with
                          | Some f => Return f
                          | None => Raise OverflowError
                          end))
         money_parsers
  /\ Report.parse_ptbr_money (PStr s)
     = or_zero (Numeral.float_of_str (comma_as_point (script_text s)))
  /\ Variant.parse_ptbr_money (PStr s)
     = or_zero (Numeral.float_of_str (comma_as_point (script_text s)))
  /\ Number.parse_ptbr_number (PStr s)
     = or_zero (float_of_decimal_str (comma_as_point (number_text s))).
Proof.
  intros Hcomma.
  destruct (comma_survives s Hcomma) as (Hs & Hscript & Hnumber).
  split; [|split; [|split]].
  - repeat constructor; try (vm_compute; reflexivity).
  - rewrite script_parser_text, Hs, Hscript. reflexivity.
  - rewrite variant_parser_same, script_parser_text, Hs, Hscript. reflexivity.
  - rewrite number_parser_text, Hs, Hnumber. reflexivity.
Qed.

Lemma parse_money_vectors_witness :
  contains "," "R$ 4.374,34" = true
  /\ Report.parse_ptbr_money (PStr "R$ 4.374,34")
     = or_zero (Numeral.float_of_str "4374.34").
Proof.
  split; [reflexivity|].
  exact (proj1 (proj2 (parse_money_vectors "R$ 4.374,34" eq_refl))).
Defined.

(** C5, as the code has it: the cleaning steps differ, so the parser of
    [number.py] and the parser of the scripts differ on a cell that holds
    anything besides the numeral, the literal R$ and blanks. *)
Lemma parsers_differ_on_dollar_cell :
  Number.parse_ptbr_number (PStr "US$ 10,50") = Return (Prim2SF 10.5)
  /\ Report.parse_ptbr_money (PStr "US$ 10,50") = Return (Prim2SF 0)
  /\ Number.parse_ptbr_number (PStr "US$ 10,50")
     <> Report.parse_ptbr_money (PStr "US$ 10,50").
Proof.
  assert (H1 : Number.parse_ptbr_number (PStr "US$ 10,50") = Return (Prim2SF 10.5))
    by (vm_compute; reflexivity).
  assert (H2 : Report.parse_ptbr_money (PStr "US$ 10,50") = Return (Prim2SF 0))
    by (vm_compute; reflexivity).
  split; [exact H1|split; [exact H2|]].
  rewrite H1, H2. vm_compute. discriminate.
Qed.

(** C5, amended: the three parsers return the same outcome on [None],
    on every int and float, and on every text in which the scripts'
    cleaning (trim, drop R$, drop blanks) leaves only digits, commas,
    points and signs. *)
Theorem parsers_agree_on_plain_cells (x : PyVal) :
  (forall s, x = PStr s -> Text.forallb Number.numeric_char (script_text s) = true) ->
  Number.parse_ptbr_number x = Report.parse_ptbr_money x
  /\ Variant.parse_ptbr_money x = Report.parse_ptbr_money x.
Proof.
  intros Hx. split; [|apply variant_parser_same].
  destruct x as [| n | f | s]; try reflexivity.
  specialize (Hx s eq_refl).
  rewrite number_parser_text, script_parser_text.
  rewrite (number_text_script_text s Hx).
  destruct (truthy (strip s)); [|reflexivity].
  f_equal.
  destruct (contains "," (script_text s)) eqn:Hcomma.
  - apply float_of_decimal_str_plain, comma_as_point_plain, Hx.
  - apply float_of_decimal_str_plain, no_comma_plain; assumption.
Qed.

Lemma parsers_agree_on_plain_cells_witness :
  Number.parse_ptbr_number (PStr "R$ 4.374,34")
  = Report.parse_ptbr_money (PStr "R$ 4.374,34").
Proof.
  refine (proj1 (parsers_agree_on_plain_cells (PStr "R$ 4.374,34") _)).
  intros s Hs. injection Hs as <-. reflexivity.
Defined.

(** C7, as the code has it: the conversion of an int is outside the
    [try], and [float] raises [OverflowError] on an int beyond the range
    of a float. *)
Lemma parse_money_raises_on_huge_int :
  Report.parse_ptbr_money (PInt (2 ^ 1024)) = Raise OverflowError
  /\ Variant.parse_ptbr_money (PInt (2 ^ 1024)) = Raise OverflowError
  /\ Number.parse_ptbr_number (PInt (2 ^ 1024)) = Raise OverflowError.
Proof. repeat split; vm_compute; reflexivity. Qed.

(** C7, amended: each parser returns a float on [None], on every float
    and on every text, and on every int that [float] converts; on an int
    that is too large for a float it raises [OverflowError].  A text that
    is not a numeral after cleaning gives 0.0. *)
Theorem parse_money_total_but_overflow :
  Forall (fun parse : PyVal -> outcome Float.float =>
            forall x,
              (exists f, parse x = Return f)
              \/ (exists n, x = PInt n /\ Numeral.float_of_int n = None
                            /\ parse x = Raise OverflowError))
         money_parsers
  /\ (forall s t,
        t = (if contains "," (script_text s)
             then comma_as_point (script_text s) else script_text s) ->
        Numeral.float_of_str t = None ->
        Report.parse_ptbr_money (PStr s) = Return Float.zero
        /\ Variant.parse_ptbr_money (PStr s) = Return Float.zero)
  /\ (forall s t,
        t = (if contains "," (number_text s)
             then comma_as_point (number_text s) else number_text s) ->
        float_of_decimal_str t = None ->
        Number.parse_ptbr_number (PStr s) = Return Float.zero).
Proof.
  split; [|split].
  - assert (Hscript : forall x,
              (exists f, Report.parse_ptbr_money x = Return f)
              \/ (exists n, x = PInt n /\ Numeral.float_of_int n = None
                            /\ Report.parse_ptbr_money x = Raise OverflowError)).
    { intros [| n | f | s].
      - left. eexists. reflexivity.
      - cbn. destruct (Numeral.float_of_int n) as [f|] eqn:Hn.
        + left. eexists. reflexivity.
        + right. exists n. auto.
      - left. eexists. reflexivity.
      - left. rewrite script_parser_text.
        destruct (truthy (strip s)); [|eexists; reflexivity].
        match goal with |- context [or_zero ?o] => destruct o end;
          eexists; reflexivity. }
    apply Forall_cons; [exact Hscript|].
    apply Forall_cons; [exact Hscript|].
    apply Forall_cons; [|apply Forall_nil].
    intros [| n | f | s].
    + left. eexists. reflexivity.
    + cbn. destruct (Numeral.float_of_int n) as [f|] eqn:Hn.
      * left. eexists. reflexivity.
      * right. exists n. auto.
    + left. eexists. reflexivity.
    + left. rewrite number_parser_text.
      destruct (truthy (strip s)); [|eexists; reflexivity].
      match goal with |- context [or_zero ?o] => destruct o end;
        eexists; reflexivity.
  - intros s t -> Ht.
    assert (H : Report.parse_ptbr_money (PStr s) = Return Float.zero).
    { rewrite script_parser_text, Ht. destruct (truthy (strip s)); reflexivity. }
    split; exact H.
  - intros s t -> Ht.
    rewrite number_parser_text, Ht.
    destruct (truthy (strip s)); reflexivity.
Qed.

Lemma parse_money_total_but_overflow_witness :
  Numeral.float_of_str "12abc" = None
  /\ Report.parse_ptbr_money (PStr "12 abc") = Return Float.zero
  /\ (exists f, Report.parse_ptbr_money (PInt 1500) = Return f).
Proof.
  split; [reflexivity|].
  split.
  - exact (proj1 (proj1 (proj2 parse_money_total_but_overflow)
                    "12 abc" "12abc" eq_refl eq_refl)).
  - pose proof (proj1 parse_money_total_but_overflow) as H.
    unfold money_parsers in H. inversion H as [|? ? Hhead _]; subst.
    destruct (Hhead (PInt 1500)) as [Hf | (n & _ & _ & Hraise)]; [exact Hf|].
    vm_compute in Hraise. discriminate Hraise.
Defined.

(** ** The shipment dates *)

(** C10: for a falsy shipment number, [None] or the empty text, both
    lookups return [(None, None)] and leave the state as it was: no
    connection is opened and no query is run. *)
Theorem falsy_number_skips_database (E : Env) (number : option string) (st : State) :
  falsy number = true ->
  MysqlRepo.get_shipment_dates_by_number E number st = (Return (None, None), st)
  /\ MysqlRepo.get_dates_by_shipment_number E number st = (Return (None, None), st).
Proof.
  intros H.
  assert (H1 : MysqlRepo.get_shipment_dates_by_number E number st
               = (Return (None, None), st)).
  { destruct number as [s|]; [|reflexivity].
    unfold MysqlRepo.get_shipment_dates_by_number.
    cbn [falsy] in H. rewrite H. reflexivity. }
  split; [exact H1|].
  unfold MysqlRepo.get_dates_by_shipment_number, bind. rewrite H1. reflexivity.
Qed.

Lemma falsy_number_skips_database_witness :
  MysqlRepo.get_dates_by_shipment_number Scenario.E (Some "") Scenario.initial
  = (Return (None, None), Scenario.initial).
Proof.
  exact (proj2 (falsy_number_skips_database Scenario.E (Some "") Scenario.initial eq_refl)).
Defined.

(** For any other number the connection is opened, the query run and
    the connection closed. *)
Lemma lookup_logs_the_query (E : Env) (number : string) (st : State) :
  truthy number = true ->
  let '(o, st') := MysqlRepo.get_dates_by_shipment_number E (Some number) st in
  o = Return (match shipment_row E number with
              | Some row => row
              | None => (None, None)
              end)
  /\ db_log st' = Close :: Execute number :: Connect :: db_log st
  /\ frames st' = frames st /\ stdout st' = stdout st.
Proof.
  intros H.
  unfold MysqlRepo.get_dates_by_shipment_number, MysqlRepo.get_shipment_dates_by_number.
  rewrite H. cbn.
  destruct (shipment_row E number) as [[a b]|]; repeat split; reflexivity.
Qed.

(** ** The spreadsheet reader *)

(** C8, at a header row that already holds a suffixed name: the third
    header is given the name of the second, the names are not distinct,
    and the record built from them has lost the second column. *)
Theorem safe_headers_collision :
  Sheets._safe_headers ["A"; "A"; "A__2"] = ["A"; "A__2"; "A__2"]
  /\ ~ NoDup (Sheets._safe_headers ["A"; "A"; "A__2"])
  /\ Sheets._get_records_tolerant [["A"; "A"; "A__2"]; ["1"; "2"; "3"]]
     = [[("A", "1"); ("A__2", "3")]].
Proof.
  split; [reflexivity|split; [|reflexivity]].
  intros H. cbn in H.
  inversion H as [|? ? _ H1]; subst.
  inversion H1 as [|? ? Hin _]; subst.
  apply Hin. left. reflexivity.
Qed.

(** The rest of what the reader does: a blank header takes its
    position as name; the rows that are blank are skipped and the others
    are cut or filled to the width of the header. *)
Lemma fit_length (n : nat) (row : list string) : List.length (Sheets.fit n row) = n.
Proof.
  unfold Sheets.fit. rewrite length_firstn, length_app, repeat_length. lia.
Qed.

Lemma records_of_values (header_row : list string) (data : list (list string)) :
  let headers := Sheets._safe_headers header_row in
  let n := List.length headers in
  Sheets._get_records_tolerant (header_row :: data)
  = map (fun row => Sheets.dict_zip [] headers (Sheets.fit n row))
        (filter (fun row => negb (blank_row n row)) data).
Proof.
  cbn zeta. unfold Sheets._get_records_tolerant, blank_row.
  induction data as [|row data IH]; [reflexivity|].
  cbn [flat_map filter].
  destruct (List.forallb _ (Sheets.fit _ row)); cbn [negb app map].
  - exact IH.
  - rewrite IH. reflexivity.
Qed.

Lemma safe_headers_length (headers : list string) :
  List.length (Sheets._safe_headers headers) = List.length headers.
Proof.
  unfold Sheets._safe_headers. generalize 0 (@nil (string * Z)).
  induction headers as [|h rest IH]; intros i used; [reflexivity|].
  cbn [Sheets.safe_headers_from List.length]. rewrite IH. reflexivity.
Qed.

Lemma blank_header_placeholder :
  Sheets._safe_headers ["Nome"; "  "; ""] = ["Nome"; "COLUNA 2"; "COLUNA 3"].
Proof. reflexivity. Qed.

(** ** Rows and frames *)

Lemma get_set_same (r : Row) (c v : string) : get (set r c v) c = Some v.
Proof.
  induction r as [|[k w] r IH]; cbn [set get].
  - rewrite String.eqb_refl. reflexivity.
  - destruct (String.eqb k c) eqn:Hk; cbn [get]; rewrite Hk; [reflexivity|exact IH].
Qed.

Lemma get_set_other (r : Row) (c v k : string) :
  String.eqb c k = false -> get (set r c v) k = get r k.
Proof.
  intros Hck. induction r as [|[k' w] r IH]; cbn [set get].
  - rewrite Hck. reflexivity.
  - destruct (String.eqb k' c) eqn:Hk; cbn [get].
    + apply String.eqb_eq in Hk. subst k'. rewrite Hck. reflexivity.
    + rewrite IH. reflexivity.
Qed.

Lemma text_set_same (r : Row) (c v : string) : text (set r c v) c = v.
Proof. unfold text. rewrite get_set_same. reflexivity. Qed.

Lemma text_set_other (r : Row) (c v k : string) :
  String.eqb c k = false -> text (set r c v) k = text r k.
Proof. intros H. unfold text. rewrite get_set_other by exact H. reflexivity. Qed.

(** [df[c] = df[c].astype(str)] changes no text of the row. *)
Lemma text_set_text (r : Row) (c k : string) : text (set r c (text r c)) k = text r k.
Proof.
  destruct (String.eqb c k) eqn:Hck.
  - apply String.eqb_eq in Hck. subst k. apply text_set_same.
  - apply text_set_other, Hck.
Qed.

Lemma hd_filter_map {A B : Type} (q : B -> bool) (q' : A -> bool) (f : A -> B)
    (l : list A) :
  (forall x, q (f x) = q' x) ->
  hd_error (filter q (map f l)) = option_map f (find q' l).
Proof.
  intros Hq. induction l as [|x l IH]; [reflexivity|].
  cbn [map filter find]. rewrite Hq. destruct (q' x); [reflexivity|exact IH].
Qed.

Lemma filter_of_map {A B : Type} (q : B -> bool) (q' : A -> bool) (f : A -> B)
    (l : list A) :
  (forall x, q (f x) = q' x) ->
  filter q (map f l) = map f (filter q' l).
Proof.
  intros Hq. induction l as [|x l IH]; [reflexivity|].
  cbn [map filter]. rewrite Hq. destruct (q' x); cbn [map]; rewrite IH; reflexivity.
Qed.

Lemma filter_twice {A : Type} (p q : A -> bool) (l : list A) :
  filter p (filter q l) = filter (fun x => p x && q x) l.
Proof.
  induction l as [|x l IH]; [reflexivity|].
  cbn [filter]. destruct (q x); cbn [filter].
  - destruct (p x); cbn [andb]; rewrite IH; reflexivity.
  - rewrite andb_false_r. exact IH.
Qed.

Lemma find_none_iff {A : Type} (q : A -> bool) (l : list A) :
  find q l = None <-> (forall x, In x l -> q x = false).
Proof.
  split; [apply find_none|].
  induction l as [|x l IH]; intros H; [reflexivity|].
  cbn [find]. rewrite (H x (or_introl eq_refl)). apply IH.
  intros y Hy. apply H. right. exact Hy.
Qed.

(** ** The level rate *)

Lemma norm_level_same (s : string) : Variant._norm_level s = Report._norm_text s.
Proof. reflexivity. Qed.

Lemma frame_deref (r : Ref) (st : State) : frame r st = (Return (deref r st), st).
Proof. destruct r; reflexivity. Qed.

Lemma deref_frames (r : Ref) (st st' : State) :
  frames st' = frames st -> deref r st' = deref r st.
Proof.
  unfold frames. intros H. injection H as H1 H2 H3.
  destruct r; assumption.
Qed.

(** The resolver, by the first row of the level. *)
Lemma resolver_by_first_row (r : Ref) (st : State) (nivel : string) :
  mem "Niveis" (columns (deref r st)) = true ->
  Report.get_percentual_sales_exec r nivel st =
  (match find (level_matches nivel) (rows (deref r st)) with
   | None => Raise (RuntimeError (LevelNotFound nivel))
   | Some first =>
       let pct_str := strip (text first "Sales Executive") in
       if endswith "%" pct_str then
         match Numeral.float_of_str (Report.pct_num pct_str) with
         | Some x => Return (Float.div x (Float.of_Z 100))
         | None => Raise ValueError
         end
       else Raise (RuntimeError (InvalidPercent nivel pct_str))
   end, st).
Proof.
  intros Hcol.
  unfold Report.get_percentual_sales_exec, bind, raise_if.
  rewrite frame_deref.
  rewrite Hcol. cbn [negb ret select assign rows].
  set (f := fun r0 : Row => set r0 "Niveis" (text r0 "Niveis")).
  set (q := fun r0 : Row =>
              String.eqb (Report._norm_text (text r0 "Niveis")) (Report._norm_text nivel)).
  assert (Hq : forall r0, q (f r0) = level_matches nivel r0).
  { intros r0. unfold q, f, level_matches. rewrite text_set_text. reflexivity. }
  pose proof (hd_filter_map q (level_matches nivel) f (rows (deref r st)) Hq) as Hhd.
  destruct (filter q (map f (rows (deref r st)))) as [|first' rest] eqn:Hfilter;
    cbn [hd_error] in Hhd;
    destruct (find (level_matches nivel) (rows (deref r st))) as [first|];
    cbn [option_map] in Hhd; try discriminate Hhd.
  - reflexivity.
  - injection Hhd as ->. unfold f at 1 2 3. rewrite text_set_text.
    cbv zeta. destruct (endswith "%" (strip (text first "Sales Executive"))); cbn [negb].
    + unfold raise, ret.
      destruct (Numeral.float_of_str _); reflexivity.
    + reflexivity.
Qed.

(** C1, as the code has it: a cell that ends in a percent sign but
    holds no numeral is neither reported as an invalid percentage nor
    turned into a rate; [float] raises [ValueError]. *)
Lemma resolver_raises_value_error :
  let st := with_niveis (guardiao_sheet "abc%") in
  find (level_matches (u8 "guardião")) (rows (df_niveis st))
  = Some [("Niveis", "Guardiao"); ("Sales Executive", "abc%")]
  /\ endswith "%" (strip "abc%") = true
  /\ fst (Report.get_percentual_sales_exec DfNiveis (u8 "guardião") st) = Raise ValueError
  /\ fst (Variant.get_percentual_sales_exec DfNiveis (u8 "guardião") st) = Raise ValueError.
Proof. repeat split; vm_compute; reflexivity. Qed.

(** C1, amended: on a level sheet with a column Niveis the resolver
    leaves the state as it was and
    - raises the lookup error exactly when no row has the level, names
      compared after normalisation;
    - otherwise looks at the first such row only: it raises the invalid
      percentage error exactly when the trimmed Sales Executive cell of
      that row does not end in a percent sign, and when it does, returns
      the numeral of the cell divided by 100, or raises [ValueError] when
      the cell holds no numeral;
    - the variant script does the same;
    - with Guardiao at 50%, the level guardião resolves to 0.5. *)
Theorem resolver_outcomes (st : State) (nivel : string) :
  mem "Niveis" (columns (df_niveis st)) = true ->
  let table := rows (df_niveis st) in
  let run := Report.get_percentual_sales_exec DfNiveis nivel st in
  snd run = st
  /\ Variant.get_percentual_sales_exec DfNiveis nivel st = run
  /\ (fst run = Raise (RuntimeError (LevelNotFound nivel))
      <-> (forall r, In r table -> level_matches nivel r = false))
  /\ (forall first,
        find (level_matches nivel) table = Some first ->
        let pct_str := strip (text first "Sales Executive") in
        (fst run = Raise (RuntimeError (InvalidPercent nivel pct_str))
         <-> endswith "%" pct_str = false)
        /\ (endswith "%" pct_str = true ->
            fst run = match Numeral.float_of_str (Report.pct_num pct_str) with
                      | Some x => Return (Float.div x (Float.of_Z 100))
                      | None => Raise ValueError
                      end))
  /\ fst (Report.get_percentual_sales_exec DfNiveis (u8 "guardião")
            (with_niveis (guardiao_sheet "50%")))
     = Return (Prim2SF 0.5).
Proof.
  intros Hcol table run.
  assert (Hvariant : Variant.get_percentual_sales_exec DfNiveis nivel st = run).
  { unfold run, Variant.get_percentual_sales_exec, Report.get_percentual_sales_exec,
      bind, frame, raise_if.
    rewrite Hcol. reflexivity. }
  pose proof (resolver_by_first_row DfNiveis st nivel Hcol) as Hrun.
  cbn [deref] in Hrun.
  fold run table in Hrun.
  split; [rewrite Hrun; reflexivity|].
  split; [exact Hvariant|].
  split; [|split].
  - rewrite <- find_none_iff. rewrite Hrun. cbn [fst].
    destruct (find (level_matches nivel) table) as [first|].
    + split; [|discriminate].
      cbv zeta. destruct (endswith "%" _); [destruct (Numeral.float_of_str _)|];
        discriminate.
    + split; reflexivity.
  - intros first Hfirst pct_str. rewrite Hrun, Hfirst. cbn [fst]. fold pct_str.
    split.
    + destruct (endswith "%" pct_str).
      * split; [|discriminate].
        destruct (Numeral.float_of_str _); discriminate.
      * split; reflexivity.
    + intros ->. reflexivity.
  - vm_compute. reflexivity.
Qed.

Lemma resolver_outcomes_witness :
  mem "Niveis" (columns (guardiao_sheet "12,5%")) = true
  /\ Report.get_percentual_sales_exec DfNiveis "GUARDIAO" (with_niveis (guardiao_sheet "12,5%"))
     = (Return (Prim2SF 0.125), with_niveis (guardiao_sheet "12,5%")).
Proof.
  split; [reflexivity|].
  pose proof (resolver_outcomes (with_niveis (guardiao_sheet "12,5%")) "GUARDIAO" eq_refl)
    as (Hst & _ & _ & Hfirst & _).
  destruct (Hfirst _ eq_refl) as [_ Hvalue].
  specialize (Hvalue eq_refl).
  destruct (Report.get_percentual_sales_exec DfNiveis "GUARDIAO"
              (with_niveis (guardiao_sheet "12,5%"))) as [o st'].
  cbn [fst snd] in Hst, Hvalue. subst st'. rewrite Hvalue.
  vm_compute. reflexivity.
Defined.

(** ** The roster *)

Section FirstByKey.

Context {A : Type} (key : A -> string).

Lemma in_first_by_key (l : list A) (x : A) : In x (first_by_key key l) -> In x l.
Proof.
  induction l as [|y l IH]; [intros []|].
  cbn [first_by_key]. intros [<- | H]; [left; reflexivity|].
  right. apply IH. apply filter_In in H. tauto.
Qed.

Lemma nodup_keys_filter (q : A -> bool) (l : list A) :
  NoDup (map key l) -> NoDup (map key (filter q l)).
Proof.
  induction l as [|x l IH]; [intros; constructor|].
  cbn [map filter]. intros H. inversion H as [|? ? Hx Hl]; subst.
  destruct (q x); [|apply IH, Hl].
  cbn [map]. constructor; [|apply IH, Hl].
  intros Hin. apply Hx. apply in_map_iff in Hin as (y & Hy & Hin).
  apply in_map_iff. exists y. apply filter_In in Hin. tauto.
Qed.

(** No key is kept twice. *)
Lemma first_by_key_nodup (l : list A) : NoDup (map key (first_by_key key l)).
Proof.
  induction l as [|x l IH]; [constructor|].
  cbn [first_by_key map]. constructor.
  - intros Hin. apply in_map_iff in Hin as (y & Hy & Hin).
    apply filter_In in Hin as [_ Hne].
    rewrite Hy, String.eqb_refl in Hne. discriminate.
  - apply nodup_keys_filter, IH.
Qed.

(** Every key of the list is kept. *)
Lemma first_by_key_covers (l : list A) (x : A) :
  In x l -> exists y, In y (first_by_key key l) /\ key y = key x.
Proof.
  induction l as [|z l IH]; [intros []|].
  intros [-> | Hin].
  - exists x. split; [left; reflexivity|reflexivity].
  - destruct (IH Hin) as (y & Hy & Hkey).
    destruct (String.eqb (key y) (key z)) eqn:Hyz.
    + apply String.eqb_eq in Hyz. exists z.
      split; [left; reflexivity|congruence].
    + exists y. split; [|exact Hkey].
      right. apply filter_In. split; [exact Hy|]. rewrite Hyz. reflexivity.
Qed.

End FirstByKey.

(** The loop over [seen] keeps the first person of each key. *)
Lemma uniq_first_by_key (seen : list string) (people : list Report.Person) :
  Report.uniq seen people
  = filter (fun p => negb (mem (Report.person_key p) seen))
           (first_by_key Report.person_key people).
Proof.
  revert seen. induction people as [|p people IH]; intros seen; [reflexivity|].
  cbn [Report.uniq first_by_key filter].
  destruct (mem (Report.person_key p) seen) eqn:Hseen; cbn [negb].
  - rewrite IH, filter_twice. apply filter_ext. intros q.
    destruct (String.eqb (Report.person_key q) (Report.person_key p)) eqn:Hqp;
      cbn [negb andb]; [|symmetry; apply andb_true_r].
    apply String.eqb_eq in Hqp. rewrite Hqp, Hseen. reflexivity.
  - f_equal. rewrite IH, filter_twice. apply filter_ext. intros q.
    unfold mem. cbn [List.existsb].
    rewrite negb_orb. apply andb_comm.
Qed.

Lemma require_columns_present (sheet : string) (required cols : list string) (st : State) :
  Forall (fun c => mem c cols = true) required ->
  Report.require_columns sheet required cols st = (Return tt, st).
Proof.
  induction 1 as [|c required Hc _ IH]; [reflexivity|].
  cbn [Report.require_columns]. unfold bind, raise_if. rewrite Hc. exact IH.
Qed.

Lemma people_of_rows (l : list Row) :
  flat_map Report.person_of_row (filter is_sales_executive l)
  = map person_of (filter roster_row l).
Proof.
  induction l as [|r l IH]; [reflexivity|].
  cbn [filter]. unfold roster_row at 1.
  destruct (is_sales_executive r); cbn [andb flat_map]; [|exact IH].
  unfold Report.person_of_row at 1.
  destruct (truthy (strip (text r "Colaborador")));
    destruct (truthy (strip (text r (u8 "Nível"))));
    cbn [negb orb andb app map]; rewrite IH; reflexivity.
Qed.

(** The roster, from the rows of the sheet. *)
Lemma roster_of_rows (st : State) :
  Forall (fun c => mem c (columns (df_meta st)) = true) Report.required_columns ->
  Report.get_sales_exec_people DfMeta st
  = (Return (first_by_key Report.person_key
               (map person_of (filter roster_row (rows (df_meta st))))), st).
Proof.
  intros Hcols.
  unfold Report.get_sales_exec_people, bind, frame.
  rewrite (require_columns_present _ _ _ st Hcols).
  unfold ret. f_equal. f_equal.
  rewrite uniq_first_by_key. cbn [mem List.existsb negb].
  rewrite filter_true. f_equal.
  rewrite <- people_of_rows.
  cbn [Report.required_columns fold_left assign select rows].
  rewrite !map_map.
  match goal with
  | |- flat_map _ (filter ?q (map ?g _)) = _ =>
      assert (Htext : forall r k, String.eqb "_func_norm" k = false ->
                                  text (g r) k = text r k)
        by (intros r k Hk; rewrite (text_set_other _ _ _ _ Hk), !text_set_text;
            reflexivity);
      assert (Hq : forall r, q (g r) = is_sales_executive r)
        by (intros r; rewrite text_set_same, !text_set_text; reflexivity);
      rewrite (filter_of_map q is_sales_executive g _ Hq);
      rewrite flat_map_concat_map, map_map, <- flat_map_concat_map;
      apply flat_map_ext; intros r; unfold Report.person_of_row;
      rewrite !Htext by reflexivity; reflexivity
  end.
Qed.

(** C6: on a sheet with the four columns the roster is made of the
    rows whose normalised Função is the normalised Sales Executive and
    whose trimmed name and level are not empty, one person for each
    lower-cased key (the e-mail address, or the name when there is
    none), the first of each key, in the order of the sheet; the sheet
    is left as it was.  No key is kept twice, no key is lost, and two
    rows whose addresses differ in letter case only give one person, the
    first. *)
Theorem roster_extraction (st : State) :
  Forall (fun c => mem c (columns (df_meta st)) = true) Report.required_columns ->
  let candidates := map person_of (filter roster_row (rows (df_meta st))) in
  let roster := first_by_key Report.person_key candidates in
  Report.get_sales_exec_people DfMeta st = (Return roster, st)
  /\ NoDup (map Report.person_key roster)
  /\ (forall p, In p candidates ->
                exists q, In q roster /\ Report.person_key q = Report.person_key p)
  /\ (forall p, In p roster -> In p candidates)
  /\ hd_error roster = hd_error candidates
  /\ fst (Report.get_sales_exec_people DfMeta (with_meta two_spellings_sheet))
     = Return [ {| Report.nome := "Ana Souza";
                   Report.email := "Ana.Souza@audaz.example";
                   Report.nivel := u8 "Guardião" |};
                {| Report.nome := "Bruno Lima";
                   Report.email := "bruno@audaz.example";
                   Report.nivel := "Aprendiz" |} ].
Proof.
  intros Hcols candidates roster.
  split; [apply roster_of_rows, Hcols|].
  split; [apply first_by_key_nodup|].
  split; [apply first_by_key_covers|].
  split; [apply in_first_by_key|].
  split; [unfold roster; destruct candidates; reflexivity|].
  vm_compute. reflexivity.
Qed.

Lemma roster_extraction_witness :
  Forall (fun c => mem c (columns two_spellings_sheet) = true) Report.required_columns
  /\ NoDup (map Report.person_key
              (first_by_key Report.person_key
                 (map person_of (filter roster_row (rows two_spellings_sheet))))).
Proof.
  assert (H : Forall (fun c => mem c (columns two_spellings_sheet) = true)
                     Report.required_columns)
    by (repeat constructor).
  split; [exact H|].
  exact (proj1 (proj2 (roster_extraction (with_meta two_spellings_sheet) H))).
Defined.

(** ** Computations that do not read the frames *)

Section Yields.

Context {A B : Type}.

Lemma yields_ret (a : A) : yields (ret a) (Return a).
Proof. intros st. exists st. split; reflexivity. Qed.

Lemma yields_raise (e : Exc) : yields (@raise A e) (Raise e).
Proof. intros st. exists st. split; reflexivity. Qed.

Lemma yields_lift (o : outcome A) : yields (lift o) o.
Proof. intros st. exists st. split; reflexivity. Qed.

Lemma yields_bind_return (c : M A) (k : A -> M B) (a : A) (o : outcome B) :
  yields c (Return a) -> yields (k a) o -> yields (bind c k) o.
Proof.
  intros Hc Hk st. unfold bind.
  destruct (Hc st) as (st1 & -> & H1).
  destruct (Hk st1) as (st2 & -> & H2).
  exists st2. split; [reflexivity|congruence].
Qed.

Lemma yields_bind_raise (c : M A) (k : A -> M B) (e : Exc) :
  yields c (Raise e) -> yields (bind c k) (Raise e).
Proof.
  intros Hc st. unfold bind.
  destruct (Hc st) as (st1 & -> & H1).
  exists st1. split; [reflexivity|exact H1].
Qed.

End Yields.

Lemma yields_print (o : Out) : yields (print o) (Return tt).
Proof. intros st. eexists. split; reflexivity. Qed.

Lemma yields_db (ev : DbEvent) : yields (db ev) (Return tt).
Proof. intros st. eexists. split; reflexivity. Qed.

Lemma yields_when (cond : bool) (c : M unit) :
  yields c (Return tt) -> yields (Report.when cond c) (Return tt).
Proof. intros Hc. destruct cond; [exact Hc|apply yields_ret]. Qed.

Lemma yields_lookup (E : Env) (number : string) :
  truthy number = true ->
  yields (MysqlRepo.get_dates_by_shipment_number E (Some number))
         (Return (dates_of E number)).
Proof.
  intros H.
  unfold MysqlRepo.get_dates_by_shipment_number, MysqlRepo.get_shipment_dates_by_number.
  rewrite H. cbn [negb].
  eapply yields_bind_return.
  - eapply yields_bind_return; [apply yields_db|].
    eapply yields_bind_return; [apply yields_db|].
    eapply yields_bind_return; [apply yields_db|].
    apply yields_ret.
  - unfold dates_of. destruct (shipment_row E number) as [[a b]|]; apply yields_ret.
Qed.

(** ** The loops of the report *)

Lemma money_of_cell (r : Row) :
  Report.parse_ptbr_money (Report.value r "Profit Liquido") = Return (money r).
Proof.
  unfold money. destruct (Report.value r "Profit Liquido") as [| n | f | s] eqn:Hv;
    try reflexivity.
  - unfold Report.value in Hv. destruct (get r "Profit Liquido"); discriminate.
  - rewrite script_parser_text.
    destruct (truthy (strip s)); [|reflexivity].
    match goal with |- context [or_zero ?o] => destruct o end; reflexivity.
Qed.

Lemma row_step_yields (E : Env) (R : Report.Run) (comp : string) (r : Row) :
  yields (Report.row_step E R comp r) (Return (row_result E R comp r)).
Proof.
  unfold Report.row_step, row_result, in_periods, debug_passes.
  fold (code_of r).
  destruct (truthy (code_of r)) eqn:Hcode; cbn [negb andb]; [|apply yields_ret].
  destruct (truthy (Report.run_debug_code R)) eqn:Hdebug; cbn [negb andb orb].
  - destruct (String.eqb (code_of r) (Report.run_debug_code R)) eqn:Hsame; cbn [negb].
    + eapply yields_bind_return; [apply yields_lookup, Hcode|].
      eapply yields_bind_return; [apply yields_when, yields_print|].
      rewrite andb_true_r.
      destruct (dates_of E (code_of r)) as [[dc|] [dm|]] eqn:Hdates;
        try (eapply yields_bind_return; [apply yields_when, yields_print|apply yields_ret]).
      destruct (String.eqb (Report._to_yyyymm dc) comp); cbn [negb andb];
        [|eapply yields_bind_return; [apply yields_when, yields_print|apply yields_ret]].
      destruct (String.eqb (Report._to_yyyymm dm) (Report.run_pay R)); cbn [negb];
        [|eapply yields_bind_return; [apply yields_when, yields_print|apply yields_ret]].
      eapply yields_bind_return; [rewrite money_of_cell; apply yields_lift|].
      unfold line_for. rewrite Hdates. apply yields_ret.
    + rewrite andb_false_r. apply yields_ret.
  - eapply yields_bind_return; [apply yields_lookup, Hcode|].
    eapply yields_bind_return; [apply yields_when, yields_print|].
    rewrite andb_true_r.
    destruct (dates_of E (code_of r)) as [[dc|] [dm|]] eqn:Hdates;
      try (eapply yields_bind_return; [apply yields_when, yields_print|apply yields_ret]).
    destruct (String.eqb (Report._to_yyyymm dc) comp); cbn [negb andb];
      [|eapply yields_bind_return; [apply yields_when, yields_print|apply yields_ret]].
    destruct (String.eqb (Report._to_yyyymm dm) (Report.run_pay R)); cbn [negb];
      [|eapply yields_bind_return; [apply yields_when, yields_print|apply yields_ret]].
    eapply yields_bind_return; [rewrite money_of_cell; apply yields_lift|].
    unfold line_for. rewrite Hdates. apply yields_ret.
Qed.

Lemma fold_append_line (ls out_rows : list ReportLine) (g c : Float.float) :
  fold_left Report.append_line ls (out_rows, g, c)
  = ((out_rows ++ ls)%list, sum_from g (map gp ls), sum_from c (map valor_comissao ls)).
Proof.
  revert out_rows g c. induction ls as [|l ls IH]; intros out_rows g c.
  - cbn. rewrite app_nil_r. reflexivity.
  - cbn [fold_left Report.append_line]. rewrite IH, <- app_assoc. reflexivity.
Qed.

Lemma rows_loop_yields (E : Env) (R : Report.Run) (comp : string) (rs : list Row)
    (acc : Report.Period) :
  yields (Report.rows_loop E R comp rs acc)
         (Return (fold_left Report.append_line (rows_lines E R comp rs) acc)).
Proof.
  revert acc. induction rs as [|r rs IH]; intros acc.
  - apply yields_ret.
  - cbn [Report.rows_loop rows_lines].
    eapply yields_bind_return; [apply row_step_yields|].
    destruct (row_result E R comp r) as [l|]; [|apply IH].
    destruct (truthy (Report.run_debug_code R)).
    + eapply yields_bind_return; [apply yields_print|apply yields_ret].
    + apply IH.
Qed.

Lemma period_yields (E : Env) (R : Report.Run) (comp : string) (rs : list Row) :
  yields (Report.rows_loop E R comp rs ([], Float.zero, Float.zero))
         (Return (period_of_lines (rows_lines E R comp rs))).
Proof.
  pose proof (rows_loop_yields E R comp rs ([], Float.zero, Float.zero)) as H.
  rewrite fold_append_line in H. exact H.
Qed.

Lemma periods_loop_yields (E : Env) (R : Report.Run) (nome : string) (df : DataFrame)
    (competencias : list string) (g c : Float.float) :
  yields (Report.periods_loop E R nome df competencias g c)
         (Return (person_totals E R (rows df) competencias (g, c))).
Proof.
  revert g c. induction competencias as [|comp rest IH]; intros g c.
  - apply yields_ret.
  - cbn [Report.periods_loop person_totals fold_left].
    eapply yields_bind_return; [apply period_yields|].
    unfold period_of_lines.
    eapply yields_bind_return; [apply yields_print|].
    destruct (rows_lines E R comp (rows df)) as [|l ls] eqn:Hlines.
    + eapply yields_bind_return; [apply yields_print|]. apply IH.
    + eapply yields_bind_return; [apply yields_print|].
      eapply yields_bind_return; [apply yields_print|]. apply IH.
Qed.

(** Without a debug code the lines are those of the rows in the two
    periods, in the order of the rows. *)
Lemma rows_lines_plain (E : Env) (R : Report.Run) (comp : string) (rs : list Row) :
  truthy (Report.run_debug_code R) = false ->
  rows_lines E R comp rs
  = map (line_for E R) (filter (in_periods E comp (Report.run_pay R)) rs).
Proof.
  intros Hdebug. induction rs as [|r rs IH]; [reflexivity|].
  cbn [rows_lines filter]. unfold row_result, debug_passes.
  rewrite Hdebug. cbn [negb orb]. rewrite andb_true_r.
  destruct (in_periods E comp (Report.run_pay R) r); cbn [map]; rewrite IH; reflexivity.
Qed.

(** The lines depend on a row through its code and its gross value. *)
Lemma rows_lines_map (E : Env) (R : Report.Run) (comp : string) (g : Row -> Row)
    (rs : list Row) :
  (forall r, code_of (g r) = code_of r) ->
  (forall r, get (g r) "Profit Liquido" = get r "Profit Liquido") ->
  rows_lines E R comp (map g rs) = rows_lines E R comp rs.
Proof.
  intros Hcode Hgp.
  assert (Hrow : forall r, row_result E R comp (g r) = row_result E R comp r).
  { intros r. unfold row_result, in_periods, debug_passes, line_for, money, Report.value.
    rewrite !Hcode, Hgp. reflexivity. }
  induction rs as [|r rs IH]; [reflexivity|].
  cbn [map rows_lines]. rewrite Hrow, IH. reflexivity.
Qed.

(** ** The functions that read the frames *)

Lemma resolver_reads (r : Ref) (nivel : string) (st : State) :
  Report.get_percentual_sales_exec r nivel st = (level_rate (deref r st) nivel, st).
Proof.
  unfold level_rate.
  destruct (mem "Niveis" (columns (deref r st))) eqn:Hcol; cbn [negb].
  - rewrite (resolver_by_first_row r st nivel Hcol). reflexivity.
  - unfold Report.get_percentual_sales_exec, bind, raise_if.
    rewrite frame_deref, Hcol. reflexivity.
Qed.

Lemma seller_reads (E : Env) (r : Ref) (nome : string) (st : State) :
  Report.filter_apurado_by_vendedor E r nome st
  = (match seller_rows E (deref r st) nome with
     | Raise e => Raise e
     | Return rs =>
         Return {| columns := add_column (columns (deref r st)) "Vendedor";
                   rows := map (fun r0 => set r0 "Vendedor" (text r0 "Vendedor")) rs |}
     end, st).
Proof.
  unfold Report.filter_apurado_by_vendedor, seller_rows, bind, raise_if, lift.
  rewrite frame_deref.
  destruct (mem (u8 "Código") (columns (deref r st))); cbn [negb]; [|reflexivity].
  destruct (mem "Vendedor" (columns (deref r st))); cbn [negb]; [|reflexivity].
  cbn [ret]. destruct (Report.compile_ignorecase E nome) as [matches|e]; [|reflexivity].
  unfold ret, select, assign. cbn [rows columns]. f_equal. f_equal. f_equal.
  apply filter_of_map. intros r0. rewrite text_set_text. reflexivity.
Qed.

Lemma person_totals_map (E : Env) (R : Report.Run) (g : Row -> Row) (rs : list Row)
    (competencias : list string) (start : Float.float * Float.float) :
  (forall r, code_of (g r) = code_of r) ->
  (forall r, get (g r) "Profit Liquido" = get r "Profit Liquido") ->
  person_totals E R (map g rs) competencias start
  = person_totals E R rs competencias start.
Proof.
  intros Hcode Hgp. unfold person_totals.
  revert start. induction competencias as [|comp rest IH]; intros start; [reflexivity|].
  cbn [fold_left]. rewrite (rows_lines_map E R comp g rs Hcode Hgp). apply IH.
Qed.

(** [run_for_person] returns the totals of the two sheets and leaves
    the frames as they were. *)
Lemma run_for_person_reads (E : Env) (r_niveis r_ap : Ref) (nome email nivel : string)
    (competencias : list string) (pay : string) (st : State) :
  exists st',
    Report.run_for_person E r_niveis r_ap nome email nivel competencias pay st
    = (person_outcome E (deref r_niveis st) (deref r_ap st) nome nivel competencias pay, st')
    /\ frames st' = frames st.
Proof.
  unfold Report.run_for_person, person_outcome, bind at 1 2 3 4, raise_if.
  rewrite frame_deref.
  destruct (mem "Profit Liquido" (columns (deref r_ap st))); cbn [negb];
    [|exists st; split; reflexivity].
  cbn [ret]. rewrite resolver_reads.
  destruct (level_rate (deref r_niveis st) nivel) as [pct|e];
    [|exists st; split; reflexivity].
  rewrite seller_reads.
  destruct (seller_rows E (deref r_ap st) nome) as [rs|e];
    [|exists st; split; reflexivity].
  unfold bind at 1, lift.
  destruct (Report.percent_label pct) as [label|e];
    [|exists st; split; reflexivity].
  match goal with
  | |- context [Report.periods_loop E ?R nome ?df competencias Float.zero Float.zero] =>
      pose proof (periods_loop_yields E R nome df competencias Float.zero Float.zero)
        as Hloop;
      assert (Hyield :
        yields (bind (print (PersonHeader nome email nivel label competencias pay))
                  (fun _ =>
                   bind (Report.periods_loop E R nome df competencias Float.zero Float.zero)
                     (fun totals =>
                      bind (print (PersonTotals nome (fst totals) (snd totals)))
                        (fun _ => ret totals))))
               (Return (person_totals E R (rows df) competencias (Float.zero, Float.zero))))
  end.
  { eapply yields_bind_return; [apply yields_print|].
    eapply yields_bind_return; [exact Hloop|].
    eapply yields_bind_return; [apply yields_print|apply yields_ret]. }
  destruct (Hyield st) as (st' & Hrun & Hframes).
  exists st'. split; [|exact Hframes].
  rewrite Hrun. f_equal. f_equal. cbn [rows].
  apply person_totals_map; intros r0.
  - unfold code_of. rewrite text_set_text. reflexivity.
  - apply get_set_other. reflexivity.
Qed.

Lemma people_loop_reads (E : Env) (people : list Report.Person)
    (competencias : list string) (pay : string) (g c : Float.float) (st : State) :
  exists st',
    Report.people_loop E people competencias pay g c st
    = (grand_totals E (df_niveis st) (df_apurado st) people competencias pay (g, c), st')
    /\ frames st' = frames st.
Proof.
  revert g c st. induction people as [|p rest IH]; intros g c st.
  - exists st. split; reflexivity.
  - cbn [Report.people_loop grand_totals]. unfold bind.
    destruct (run_for_person_reads E DfNiveis DfApurado (Report.nome p) (Report.email p)
                (Report.nivel p) competencias pay st) as (st1 & -> & H1).
    cbn [deref].
    destruct (person_outcome E (df_niveis st) (df_apurado st) (Report.nome p)
                (Report.nivel p) competencias pay) as [totals|e].
    + destruct (IH (Float.add g (fst totals)) (Float.add c (snd totals)) st1)
        as (st2 & -> & H2).
      exists st2. split; [|congruence].
      unfold frames in H1. injection H1 as -> _ ->. reflexivity.
    + exists st1. split; [reflexivity|exact H1].
Qed.

(** ** The rows of the report *)

(** C2, as the code has it: with the variable DEBUG_CODE set to another
    code, a row that meets the five conditions is left out of the
    report. *)
Lemma debug_code_leaves_row_out :
  let E := Scenario.with_debug_code "SH999" in
  let run := Report.run_for_person E DfNiveis DfApurado "Ana Souza" "ana@audaz.example"
               (u8 "Guardião") ["2025-08"] "2025-12" Scenario.loaded in
  map (contributes E "Ana Souza" "2025-08" "2025-12") (rows (df_apurado Scenario.loaded))
  = [true]
  /\ fst run = Return (Prim2SF 0, Prim2SF 0)
  /\ rev (stdout (snd run))
     = [PersonHeader "Ana Souza" "ana@audaz.example" (u8 "Guardião") 50 ["2025-08"] "2025-12";
        PeriodHeader "Ana Souza" "2025-08" "2025-12";
        NoRows;
        PersonTotals "Ana Souza" (Prim2SF 0) (Prim2SF 0)].
Proof. repeat split; vm_compute; reflexivity. Qed.

Lemma seller_rows_plain (E : Env) (ap : DataFrame) (nome : string) :
  Text.existsb Report.re_meta nome = false ->
  mem (u8 "Código") (columns ap) = true ->
  mem "Vendedor" (columns ap) = true ->
  seller_rows E ap nome = Return (filter (vendedor_matches nome) (rows ap)).
Proof.
  intros Hmeta Hcodigo Hvendedor.
  unfold seller_rows, Report.compile_ignorecase.
  rewrite Hmeta, Hcodigo, Hvendedor. reflexivity.
Qed.

(** C2, amended: when no debug code is set and the name holds no
    metacharacter of regular expressions, the lines of a period are the
    lines of the rows of the sheet, in their order, that meet the five
    conditions: the Vendedor cell holds the name, letter case apart; the
    trimmed Código is not blank; the lookup of that code returns a
    creation date and a settlement date; the month of the first is the
    creation period and the month of the second the settlement period.
    Every other row is passed over without an error. *)
Theorem report_rows_without_debug (E : Env) (R : Report.Run) (nome comp : string)
    (st : State) :
  truthy (Report.run_debug_code R) = false ->
  Text.existsb Report.re_meta nome = false ->
  mem (u8 "Código") (columns (df_apurado st)) = true ->
  mem "Vendedor" (columns (df_apurado st)) = true ->
  exists df_person,
    Report.filter_apurado_by_vendedor E DfApurado nome st = (Return df_person, st)
    /\ yields (Report.rows_loop E R comp (rows df_person) ([], Float.zero, Float.zero))
          (Return (period_of_lines
                     (map (line_for E R)
                          (filter (contributes E nome comp (Report.run_pay R))
                                  (rows (df_apurado st)))))).
Proof.
  intros Hdebug Hmeta Hcodigo Hvendedor.
  rewrite seller_reads. cbn [deref].
  rewrite (seller_rows_plain E _ nome Hmeta Hcodigo Hvendedor).
  eexists. split; [reflexivity|].
  cbn [rows].
  pose proof (period_yields E R comp
                (map (fun r0 => set r0 "Vendedor" (text r0 "Vendedor"))
                     (filter (vendedor_matches nome) (rows (df_apurado st))))) as H.
  rewrite rows_lines_map, (rows_lines_plain E R comp _ Hdebug), filter_twice in H.
  - rewrite (filter_ext (fun r => in_periods E comp (Report.run_pay R) r
                                  && vendedor_matches nome r)
                        (contributes E nome comp (Report.run_pay R))) in H
      by (intros r; apply andb_comm).
    exact H.
  - intros r. unfold code_of. rewrite text_set_text. reflexivity.
  - intros r. apply get_set_other. reflexivity.
Qed.

Lemma report_rows_without_debug_witness :
  exists df_person,
    Report.filter_apurado_by_vendedor Scenario.E DfApurado "ana souza" Scenario.loaded
    = (Return df_person, Scenario.loaded)
    /\ yields (Report.rows_loop Scenario.E Scenario.ana "2025-08" (rows df_person)
                 ([], Float.zero, Float.zero))
          (Return (period_of_lines
                     (map (line_for Scenario.E Scenario.ana)
                          (filter (contributes Scenario.E "ana souza" "2025-08" "2025-12")
                                  (rows (df_apurado Scenario.loaded)))))).
Proof.
  exact (report_rows_without_debug Scenario.E Scenario.ana "ana souza" "2025-08"
           Scenario.loaded eq_refl eq_refl eq_refl eq_refl).
Defined.

(** ** Commissions and totals *)

Lemma rows_lines_from_rows (E : Env) (R : Report.Run) (comp : string) (rs : list Row) :
  Forall (fun l => exists r, In r rs /\ l = line_for E R r
                             /\ in_periods E comp (Report.run_pay R) r = true)
         (rows_lines E R comp rs).
Proof.
  induction rs as [|r rs IH]; [constructor|].
  assert (Hrest : Forall (fun l => exists r0, In r0 (r :: rs) /\ l = line_for E R r0
                            /\ in_periods E comp (Report.run_pay R) r0 = true)
                         (rows_lines E R comp rs)).
  { eapply Forall_impl; [|exact IH].
    intros l (r0 & Hin & Hl). exists r0. split; [right; exact Hin|exact Hl]. }
  cbn [rows_lines]. unfold row_result.
  destruct (in_periods E comp (Report.run_pay R) r) eqn:Hin; cbn [andb]; [|exact Hrest].
  destruct (debug_passes R r); [|exact Hrest].
  assert (Hhead : exists r0, In r0 (r :: rs) /\ line_for E R r = line_for E R r0
                             /\ in_periods E comp (Report.run_pay R) r0 = true)
    by (exists r; split; [left; reflexivity|split; [reflexivity|exact Hin]]).
  destruct (truthy (Report.run_debug_code R)); constructor; auto.
Qed.

(** C3: the gross value of a line is what [parse_ptbr_money] reads in
    the Profit Liquido cell of its row and its commission is that value
    times the rate, rounded to two decimals by [round]; the totals of a
    period are the sums of the gross values and of the rounded
    commissions of its lines, added in order from 0.0; the totals of a
    person add the totals of the periods that have lines, and the totals
    of [main] add the totals of the persons.  In the run with one person
    at level Guardiao (50%) and one shipment of gross value 1000.00
    created in 2025-08 and settled in 2025-12, the table shows the
    commission 500.0 and the grand total is 500.0. *)
Theorem commission_and_totals (E : Env) (R : Report.Run) (nome comp : string)
    (df_person : DataFrame) (people : list Report.Person)
    (competencias : list string) (pay : string) (st : State) :
  let lines := rows_lines E R comp (rows df_person) in
  Forall (fun l => exists r,
              In r (rows df_person)
              /\ Report.parse_ptbr_money (Report.value r "Profit Liquido") = Return (gp l)
              /\ valor_comissao l = Float.round2 (Float.mul (gp l) (Report.run_pct R)))
         lines
  /\ yields (Report.rows_loop E R comp (rows df_person) ([], Float.zero, Float.zero))
            (Return (lines,
                     sum_from Float.zero (map gp lines),
                     sum_from Float.zero (map valor_comissao lines)))
  /\ yields (Report.periods_loop E R nome df_person competencias Float.zero Float.zero)
            (Return (fold_left
                       (fun totals comp =>
                          add_period totals (rows_lines E R comp (rows df_person)))
                       competencias (Float.zero, Float.zero)))
  /\ (exists st',
        Report.people_loop E people competencias pay Float.zero Float.zero st
        = (grand_totals E (df_niveis st) (df_apurado st) people competencias pay
                        (Float.zero, Float.zero), st')
        /\ forall p, exists st1 st2,
             Report.run_for_person E DfNiveis DfApurado (Report.nome p) (Report.email p)
                                   (Report.nivel p) competencias pay st1
             = (person_outcome E (df_niveis st) (df_apurado st) (Report.nome p)
                               (Report.nivel p) competencias pay, st2))
  /\ (let run := Report.main Scenario.E Scenario.initial in
      fst run = Return tt
      /\ rev (stdout (snd run))
         = [PersonHeader "Ana Souza" "ana@audaz.example" (u8 "Guardião") 50
                         ["2025-08"; "2025-09"; "2025-10"] "2025-12";
            PeriodHeader "Ana Souza" "2025-08" "2025-12";
            Table [{| codigo := "SH001";
                      date_creation := "2025-08-15";
                      date_comission := "2025-12-05";
                      line_nivel := u8 "Guardião";
                      percentual := 50;
                      gp := Prim2SF 1000;
                      valor_comissao := Prim2SF 500 |}];
            Totals (Prim2SF 1000) (Prim2SF 500);
            PeriodHeader "Ana Souza" "2025-09" "2025-12"; NoRows;
            PeriodHeader "Ana Souza" "2025-10" "2025-12"; NoRows;
            PersonTotals "Ana Souza" (Prim2SF 1000) (Prim2SF 500);
            GrandTotals (Prim2SF 1000) (Prim2SF 500)]).
Proof.
  intros lines.
  split; [|split; [|split; [|split]]].
  - eapply Forall_impl; [|apply rows_lines_from_rows].
    intros l (r & Hin & -> & _). exists r.
    split; [exact Hin|split; [apply money_of_cell|reflexivity]].
  - apply period_yields.
  - apply periods_loop_yields.
  - destruct (people_loop_reads E people competencias pay Float.zero Float.zero st)
      as (st' & Hloop & _).
    exists st'. split; [exact Hloop|].
    intros p.
    destruct (run_for_person_reads E DfNiveis DfApurado (Report.nome p) (Report.email p)
                (Report.nivel p) competencias pay st) as (st2 & Hrun & _).
    exists st, st2. exact Hrun.
  - split; vm_compute; reflexivity.
Qed.

(** ** Shared frames *)

Lemma mem_add_column_other (cols : list string) (c k : string) :
  String.eqb c k = false -> mem k (add_column cols c) = mem k cols.
Proof.
  intros Hck. unfold add_column. destruct (mem c cols); [reflexivity|].
  unfold mem. rewrite existsb_app. cbn [List.existsb].
  rewrite String.eqb_sym, Hck. rewrite !orb_false_r. reflexivity.
Qed.

(** A column the report does not read does not change the totals. *)
Lemma person_outcome_extra_column (E : Env) (niveis ap : DataFrame) (nome nivel : string)
    (competencias : list string) (pay : string) (c : string) (f : Row -> string) :
  String.eqb c "Profit Liquido" = false ->
  String.eqb c (u8 "Código") = false ->
  String.eqb c "Vendedor" = false ->
  person_outcome E niveis (assign ap c f) nome nivel competencias pay
  = person_outcome E niveis ap nome nivel competencias pay.
Proof.
  intros Hgp Hcodigo Hvendedor.
  unfold person_outcome, seller_rows. cbn [assign columns rows].
  rewrite !mem_add_column_other by assumption.
  destruct (mem "Profit Liquido" (columns ap)); cbn [negb]; [|reflexivity].
  destruct (level_rate niveis nivel) as [pct|e]; [|reflexivity].
  destruct (mem (u8 "Código") (columns ap)); cbn [negb]; [|reflexivity].
  destruct (mem "Vendedor" (columns ap)); cbn [negb]; [|reflexivity].
  destruct (Report.compile_ignorecase E nome) as [matches|e]; [|reflexivity].
  destruct (Report.percent_label pct) as [label|e]; [|reflexivity].
  f_equal.
  rewrite (filter_of_map (fun r => matches (text r "Vendedor"))
                         (fun r => matches (text r "Vendedor"))
                         (fun r => set r c (f r)))
    by (intros r; rewrite (text_set_other _ _ _ _ Hvendedor); reflexivity).
  apply person_totals_map; intros r.
  - unfold code_of. rewrite (text_set_other _ _ _ _ Hcodigo). reflexivity.
  - apply get_set_other, Hgp.
Qed.

Lemma precheck_frames (debug_code : string) (st : State) :
  frames (snd (Report._debug_precheck_in_apurados DfApurado debug_code st))
  = if truthy debug_code && mem (u8 "Código") (columns (df_apurado st))
    then (df_niveis st, df_meta st,
          assign (df_apurado st) "_codigo_norm" (fun r => strip (text r (u8 "Código"))))
    else frames st.
Proof.
  unfold Report._debug_precheck_in_apurados.
  destruct (truthy debug_code); cbn [negb andb]; [|reflexivity].
  unfold bind, print, frame. cbn [df_apurado].
  destruct (mem (u8 "Código") (columns (df_apurado st))); reflexivity.
Qed.

Lemma require_columns_state (sheet : string) (required cols : list string) (st : State) :
  snd (Report.require_columns sheet required cols st) = st.
Proof.
  induction required as [|c required IH]; [reflexivity|].
  cbn [Report.require_columns]. unfold bind, raise_if.
  destruct (mem c cols); cbn [negb]; [exact IH|reflexivity].
Qed.

Lemma roster_state (r : Ref) (st : State) :
  snd (Report.get_sales_exec_people r st) = st.
Proof.
  unfold Report.get_sales_exec_people, bind. rewrite frame_deref.
  pose proof (require_columns_state "Meta Colaborador" Report.required_columns
                (columns (deref r st)) st) as H.
  destruct (Report.require_columns _ _ _ st) as [[[]|e] st']; cbn [snd] in H; subst st';
    reflexivity.
Qed.

Lemma variant_filter_state (E : Env) (r : Ref) (vendedor_nome pay : string) (st : State) :
  snd (Variant.filter_apurado E r vendedor_nome pay st) = st.
Proof.
  unfold Variant.filter_apurado, bind, raise_if, lift. rewrite frame_deref.
  destruct (mem (u8 "Código") (columns (deref r st))); cbn [negb]; [|reflexivity].
  destruct (mem "Vendedor" (columns (deref r st))); cbn [negb]; [|reflexivity].
  cbn [ret]. destruct (Report.compile_ignorecase E vendedor_nome); [|reflexivity].
  match goal with |- context [if truthy ?p then _ else _] => destruct (truthy p) end;
    [|reflexivity].
  match goal with |- context [if negb (mem ?p ?cs) then _ else _] =>
    destruct (mem p cs) end; reflexivity.
Qed.

(** C9, as the code has it: with a debug code, the check that [main]
    runs before the aggregation writes a column into the shared
    Apurado frame. *)
Lemma precheck_changes_shared_frame :
  let st' := snd (Report._debug_precheck_in_apurados DfApurado "SH001" Scenario.loaded) in
  columns (df_apurado Scenario.loaded) = [u8 "Código"; "Vendedor"; "Profit Liquido"]
  /\ columns (df_apurado st')
     = [u8 "Código"; "Vendedor"; "Profit Liquido"; "_codigo_norm"]
  /\ frames st' <> frames Scenario.loaded
  /\ columns (df_apurado (snd (Report.main (Scenario.with_debug_code "SH001")
                                           Scenario.initial)))
     = [u8 "Código"; "Vendedor"; "Profit Liquido"; "_codigo_norm"].
Proof.
  split; [vm_compute; reflexivity|].
  split; [vm_compute; reflexivity|].
  split; [|vm_compute; reflexivity].
  vm_compute. intros H. discriminate H.
Qed.

(** C9, amended: run twice on the same sheets, with the same
    collaborators, [run_for_person] returns the same pair of totals, and
    it leaves the shared frames as they were; so do the resolver, the
    roster, the filter by seller and the filter of the variant script,
    which write into copies.  The debug check is the one function that
    writes into a shared frame: with a debug code it adds the column
    [_codigo_norm] to the Apurado frame, and without one it changes
    nothing; the totals of [run_for_person] are the same before and
    after it. *)
Theorem aggregation_repeatable (E : Env) (nome email nivel : string)
    (competencias : list string) (pay debug_code : string) (st : State) :
  let run := Report.run_for_person E DfNiveis DfApurado nome email nivel competencias pay in
  let checked := snd (Report._debug_precheck_in_apurados DfApurado debug_code st) in
  fst (run (snd (run st))) = fst (run st)
  /\ frames (snd (run st)) = frames st
  /\ snd (Report.get_percentual_sales_exec DfNiveis nivel st) = st
  /\ snd (Report.get_sales_exec_people DfMeta st) = st
  /\ snd (Report.filter_apurado_by_vendedor E DfApurado nome st) = st
  /\ snd (Variant.filter_apurado E DfApurado nome pay st) = st
  /\ fst (run checked) = fst (run st)
  /\ (truthy debug_code = false -> checked = st).
Proof.
  intros run checked.
  destruct (run_for_person_reads E DfNiveis DfApurado nome email nivel competencias pay st)
    as (st1 & Hrun & Hframes).
  fold run in Hrun.
  assert (Hsame : forall st2, frames st2 = frames st -> fst (run st2) = fst (run st)).
  { intros st2 H2.
    destruct (run_for_person_reads E DfNiveis DfApurado nome email nivel competencias pay
                st2) as (st3 & Hrun2 & _).
    fold run in Hrun2. rewrite Hrun, Hrun2. cbn [fst].
    rewrite !(deref_frames _ _ _ H2). reflexivity. }
  split; [apply Hsame; rewrite Hrun; exact Hframes|].
  split; [rewrite Hrun; exact Hframes|].
  split; [rewrite resolver_reads; reflexivity|].
  split; [apply roster_state|].
  split; [rewrite seller_reads; reflexivity|].
  split; [apply variant_filter_state|].
  split.
  - pose proof (precheck_frames debug_code st) as Hcheck. fold checked in Hcheck.
    destruct (truthy debug_code && mem (u8 "Código") (columns (df_apurado st)));
      [|apply Hsame, Hcheck].
    destruct (run_for_person_reads E DfNiveis DfApurado nome email nivel competencias pay
                checked) as (st3 & Hrun3 & _).
    fold run in Hrun3. rewrite Hrun, Hrun3. cbn [fst deref].
    unfold frames in Hcheck. injection Hcheck as -> _ ->.
    apply person_outcome_extra_column; reflexivity.
  - intros Hdebug. unfold checked, Report._debug_precheck_in_apurados.
    rewrite Hdebug. reflexivity.
Qed.

Lemma aggregation_repeatable_witness :
  snd (Report._debug_precheck_in_apurados DfApurado "" Scenario.loaded) = Scenario.loaded.
Proof.
  exact (proj2 (proj2 (proj2 (proj2 (proj2 (proj2 (proj2
           (aggregation_repeatable Scenario.E "Ana Souza" "ana@audaz.example"
              (u8 "Guardião") ["2025-08"] "2025-12" "" Scenario.loaded))))))) eq_refl).
Defined.

(* ================================================================== *)
(** * Part V.  Further properties of the code *)
(* ================================================================== *)

(** ** More facts about text *)

Lemma map_chars_compose (f g : ascii -> ascii) (s : string) :
  map_chars f (map_chars g s) = map_chars (fun c => f (g c)) s.
Proof.
  induction s as [|c s IH]; [reflexivity|]. cbn [map_chars]. rewrite IH. reflexivity.
Qed.

Lemma map_chars_ext (f g : ascii -> ascii) (s : string) :
  (forall c, f c = g c) -> map_chars f s = map_chars g s.
Proof.
  intros H. induction s as [|c s IH]; [reflexivity|].
  cbn [map_chars]. rewrite H, IH. reflexivity.
Qed.

Lemma map_chars_length (f : ascii -> ascii) (s : string) :
  String.length (map_chars f s) = String.length s.
Proof.
  induction s as [|c s IH]; [reflexivity|]. cbn [map_chars String.length].
  rewrite IH. reflexivity.
Qed.

Lemma lower_map_chars (s : string) : lower s = map_chars lower_char s.
Proof.
  induction s as [|c s IH]; [reflexivity|]. cbn [lower map_chars]. rewrite IH. reflexivity.
Qed.

(** Replacing one character by another works character by character. *)
Lemma replace_char (a b : ascii) (s : string) :
  replace (String a EmptyString) (String b EmptyString) s = map_chars (subst_char a b) s.
Proof.
  unfold replace.
  induction s as [|c s IH]; [reflexivity|].
  cbn [replace_from map_chars]. rewrite startswith_char. unfold subst_char at 1.
  destruct (Ascii.eqb a c); cbn [String.length Nat.pred append]; rewrite IH; reflexivity.
Qed.

Section StripFacts.

Variable sp : ascii -> bool.

Lemma rstrip_by_head (c : ascii) (s : string) :
  rstrip_by sp (String c s) = EmptyString
  \/ exists r, rstrip_by sp (String c s) = String c r.
Proof.
  cbn [rstrip_by]. destruct (rstrip_by sp s) as [|d k].
  - destruct (sp c); [left; reflexivity|right; eexists; reflexivity].
  - right. eexists. reflexivity.
Qed.

Lemma rstrip_by_idem (s : string) : rstrip_by sp (rstrip_by sp s) = rstrip_by sp s.
Proof.
  induction s as [|c s IH]; [reflexivity|].
  cbn [rstrip_by]. destruct (rstrip_by sp s) as [|d k] eqn:Hs.
  - destruct (sp c) eqn:Hc; [reflexivity|]. cbn [rstrip_by]. rewrite Hc. reflexivity.
  - change (rstrip_by sp (String c (String d k))) with
      (match rstrip_by sp (String d k) with
       | EmptyString => if sp c then EmptyString else String c EmptyString
       | kept => String c kept
       end).
    rewrite IH. reflexivity.
Qed.

Lemma lstrip_by_head (s : string) (c : ascii) (r : string) :
  lstrip_by sp s = String c r -> sp c = false.
Proof.
  induction s as [|d s IH]; [discriminate|].
  cbn [lstrip_by]. destruct (sp d) eqn:Hd; [exact IH|].
  intros H. injection H as <- _. exact Hd.
Qed.

(** Stripping twice is stripping once. *)
Lemma strip_by_idem (s : string) :
  rstrip_by sp (lstrip_by sp (rstrip_by sp (lstrip_by sp s)))
  = rstrip_by sp (lstrip_by sp s).
Proof.
  destruct (lstrip_by sp s) as [|c r] eqn:Hl; [reflexivity|].
  pose proof (lstrip_by_head s c r Hl) as Hc.
  destruct (rstrip_by_head c r) as [H | [k H]].
  - rewrite H. reflexivity.
  - rewrite <- (rstrip_by_idem (String c r)) at 2.
    rewrite H. cbn [lstrip_by]. rewrite Hc. reflexivity.
Qed.

Variable f : ascii -> ascii.
Hypothesis f_space : forall c, sp (f c) = sp c.

Lemma lstrip_by_map (s : string) :
  lstrip_by sp (map_chars f s) = map_chars f (lstrip_by sp s).
Proof.
  induction s as [|c s IH]; [reflexivity|].
  cbn [map_chars lstrip_by]. rewrite f_space. destruct (sp c); [exact IH|reflexivity].
Qed.

Lemma rstrip_by_map (s : string) :
  rstrip_by sp (map_chars f s) = map_chars f (rstrip_by sp s).
Proof.
  induction s as [|c s IH]; [reflexivity|].
  cbn [map_chars rstrip_by]. rewrite IH, f_space.
  destruct (rstrip_by sp s); cbn [map_chars]; [destruct (sp c)|]; reflexivity.
Qed.

End StripFacts.

Lemma strip_idem (s : string) : strip (strip s) = strip s.
Proof. apply strip_by_idem. Qed.

Lemma strip_map (f : ascii -> ascii) (s : string) :
  (forall c, isspace (f c) = isspace c) ->
  strip (map_chars f s) = map_chars f (strip s).
Proof.
  intros H. unfold strip. rewrite (lstrip_by_map isspace f H), (rstrip_by_map isspace f H).
  reflexivity.
Qed.

(** ** The normalisation of names *)

Lemma fold_char_facts (c : ascii) :
  fold_char (fold_char c) = fold_char c
  /\ fold_char (lower_char c) = fold_char c
  /\ isspace (fold_char c) = isspace c
  /\ isspace (lower_char c) = isspace c
  /\ folded_away (fold_char c) = false.
Proof. ascii_cases c; vm_compute; repeat split; reflexivity. Qed.

(** [_norm_text] trims and then works character by character. *)
Lemma norm_text_map (s : string) :
  Report._norm_text s = map_chars fold_char (strip s).
Proof.
  unfold Report._norm_text.
  change (u8 "ã") with (String (chr 227) EmptyString).
  change (u8 "á") with (String (chr 225) EmptyString).
  change (u8 "à") with (String (chr 224) EmptyString).
  change (u8 "â") with (String (chr 226) EmptyString).
  change (u8 "é") with (String (chr 233) EmptyString).
  change (u8 "ê") with (String (chr 234) EmptyString).
  change (u8 "í") with (String (chr 237) EmptyString).
  change (u8 "ó") with (String (chr 243) EmptyString).
  change (u8 "ô") with (String (chr 244) EmptyString).
  change (u8 "ú") with (String (chr 250) EmptyString).
  change (u8 "ç") with (String (chr 231) EmptyString).
  rewrite !replace_char, lower_map_chars, !map_chars_compose. reflexivity.
Qed.

Lemma existsb_map_chars (p : ascii -> bool) (f : ascii -> ascii) (s : string) :
  (forall c, p (f c) = false) -> Text.existsb p (map_chars f s) = false.
Proof.
  intros H. induction s as [|c s IH]; [reflexivity|].
  cbn [map_chars Text.existsb]. rewrite H, IH. reflexivity.
Qed.

(** X1: what [_norm_text] returns is in normal form: normalising it
    again changes nothing, it has no white space at its ends, none of
    the eleven accented letters and no capital letter, and it is as long
    as the trimmed argument. *)
Theorem norm_text_normal_form (s : string) :
  Report._norm_text (Report._norm_text s) = Report._norm_text s
  /\ strip (Report._norm_text s) = Report._norm_text s
  /\ Text.existsb folded_away (Report._norm_text s) = false
  /\ String.length (Report._norm_text s) = String.length (strip s).
Proof.
  assert (Hsp : forall c, isspace (fold_char c) = isspace c)
    by (intros c; exact (proj1 (proj2 (proj2 (fold_char_facts c))))).
  assert (Hstrip : strip (Report._norm_text s) = Report._norm_text s).
  { rewrite norm_text_map, (strip_map fold_char _ Hsp), strip_idem. reflexivity. }
  split; [|split; [exact Hstrip|split]].
  - rewrite (norm_text_map (Report._norm_text s)), Hstrip, norm_text_map.
    rewrite map_chars_compose. apply map_chars_ext. intros c.
    exact (proj1 (fold_char_facts c)).
  - rewrite norm_text_map. apply existsb_map_chars. intros c.
    exact (proj2 (proj2 (proj2 (proj2 (fold_char_facts c))))).
  - rewrite norm_text_map. apply map_chars_length.
Qed.

(** X2: two names that differ only in letter case and in the white
    space around them have the same normal form. *)
Theorem norm_text_ignores_case_and_blanks (a b : string) :
  lower (strip a) = lower (strip b) ->
  Report._norm_text a = Report._norm_text b
  /\ Variant._norm_level a = Variant._norm_level b.
Proof.
  intros H.
  assert (Hnorm : forall s, Report._norm_text s = map_chars fold_char (lower (strip s))).
  { intros s. rewrite norm_text_map, lower_map_chars, map_chars_compose.
    apply map_chars_ext. intros c. symmetry.
    exact (proj1 (proj2 (fold_char_facts c))). }
  assert (Hab : Report._norm_text a = Report._norm_text b)
    by (rewrite !Hnorm, H; reflexivity).
  split; exact Hab.
Qed.

Lemma norm_text_ignores_case_and_blanks_witness :
  Report._norm_text (u8 "  GUARDIÃO") = Report._norm_text (u8 "Guardião ").
Proof.
  refine (proj1 (norm_text_ignores_case_and_blanks (u8 "  GUARDIÃO") (u8 "Guardião ") _)).
  vm_compute. reflexivity.
Defined.

Lemma find_ext {A : Type} (f g : A -> bool) (l : list A) :
  (forall x, f x = g x) -> find f l = find g l.
Proof.
  intros H. induction l as [|x l IH]; [reflexivity|].
  cbn [find]. rewrite H, IH. reflexivity.
Qed.

(** X3: the resolver reads the level through its normal form only: two
    level names with the same normal form resolve to the same rate, and
    one is unknown or has a malformed cell exactly when the other is. *)
Theorem resolver_reads_normal_form (r : Ref) (a b : string) (st : State) :
  Report._norm_text a = Report._norm_text b ->
  (forall x, fst (Report.get_percentual_sales_exec r a st) = Return x
             <-> fst (Report.get_percentual_sales_exec r b st) = Return x)
  /\ (fst (Report.get_percentual_sales_exec r a st) = Raise (RuntimeError (LevelNotFound a))
      <-> fst (Report.get_percentual_sales_exec r b st)
          = Raise (RuntimeError (LevelNotFound b)))
  /\ (forall p, fst (Report.get_percentual_sales_exec r a st)
                = Raise (RuntimeError (InvalidPercent a p))
                <-> fst (Report.get_percentual_sales_exec r b st)
                    = Raise (RuntimeError (InvalidPercent b p))).
Proof.
  intros Hab. rewrite !resolver_reads. cbn [fst]. unfold level_rate.
  rewrite (find_ext (level_matches a) (level_matches b))
    by (intros row; unfold level_matches; rewrite Hab; reflexivity).
  destruct (mem "Niveis" (columns (deref r st))); cbn [negb].
  - destruct (find (level_matches b) (rows (deref r st))) as [first|].
    + cbv zeta. destruct (endswith "%" (strip (text first "Sales Executive"))).
      * destruct (Numeral.float_of_str _); repeat split; intros H;
          try discriminate H; exact H.
      * repeat split; intros H; try discriminate H;
          injection H as <-; reflexivity.
    + repeat split; intros H; try discriminate H; reflexivity.
  - repeat split; intros H; discriminate H.
Qed.

Lemma resolver_reads_normal_form_witness :
  fst (Report.get_percentual_sales_exec DfNiveis (u8 " GUARDIÃO ")
         (with_niveis (guardiao_sheet "50%"))) = Return (Prim2SF 0.5).
Proof.
  refine (proj2 (proj1 (resolver_reads_normal_form DfNiveis (u8 " GUARDIÃO ") "guardiao"
                          (with_niveis (guardiao_sheet "50%")) _)
                       (Prim2SF 0.5)) _).
  - vm_compute. reflexivity.
  - vm_compute. reflexivity.
Defined.

(** ** Texts put together *)

Lemma append_length (s t : string) :
  String.length (s ++ t) = (String.length s + String.length t)%nat.
Proof.
  induction s as [|c s IH]; [reflexivity|]. cbn [append String.length]. rewrite IH.
  reflexivity.
Qed.

Lemma append_assoc (s t u : string) : (s ++ t) ++ u = s ++ (t ++ u).
Proof.
  induction s as [|c s IH]; [reflexivity|]. cbn [append]. rewrite IH. reflexivity.
Qed.

Lemma append_empty (s : string) : s ++ EmptyString = s.
Proof.
  induction s as [|c s IH]; [reflexivity|]. cbn [append]. rewrite IH. reflexivity.
Qed.

Lemma forallb_append (p : ascii -> bool) (s t : string) :
  Text.forallb p (s ++ t) = Text.forallb p s && Text.forallb p t.
Proof.
  induction s as [|c s IH]; [reflexivity|]. cbn [append Text.forallb].
  rewrite IH, andb_assoc. reflexivity.
Qed.

Lemma existsb_append (p : ascii -> bool) (s t : string) :
  Text.existsb p (s ++ t) = Text.existsb p s || Text.existsb p t.
Proof.
  induction s as [|c s IH]; [reflexivity|]. cbn [append Text.existsb].
  rewrite IH, orb_assoc. reflexivity.
Qed.

Lemma map_chars_append (f : ascii -> ascii) (s t : string) :
  map_chars f (s ++ t) = map_chars f s ++ map_chars f t.
Proof.
  induction s as [|c s IH]; [reflexivity|]. cbn [append map_chars]. rewrite IH.
  reflexivity.
Qed.

Lemma map_chars_id (f : ascii -> ascii) (p : ascii -> bool) (s : string) :
  (forall c, p c = true -> f c = c) ->
  Text.forallb p s = true -> map_chars f s = s.
Proof.
  intros H. induction s as [|c s IH]; [reflexivity|].
  cbn [Text.forallb map_chars]. intros Hs. apply andb_true_iff in Hs as [Hc Hs].
  rewrite (H c Hc), (IH Hs). reflexivity.
Qed.

Lemma forallb_weaken (p q : ascii -> bool) (s : string) :
  (forall c, p c = true -> q c = true) ->
  Text.forallb p s = true -> Text.forallb q s = true.
Proof.
  intros H. induction s as [|c s IH]; [reflexivity|].
  cbn [Text.forallb]. intros Hs. apply andb_true_iff in Hs as [Hc Hs].
  rewrite (H c Hc), (IH Hs). reflexivity.
Qed.

(** ** Printing and reading decimal numbers *)

Lemma digit_chr (m : Z) :
  0 <= m < 10 ->
  isdigit (chr (48 + m)) = true /\ Numeral.digit_value (chr (48 + m)) = m.
Proof.
  intros H.
  assert (Hm : m = 0 \/ m = 1 \/ m = 2 \/ m = 3 \/ m = 4 \/ m = 5 \/ m = 6 \/ m = 7
               \/ m = 8 \/ m = 9) by lia.
  repeat (destruct Hm as [-> | Hm]; [split; reflexivity|]).
  subst m. split; reflexivity.
Qed.

(** The digits [digits_fuel] puts before [acc]: there are [d] of them,
    as many as [n] needs, and reading them adds [n]. *)
Lemma scan_digits_fuel (fuel : nat) (n : Z) (acc : string) :
  (0 < fuel)%nat ->
  0 <= n < 2 ^ Z.of_nat fuel ->
  exists d,
    0 < d /\ (d = 1 \/ 10 ^ (d - 1) <= n) /\ n < 10 ^ d
    /\ String.length (digits_fuel fuel n acc) = (Z.to_nat d + String.length acc)%nat
    /\ forall a k,
         Numeral.scan_digits (digits_fuel fuel n acc) a k
         = Numeral.scan_digits acc (a * 10 ^ d + n) (k + d).
Proof.
  revert n acc. induction fuel as [|fuel IH]; intros n acc Hfuel Hn.
  - exfalso. lia.
  - cbn [digits_fuel].
    pose proof (Z.mod_pos_bound n 10 ltac:(lia)) as Hmod.
    destruct (digit_chr (n mod 10) Hmod) as [Hdigit Hvalue].
    destruct (n <? 10) eqn:Hsmall.
    + apply Z.ltb_lt in Hsmall. exists 1.
      split; [lia|]. split; [left; reflexivity|]. split; [lia|]. split; [reflexivity|].
      intros a k.
      cbn [Numeral.scan_digits]. rewrite Hdigit, Hvalue.
      rewrite Z.mod_small by lia. f_equal. lia.
    + apply Z.ltb_ge in Hsmall.
      assert (Hdiv : 0 <= n / 10 < 2 ^ Z.of_nat fuel).
      { split; [apply Z.div_pos; lia|].
        apply Z.div_lt_upper_bound; [lia|].
        rewrite Nat2Z.inj_succ, Z.pow_succ_r in Hn by lia. lia. }
      assert (Hpos : (0 < fuel)%nat).
      { destruct fuel; [|lia]. cbn in Hdiv.
        assert (1 <= n / 10) by (apply Z.div_le_lower_bound; lia). lia. }
      destruct (IH (n / 10) (String (chr (48 + n mod 10)) acc) Hpos Hdiv)
        as (d & Hd & Hmin & Hmax & Hlen & Hscan).
      pose proof (Z.div_mod n 10 ltac:(lia)) as Hdm.
      exists (d + 1).
      split; [lia|].
      split.
      { right. replace (d + 1 - 1) with d by lia.
        destruct Hmin as [-> | Hmin]; [lia|].
        replace d with (Z.succ (d - 1)) by lia.
        rewrite Z.pow_succ_r by lia. lia. }
      split.
      { replace (d + 1) with (Z.succ d) by lia. rewrite Z.pow_succ_r by lia. lia. }
      split.
      { rewrite Hlen. cbn [String.length]. rewrite Z2Nat.inj_add by lia. cbn. lia. }
      intros a k.
      rewrite Hscan. cbn [Numeral.scan_digits]. rewrite Hdigit, Hvalue.
      f_equal; [|lia].
      rewrite Z.pow_add_r by lia. lia.
Qed.

Lemma digits_fuel_append (fuel : nat) (n : Z) (acc rest : string) :
  digits_fuel fuel n acc ++ rest = digits_fuel fuel n (acc ++ rest).
Proof.
  revert n acc. induction fuel as [|fuel IH]; intros n acc; [reflexivity|].
  cbn [digits_fuel]. destruct (n <? 10); [reflexivity|].
  rewrite IH. reflexivity.
Qed.

Lemma digits_fuel_digits (fuel : nat) (n : Z) (acc : string) :
  0 <= n ->
  Text.forallb isdigit acc = true ->
  Text.forallb isdigit (digits_fuel fuel n acc) = true.
Proof.
  revert n acc. induction fuel as [|fuel IH]; intros n acc Hn Hacc; [exact Hacc|].
  cbn [digits_fuel].
  pose proof (Z.mod_pos_bound n 10 ltac:(lia)) as Hmod.
  destruct (digit_chr (n mod 10) Hmod) as [Hdigit _].
  assert (Hacc' : Text.forallb isdigit (String (chr (48 + n mod 10)) acc) = true)
    by (cbn [Text.forallb]; rewrite Hdigit, Hacc; reflexivity).
  destruct (n <? 10); [exact Hacc'|].
  apply IH; [apply Z.div_pos; lia|exact Hacc'].
Qed.

Lemma str_of_nat_fuel (n : Z) :
  0 <= n ->
  (0 < S (Z.to_nat (Z.log2 n)))%nat /\ 0 <= n < 2 ^ Z.of_nat (S (Z.to_nat (Z.log2 n))).
Proof.
  intros Hn. split; [lia|]. split; [exact Hn|].
  rewrite Nat2Z.inj_succ, Z2Nat.id by apply Z.log2_nonneg.
  destruct (Z.eq_dec n 0) as [-> | Hne]; [reflexivity|].
  apply Z.log2_spec. lia.
Qed.

(** The digits of [str(n)], followed by anything. *)
Lemma scan_str_of_nat (n : Z) (rest : string) :
  0 <= n ->
  exists d,
    0 < d /\ (d = 1 \/ 10 ^ (d - 1) <= n) /\ n < 10 ^ d
    /\ String.length (str_of_nat n) = Z.to_nat d
    /\ Text.forallb isdigit (str_of_nat n) = true
    /\ forall a k,
         Numeral.scan_digits (str_of_nat n ++ rest) a k
         = Numeral.scan_digits rest (a * 10 ^ d + n) (k + d).
Proof.
  intros Hn. unfold str_of_nat.
  destruct (str_of_nat_fuel n Hn) as [Hfuel Hbound].
  destruct (scan_digits_fuel _ n EmptyString Hfuel Hbound)
    as (d & Hd & Hmin & Hmax & Hlen & _).
  destruct (scan_digits_fuel _ n rest Hfuel Hbound)
    as (d' & Hd' & Hmin' & Hmax' & Hlen' & Hscan).
  assert (d' = d).
  { pose proof (digits_fuel_append (S (Z.to_nat (Z.log2 n))) n EmptyString rest) as Happ.
    cbn [append] in Happ. rewrite <- Happ, append_length, Hlen in Hlen'.
    cbn [String.length] in Hlen'. lia. }
  subst d'.
  exists d. repeat split; try assumption.
  - rewrite Hlen. cbn [String.length]. lia.
  - apply digits_fuel_digits; [exact Hn|reflexivity].
  - intros a k. rewrite digits_fuel_append. cbn [append]. apply Hscan.
Qed.

Lemma zeros_length (z : nat) : String.length (zeros z) = z.
Proof. induction z as [|z IH]; [reflexivity|]. cbn. rewrite IH. reflexivity. Qed.

Lemma zeros_digits (z : nat) : Text.forallb isdigit (zeros z) = true.
Proof. induction z as [|z IH]; [reflexivity|]. cbn [zeros Text.forallb]. exact IH. Qed.

Lemma scan_zeros (z : nat) (s : string) (a k : Z) :
  Numeral.scan_digits (zeros z ++ s) a k
  = Numeral.scan_digits s (a * 10 ^ Z.of_nat z) (k + Z.of_nat z).
Proof.
  revert a k. induction z as [|z IH]; intros a k.
  - cbn. f_equal; lia.
  - cbn [zeros append Numeral.scan_digits].
    change (isdigit "0") with true. cbv iota.
    rewrite IH. rewrite Nat2Z.inj_succ, Z.pow_succ_r by lia.
    change (Numeral.digit_value "0") with 0. f_equal; lia.
Qed.

(** A number printed on at least [w] digits: the text is made of
    digits, and reading it gives the number back. *)
Lemma scan_zfill (w : nat) (n : Z) (rest : string) :
  0 <= n ->
  exists d,
    0 < d /\ Text.forallb isdigit (zfill w n) = true
    /\ ((0 < w)%nat -> n < 10 ^ Z.of_nat w -> d = Z.of_nat w)
    /\ String.length (zfill w n) = Z.to_nat d
    /\ forall a k, Numeral.scan_digits (zfill w n ++ rest) a k
                   = Numeral.scan_digits rest (a * 10 ^ d + n) (k + d).
Proof.
  intros Hn. unfold zfill.
  destruct (scan_str_of_nat n rest Hn) as (d & Hd & Hmin & Hmax & Hlen & Hdigits & Hscan).
  rewrite Hlen.
  exists (Z.of_nat (w - Z.to_nat d) + d).
  split; [lia|].
  split; [rewrite forallb_append, zeros_digits, Hdigits; reflexivity|].
  split.
  { intros Hw Hbound.
    assert (d <= Z.of_nat w); [|lia].
    destruct Hmin as [-> | Hmin]; [lia|].
    destruct (Z_le_gt_dec d (Z.of_nat w)) as [Hle | Hgt]; [exact Hle|].
    assert (10 ^ Z.of_nat w <= 10 ^ (d - 1)) by (apply Z.pow_le_mono_r; lia).
    lia. }
  split.
  { rewrite append_length, zeros_length, Hlen. lia. }
  intros a k. rewrite append_assoc, scan_zeros, Hscan.
  rewrite Z.pow_add_r by lia. f_equal; lia.
Qed.

(** ** Periods *)

Lemma read_yyyymm_round_trip (d : datetime) :
  0 <= year d -> 0 <= month d ->
  read_yyyymm (Report._to_yyyymm d) = Some (year d, month d).
Proof.
  intros Hy Hm. unfold read_yyyymm, Report._to_yyyymm.
  destruct (scan_zfill 4 (year d) ("-" ++ zfill 2 (month d)) Hy)
    as (dy & _ & _ & _ & _ & Hscan_y).
  rewrite Hscan_y. cbn [append Numeral.scan_digits].
  change (isdigit "-") with false. cbv iota.
  destruct (scan_zfill 2 (month d) EmptyString Hm) as (dm & _ & _ & _ & _ & Hscan_m).
  rewrite append_empty in Hscan_m. rewrite Hscan_m. reflexivity.
Qed.

(** X4: for dates of non-negative year and month, two dates have the
    same period text exactly when they have the same year and the same
    month; for a year below 10000 and a month below 100 the text has
    seven characters; both scripts print the same text. *)
Theorem same_period_same_month (d1 d2 : datetime) :
  0 <= year d1 -> 0 <= month d1 -> 0 <= year d2 -> 0 <= month d2 ->
  (Report._to_yyyymm d1 = Report._to_yyyymm d2
   <-> year d1 = year d2 /\ month d1 = month d2)
  /\ (year d1 < 10000 -> month d1 < 100 ->
      String.length (Report._to_yyyymm d1) = 7%nat)
  /\ Variant._to_yyyymm d1 = Report._to_yyyymm d1.
Proof.
  intros Hy1 Hm1 Hy2 Hm2. split; [|split; [|reflexivity]].
  - split.
    + intros H.
      pose proof (read_yyyymm_round_trip d1 Hy1 Hm1) as H1.
      pose proof (read_yyyymm_round_trip d2 Hy2 Hm2) as H2.
      rewrite H, H2 in H1. injection H1 as -> ->. split; reflexivity.
    + intros [Hy Hm]. unfold Report._to_yyyymm. rewrite Hy, Hm. reflexivity.
  - intros Hy Hm. unfold Report._to_yyyymm.
    destruct (scan_zfill 4 (year d1) EmptyString Hy1) as (dy & _ & _ & Hdy & Hly & _).
    destruct (scan_zfill 2 (month d1) EmptyString Hm1) as (dm & _ & _ & Hdm & Hlm & _).
    rewrite !append_length, Hly, Hlm.
    rewrite (Hdy ltac:(lia) ltac:(cbn; lia)), (Hdm ltac:(lia) ltac:(cbn; lia)).
    reflexivity.
Qed.

Lemma same_period_same_month_witness :
  Report._to_yyyymm {| year := 2025; month := 8; day := 1 |}
  = Report._to_yyyymm {| year := 2025; month := 8; day := 31 |}.
Proof.
  apply (proj1 (same_period_same_month {| year := 2025; month := 8; day := 1 |}
                  {| year := 2025; month := 8; day := 31 |}
                  ltac:(cbn; lia) ltac:(cbn; lia) ltac:(cbn; lia) ltac:(cbn; lia))).
  split; reflexivity.
Defined.

(** ** Amounts written and read *)

Lemma replace_absent (a : ascii) (old new s : string) :
  Text.existsb (Ascii.eqb a) s = false ->
  replace_from (String a old) new O s = s.
Proof.
  induction s as [|c s IH]; [reflexivity|].
  cbn [Text.existsb]. intros H. apply orb_false_iff in H as [Hc Hs].
  cbn [replace_from startswith]. rewrite Hc. cbn [andb]. rewrite (IH Hs). reflexivity.
Qed.

Lemma rstrip_by_append (sp : ascii -> bool) (t u : string) :
  u <> EmptyString ->
  Text.forallb (fun c => negb (sp c)) u = true ->
  rstrip_by sp (t ++ u) = t ++ u.
Proof.
  intros Hne Hu. induction t as [|c t IH].
  - cbn [append]. apply rstrip_by_id, Hu.
  - cbn [append rstrip_by]. rewrite IH.
    destruct (t ++ u) eqn:Htu; [|reflexivity].
    destruct t; [cbn in Htu; congruence|discriminate].
Qed.

Lemma float_of_str_plain (w : string) :
  Text.forallb plain_char w = true ->
  Numeral.float_of_str w = Numeral.float_of_literal w.
Proof.
  intros Hw. unfold Numeral.float_of_str.
  rewrite (to_ascii_plain w Hw), (drop_underscores_plain w "000"%char eq_refl Hw).
  rewrite lstrip_by_id, rstrip_by_id; [reflexivity| |];
    apply (forallb_weaken plain_char); try exact Hw;
    intros c Hc; destruct (plain_char_facts c Hc) as (_ & _ & _ & -> & _); reflexivity.
Qed.

Lemma scan_sign_digit (c : ascii) (s : string) :
  isdigit c = true -> Numeral.scan_sign (String c s) = (false, String c s).
Proof. ascii_cases c; intros H; try discriminate H; reflexivity. Qed.

Lemma digit_facts (c : ascii) :
  isdigit c = true ->
  plain_char c = true /\ Number.numeric_char c = true /\ isspace c = false
  /\ Ascii.eqb "R" c = false /\ Ascii.eqb " " c = false /\ Ascii.eqb "." c = false
  /\ Ascii.eqb "," c = false /\ subst_char "," "." c = c.
Proof.
  ascii_cases c; intros H; try discriminate H; vm_compute; repeat split; reflexivity.
Qed.

Section Reais.

Variables i f : Z.
Hypothesis i_nonneg : 0 <= i.
Hypothesis f_centavos : 0 <= f < 100.

Lemma reais_parts :
  exists I FF,
    str_of_nat i = I /\ zfill 2 f = FF
    /\ I <> EmptyString
    /\ Text.forallb isdigit I = true /\ Text.forallb isdigit FF = true
    /\ Numeral.scan_decimal (I ++ "." ++ FF) = Some (100 * i + f, -2).
Proof.
  destruct (scan_str_of_nat i ("." ++ zfill 2 f) i_nonneg)
    as (d & Hd & _ & _ & Hlen & Hdigits & Hscan).
  destruct (scan_zfill 2 f EmptyString (proj1 f_centavos))
    as (d2 & _ & Hdigits2 & Hd2 & _ & Hscan2).
  rewrite append_empty in Hscan2.
  assert (d2 = 2) by (apply Hd2; [lia|cbn; lia]). subst d2.
  exists (str_of_nat i), (zfill 2 f).
  split; [reflexivity|]. split; [reflexivity|].
  split.
  { intros Hempty. rewrite Hempty in Hlen. cbn in Hlen. lia. }
  split; [exact Hdigits|]. split; [exact Hdigits2|].
  unfold Numeral.scan_decimal.
  rewrite Hscan. cbn [append Numeral.scan_digits].
  change (isdigit ".") with false. cbv iota.
  rewrite Hscan2. cbn [Numeral.scan_digits Numeral.scan_exponent].
  replace (0 + d + (0 + 2) =? 0) with false by (symmetry; apply Z.eqb_neq; lia).
  f_equal. f_equal; lia.
Qed.

Lemma reais_read :
  Numeral.float_of_str (comma_as_point (reais i f))
  = Some (Float.of_decimal false (100 * i + f) (-2))
  /\ contains "," (reais i f) = true
  /\ Text.forallb Number.numeric_char (reais i f) = true
  /\ Text.forallb (fun c => negb (isspace c)) (reais i f) = true
  /\ Text.existsb (Ascii.eqb "R") (reais i f) = false
  /\ Text.existsb (Ascii.eqb " ") (reais i f) = false
  /\ reais i f <> EmptyString.
Proof.
  destruct reais_parts as (I & FF & HI & HFF & Hne & HdI & HdF & Hscan).
  unfold reais. rewrite HI, HFF.
  assert (Hall : forall q : ascii -> bool,
             (forall c, isdigit c = true -> q c = true) -> q ","%char = true ->
             Text.forallb q (I ++ "," ++ FF) = true).
  { intros q Hq Hcomma. rewrite !forallb_append.
    rewrite (forallb_weaken isdigit q I Hq HdI), (forallb_weaken isdigit q FF Hq HdF).
    cbn [Text.forallb]. rewrite Hcomma. reflexivity. }
  assert (Hnone : forall a, a <> ","%char ->
             (forall c, isdigit c = true -> Ascii.eqb a c = false) ->
             Text.existsb (Ascii.eqb a) (I ++ "," ++ FF) = false).
  { intros a Ha Hq.
    assert (H : Text.forallb (fun c => negb (Ascii.eqb a c)) (I ++ "," ++ FF) = true).
    { apply Hall; [intros c Hc; rewrite (Hq c Hc); reflexivity|].
      apply negb_true_iff, Ascii.eqb_neq. exact Ha. }
    clear - H. induction (I ++ "," ++ FF) as [|c s IH]; [reflexivity|].
    cbn [Text.forallb Text.existsb] in *. apply andb_true_iff in H as [Hc Hs].
    apply negb_true_iff in Hc. rewrite Hc, (IH Hs). reflexivity. }
  split.
  { unfold comma_as_point, replace.
    rewrite (replace_absent "." EmptyString EmptyString)
      by (apply Hnone; [discriminate|intros c Hc; apply (digit_facts c Hc)]).
    change (replace_from "," "." 0 (I ++ "," ++ FF))
      with (replace "," "." (I ++ "," ++ FF)).
    rewrite replace_char, !map_chars_append.
    rewrite (map_chars_id _ isdigit I), (map_chars_id _ isdigit FF);
      try assumption; try (intros c Hc; apply (digit_facts c Hc)).
    change (map_chars (subst_char "," ".") ",") with ".".
    assert (Hplain : Text.forallb plain_char (I ++ "." ++ FF) = true).
    { rewrite !forallb_append.
      rewrite (forallb_weaken isdigit plain_char I), (forallb_weaken isdigit plain_char FF);
        try assumption; try (intros c Hc; apply (digit_facts c Hc)).
      reflexivity. }
    rewrite (float_of_str_plain _ Hplain). unfold Numeral.float_of_literal.
    destruct I as [|c I']; [congruence|].
    cbn [Text.forallb] in HdI. apply andb_true_iff in HdI as [Hc HdI'].
    cbn [append]. rewrite (scan_sign_digit c _ Hc). cbv beta iota zeta.
    change (String c (I' ++ "." ++ FF)) with (String c I' ++ "." ++ FF) in *.
    destruct (plain_not_keyword _ Hplain) as (H1 & H2 & H3 & _).
    cbn [append] in H1, H2, H3, Hscan |- *.
    rewrite H1, H2, H3. cbn [orb]. rewrite Hscan. reflexivity. }
  split.
  { rewrite contains_char, !existsb_append. cbn [Text.existsb].
    rewrite Ascii.eqb_refl. cbn [orb]. apply orb_true_r. }
  split; [apply Hall; [intros c Hc; apply (digit_facts c Hc)|reflexivity]|].
  split.
  { apply Hall; [|reflexivity].
    intros c Hc. destruct (digit_facts c Hc) as (_ & _ & -> & _). reflexivity. }
  split; [apply Hnone; [discriminate|intros c Hc; apply (digit_facts c Hc)]|].
  split; [apply Hnone; [discriminate|intros c Hc; apply (digit_facts c Hc)]|].
  destruct I; [congruence|discriminate].
Qed.

End Reais.

Lemma reais_cleaned (i f : Z) (prefix : string) :
  0 <= i -> 0 <= f < 100 ->
  prefix = EmptyString \/ prefix = "R$ " ->
  truthy (strip (prefix ++ reais i f)) = true
  /\ script_text (prefix ++ reais i f) = reais i f
  /\ number_text (prefix ++ reais i f) = reais i f.
Proof.
  intros Hi Hf Hprefix.
  destruct (reais_read i f Hi Hf) as (_ & _ & Hnumeric & Hnospace & HnoR & Hnoblank & Hne).
  assert (Hstrip : strip (prefix ++ reais i f) = prefix ++ reais i f).
  { unfold strip. destruct Hprefix as [-> | ->].
    - cbn [append]. rewrite lstrip_by_id, rstrip_by_id by exact Hnospace. reflexivity.
    - change (lstrip_by isspace ("R$ " ++ reais i f)) with ("R$ " ++ reais i f).
      apply rstrip_by_append; assumption. }
  split; [|split].
  - rewrite Hstrip. destruct Hprefix as [-> | ->]; [|reflexivity].
    cbn [append]. destruct (reais i f); [congruence|reflexivity].
  - unfold script_text. rewrite Hstrip.
    destruct Hprefix as [-> | ->].
    + cbn [append]. unfold replace.
      rewrite (replace_absent "R" "$" EmptyString _ HnoR).
      apply (replace_absent " " EmptyString EmptyString _ Hnoblank).
    + change (replace "R$" "" ("R$ " ++ reais i f))
        with (String " " (replace_from "R$" "" O (reais i f))).
      rewrite (replace_absent "R" "$" EmptyString _ HnoR).
      change (replace " " "" (String " " (reais i f)))
        with (replace_from " " "" O (reais i f)).
      apply (replace_absent " " EmptyString EmptyString _ Hnoblank).
  - unfold number_text.
    rewrite keep_strip by exact space_not_numeric.
    rewrite keep_append, (keep_id _ _ Hnumeric).
    destruct Hprefix as [-> | ->]; reflexivity.
Qed.

(** X5: an amount written as reais, comma and two digits of centavos,
    with or without the prefix R$ and a blank, is read by the three
    parsers as the float nearest to that amount. *)
Theorem reais_round_trip (i f : Z) (prefix : string) :
  0 <= i -> 0 <= f < 100 ->
  prefix = EmptyString \/ prefix = "R$ " ->
  Forall (fun parse : PyVal -> outcome Float.float =>
            parse (PStr (prefix ++ reais i f))
            = Return (Float.of_decimal false (100 * i + f) (-2)))
         money_parsers.
Proof.
  intros Hi Hf Hprefix.
  destruct (reais_read i f Hi Hf) as (Hread & Hcomma & Hnumeric & _).
  destruct (reais_cleaned i f prefix Hi Hf Hprefix) as (Htruthy & Hscript & Hnumber).
  assert (Hmoney : Report.parse_ptbr_money (PStr (prefix ++ reais i f))
                   = Return (Float.of_decimal false (100 * i + f) (-2))).
  { rewrite script_parser_text, Htruthy, Hscript, Hcomma, Hread. reflexivity. }
  apply Forall_cons; [exact Hmoney|].
  apply Forall_cons; [exact Hmoney|].
  apply Forall_cons; [|apply Forall_nil].
  rewrite number_parser_text, Htruthy, Hnumber, Hcomma.
  rewrite float_of_decimal_str_plain by (apply comma_as_point_plain, Hnumeric).
  rewrite Hread. reflexivity.
Qed.

Lemma reais_round_trip_witness :
  Report.parse_ptbr_money (PStr "R$ 4374,34") = Return (Prim2SF 4374.34).
Proof.
  pose proof (reais_round_trip 4374 34 "R$ " ltac:(lia) ltac:(lia)
                (or_intror eq_refl)) as H.
  unfold money_parsers in H. inversion H as [|? ? Hhead _]; subst.
  etransitivity; [exact Hhead|]. vm_compute. reflexivity.
Defined.

(** ** Header names *)

Lemma used_get_set_same (used : list (string * Z)) (k : string) (n : Z) :
  Sheets.used_get (Sheets.used_set used k n) k = n.
Proof.
  induction used as [|[k' m] used IH]; cbn [Sheets.used_set Sheets.used_get].
  - rewrite String.eqb_refl. reflexivity.
  - destruct (String.eqb k' k) eqn:Hk; cbn [Sheets.used_get]; rewrite Hk;
      [reflexivity|exact IH].
Qed.

Lemma used_get_set_other (used : list (string * Z)) (k k' : string) (n : Z) :
  k <> k' ->
  Sheets.used_get (Sheets.used_set used k n) k' = Sheets.used_get used k'.
Proof.
  intros Hne. apply String.eqb_neq in Hne.
  induction used as [|[k0 m] used IH]; cbn [Sheets.used_set Sheets.used_get].
  - rewrite Hne. reflexivity.
  - destruct (String.eqb k0 k) eqn:Hk; cbn [Sheets.used_get].
    + apply String.eqb_eq in Hk. subst k0. rewrite Hne. reflexivity.
    + rewrite IH. reflexivity.
Qed.

Lemma safe_headers_from_fresh (headers : list string) (i : Z) (used : list (string * Z)) :
  Forall (fun h => truthy (strip h) = true) headers ->
  NoDup (map strip headers) ->
  Forall (fun h => Sheets.used_get used (strip h) = 0) headers ->
  Sheets.safe_headers_from i used headers = map strip headers.
Proof.
  revert i used.
  induction headers as [|h rest IH]; intros i used Hblank Hdup Hused; [reflexivity|].
  inversion Hblank as [|? ? Hh Hrest]; subst.
  inversion Hdup as [|? ? Hnotin Hdup']; subst.
  inversion Hused as [|? ? Hzero Hused']; subst.
  cbn [Sheets.safe_headers_from map]. rewrite Hh, Hzero. cbn [Z.eqb].
  f_equal. apply IH; try assumption.
  rewrite Forall_forall in *. intros h' Hin.
  rewrite used_get_set_other; [apply Hused', Hin|].
  intros Heq. apply Hnotin. rewrite Heq. apply in_map, Hin.
Qed.

Lemma safe_headers_names (headers : list string) :
  Forall (fun h => truthy (strip h) = true) headers ->
  NoDup (map strip headers) ->
  Sheets._safe_headers headers = map strip headers.
Proof.
  intros Hblank Hdup. apply safe_headers_from_fresh; try assumption.
  rewrite Forall_forall. reflexivity.
Qed.

Lemma str_of_nat_inj (m n : Z) :
  0 <= m -> 0 <= n -> str_of_nat m = str_of_nat n -> m = n.
Proof.
  intros Hm Hn H.
  destruct (scan_str_of_nat m EmptyString Hm) as (dm & _ & _ & _ & _ & _ & Hsm).
  destruct (scan_str_of_nat n EmptyString Hn) as (dn & _ & _ & _ & _ & _ & Hsn).
  specialize (Hsm 0 0). specialize (Hsn 0 0).
  rewrite H, Hsn in Hsm. cbn [Numeral.scan_digits] in Hsm.
  injection Hsm as Hv _. lia.
Qed.

Lemma split_at_underscore (b b' t t' : string) :
  no_underscore b = true -> no_underscore b' = true ->
  b ++ String "_" t = b' ++ String "_" t' -> b = b' /\ t = t'.
Proof.
  unfold no_underscore.
  revert b'. induction b as [|c b IH]; intros b' Hb Hb' H.
  - destruct b' as [|c' b']; cbn [append] in H.
    + injection H as ->. split; reflexivity.
    + injection H as <- _. cbn in Hb'. discriminate Hb'.
  - destruct b' as [|c' b']; cbn [append] in H.
    + injection H as -> _. cbn in Hb. discriminate Hb.
    + injection H as <- H.
      cbn [Text.existsb] in Hb, Hb'.
      rewrite negb_orb in Hb, Hb'.
      apply andb_true_iff in Hb as [_ Hb]. apply andb_true_iff in Hb' as [_ Hb'].
      destruct (IH b' Hb Hb' H) as [-> ->]. split; reflexivity.
Qed.

(** The name tells the base name and the count. *)
Lemma header_name_inj (b b' : string) (n n' : Z) :
  no_underscore b = true -> no_underscore b' = true -> 0 <= n -> 0 <= n' ->
  header_name b n = header_name b' n' -> b = b' /\ n = n'.
Proof.
  intros Hb Hb' Hn Hn'. unfold header_name.
  assert (Hclash : forall x y d, no_underscore x = true -> x = y ++ "__" ++ d -> False).
  { intros x y d Hx ->. unfold no_underscore in Hx.
    rewrite existsb_append in Hx. cbn in Hx. rewrite orb_true_r in Hx. discriminate Hx. }
  destruct (n =? 0) eqn:H0; destruct (n' =? 0) eqn:H0'.
  - apply Z.eqb_eq in H0, H0'. intros ->. split; [reflexivity|lia].
  - intros H. exfalso. exact (Hclash _ _ _ Hb H).
  - intros H. exfalso. symmetry in H. exact (Hclash _ _ _ Hb' H).
  - intros H. cbn [append] in H.
    destruct (split_at_underscore _ _ _ _ Hb Hb' H) as [-> Ht].
    injection Ht as Ht. apply str_of_nat_inj in Ht; [|lia|lia].
    split; [reflexivity|lia].
Qed.

Lemma safe_headers_from_names (headers : list string) (i : Z) (used : list (string * Z)) :
  0 <= i ->
  (forall b, 0 <= Sheets.used_get used b) ->
  Forall (fun h => no_underscore (strip h) = true) headers ->
  NoDup (Sheets.safe_headers_from i used headers)
  /\ Forall (fun name => exists b n,
                 name = header_name b n /\ no_underscore b = true
                 /\ 0 <= n /\ Sheets.used_get used b <= n)
            (Sheets.safe_headers_from i used headers).
Proof.
  revert i used. induction headers as [|h rest IH]; intros i used Hi Hused Hplain.
  - split; constructor.
  - inversion Hplain as [|? ? Hh Hrest]; subst.
    cbn [Sheets.safe_headers_from].
    set (base := if truthy (strip h) then strip h else "COLUNA " ++ str_of_nat (i + 1)).
    set (n0 := Sheets.used_get used base).
    assert (Hbase : no_underscore base = true).
    { unfold base. destruct (truthy (strip h)); [exact Hh|].
      unfold no_underscore. rewrite existsb_append.
      destruct (scan_str_of_nat (i + 1) EmptyString ltac:(lia))
        as (d & _ & _ & _ & _ & Hdigits & _).
      assert (Hnone : Text.existsb (Ascii.eqb "_") (str_of_nat (i + 1)) = false).
      { clear - Hdigits. induction (str_of_nat (i + 1)) as [|c s IHs]; [reflexivity|].
        cbn [Text.forallb Text.existsb] in *.
        apply andb_true_iff in Hdigits as [Hc Hs]. rewrite (IHs Hs), orb_false_r.
        revert Hc. clear. ascii_cases c; intros H; try discriminate H; reflexivity. }
      rewrite Hnone. reflexivity. }
    assert (Hn0 : 0 <= n0) by apply Hused.
    assert (Hused' : forall b, 0 <= Sheets.used_get (Sheets.used_set used base (n0 + 1)) b).
    { intros b. destruct (string_dec base b) as [<- | Hne].
      - rewrite used_get_set_same. lia.
      - rewrite used_get_set_other by exact Hne. apply Hused. }
    assert (Hmono : forall b, Sheets.used_get used b
                              <= Sheets.used_get (Sheets.used_set used base (n0 + 1)) b).
    { intros b. destruct (string_dec base b) as [<- | Hne].
      - rewrite used_get_set_same. fold n0. lia.
      - rewrite used_get_set_other by exact Hne. lia. }
    destruct (IH (i + 1) (Sheets.used_set used base (n0 + 1)) ltac:(lia) Hused' Hrest)
      as [Hnodup Hnames].
    fold (header_name base n0).
    split.
    + constructor; [|exact Hnodup].
      intros Hin. rewrite Forall_forall in Hnames.
      destruct (Hnames _ Hin) as (b & n & Heq & Hb & Hn & Hle).
      destruct (header_name_inj _ _ _ _ Hbase Hb Hn0 Hn Heq) as [<- <-].
      rewrite used_get_set_same in Hle. lia.
    + constructor.
      * exists base, n0. repeat split; try assumption. lia.
      * eapply Forall_impl; [|exact Hnames].
        intros name (b & n & Heq & Hb & Hn & Hle).
        exists b, n. repeat split; try assumption.
        specialize (Hmono b). lia.
Qed.

(** X6: when no header holds an underscore, the names [_safe_headers]
    derives are pairwise distinct, blank and repeated headers
    included. *)
Theorem safe_headers_distinct (headers : list string) :
  Forall (fun h => no_underscore (strip h) = true) headers ->
  NoDup (Sheets._safe_headers headers)
  /\ List.length (Sheets._safe_headers headers) = List.length headers.
Proof.
  intros H. split; [|apply safe_headers_length].
  apply (safe_headers_from_names headers 0 []); [lia| |exact H].
  intros b. cbn. lia.
Qed.

Lemma safe_headers_distinct_witness :
  NoDup (Sheets._safe_headers ["Nome"; ""; "Nome"; "COLUNA 2"; " "; "Nome"]).
Proof.
  apply safe_headers_distinct. repeat constructor.
Defined.

(** ** Reading a worksheet *)

Lemma get_app_absent (d : Row) (h k v : string) :
  get d k = None -> h <> k -> get (d ++ [(h, v)])%list k = None.
Proof.
  intros Hd Hne. induction d as [|[k' w] d IH]; cbn [app get] in *.
  - apply String.eqb_neq in Hne. rewrite Hne. reflexivity.
  - destruct (String.eqb k' k); [discriminate Hd|exact (IH Hd)].
Qed.

Lemma set_absent (d : Row) (h v : string) :
  get d h = None -> set d h v = (d ++ [(h, v)])%list.
Proof.
  intros Hd. induction d as [|[k w] d IH]; cbn [app get set] in *; [reflexivity|].
  destruct (String.eqb k h); [discriminate Hd|]. rewrite (IH Hd). reflexivity.
Qed.

Lemma dict_zip_distinct (names vs : list string) (d : Row) :
  NoDup names -> Forall (fun h => get d h = None) names ->
  Sheets.dict_zip d names vs = (d ++ combine names vs)%list.
Proof.
  revert vs d. induction names as [|h names IH]; intros vs d Hdup Hd.
  - cbn. rewrite app_nil_r. reflexivity.
  - destruct vs as [|v vs]; cbn [Sheets.dict_zip combine]; [rewrite app_nil_r; reflexivity|].
    inversion Hdup as [|? ? Hnotin Hdup']; subst.
    inversion Hd as [|? ? Hh Hrest]; subst.
    rewrite (set_absent d h v Hh), IH, <- app_assoc; [reflexivity|exact Hdup'|].
    rewrite Forall_forall in *. intros k Hk.
    apply get_app_absent; [apply Hrest, Hk|].
    intros ->. exact (Hnotin Hk).
Qed.

Lemma mem_true_iff (x : string) (l : list string) : mem x l = true <-> In x l.
Proof.
  unfold mem. rewrite List.existsb_exists. split.
  - intros (y & Hin & Heq). apply String.eqb_eq in Heq. subst y. exact Hin.
  - intros Hin. exists x. split; [exact Hin|apply String.eqb_refl].
Qed.

Lemma labels_fresh (names acc : list string) :
  NoDup names -> (forall k, In k names -> ~ In k acc) ->
  fold_left (fun acc k => if mem k acc then acc else (acc ++ [k])%list) names acc
  = (acc ++ names)%list.
Proof.
  revert acc. induction names as [|h names IH]; intros acc Hdup Hacc.
  - cbn. rewrite app_nil_r. reflexivity.
  - inversion Hdup as [|? ? Hnotin Hdup']; subst. cbn [fold_left].
    destruct (mem h acc) eqn:Hm.
    + apply mem_true_iff in Hm. exfalso. exact (Hacc h (or_introl eq_refl) Hm).
    + rewrite IH, <- app_assoc; [reflexivity|exact Hdup'|].
      intros k Hk Hin. apply in_app_or in Hin as [Hin|[<-|[]]].
      * exact (Hacc k (or_intror Hk) Hin).
      * exact (Hnotin Hk).
Qed.

Lemma labels_seen (names acc : list string) :
  (forall k, In k names -> In k acc) ->
  fold_left (fun acc k => if mem k acc then acc else (acc ++ [k])%list) names acc = acc.
Proof.
  induction names as [|h names IH]; intros Hacc; [reflexivity|].
  cbn [fold_left].
  destruct (mem h acc) eqn:Hm.
  - apply IH. intros k Hk. apply Hacc. right. exact Hk.
  - assert (Hin : In h acc) by (apply Hacc; left; reflexivity).
    apply mem_true_iff in Hin. congruence.
Qed.

Lemma labels_same_keys (names : list string) (records : list Row) :
  Forall (fun r => map fst r = names) records ->
  Sheets.labels names records = names.
Proof.
  induction records as [|r rest IH]; intros H; [reflexivity|].
  inversion H as [|? ? Hr Hrest]; subst.
  cbn [Sheets.labels]. rewrite labels_seen; [exact (IH Hrest)|].
  intros k Hk. exact Hk.
Qed.

Lemma combine_keys (names vs : list string) :
  List.length vs = List.length names -> map fst (combine names vs) = names.
Proof.
  revert vs. induction names as [|h names IH]; intros [|v vs] H;
    cbn in *; try reflexivity; try discriminate H.
  rewrite IH by lia. reflexivity.
Qed.

Lemma combine_cells (names vs : list string) :
  NoDup names -> List.length vs = List.length names ->
  map (text (combine names vs)) names = vs.
Proof.
  revert vs. induction names as [|h names IH]; intros [|v vs] Hdup H;
    cbn [List.length] in H; try reflexivity; try discriminate H.
  inversion Hdup as [|? ? Hnotin Hdup']; subst.
  cbn [combine map]. unfold text at 1. cbn [get]. rewrite String.eqb_refl.
  f_equal. rewrite <- (IH vs Hdup') at 2 by lia.
  apply map_ext_in. intros c Hc. unfold text. cbn [get].
  destruct (String.eqb h c) eqn:Hhc; [|reflexivity].
  apply String.eqb_eq in Hhc. subst c. exfalso. exact (Hnotin Hc).
Qed.

Lemma combine_map_pair {A B C : Type} (f : A -> B) (g : A -> C) (l : list A) :
  map (fun x => (f x, g x)) l = combine (map f l) (map g l).
Proof. induction l as [|x l IH]; cbn; [reflexivity|rewrite IH; reflexivity]. Qed.

(** X7: a worksheet whose headers are non-blank and pairwise distinct
    once trimmed is read as written: the rows that hold a non-blank
    cell, in their order, each cell under the trimmed name of its
    column, short rows filled with empty cells and long ones cut.
    The frame has the trimmed header names as columns, or no column at
    all when no row holds a non-blank cell. *)
Theorem sheet_read_as_written (header : list string) (data : list (list string)) :
  Forall (fun h => truthy (strip h) = true) header ->
  NoDup (map strip header) ->
  let names := map strip header in
  let df := Sheets._records_to_df (Sheets._get_records_tolerant (header :: data)) in
  rows df = rows_under names data
  /\ columns df = match rows_under names data with [] => [] | _ => names end
  /\ Forall2 (fun r row => map (text r) names = Sheets.fit (List.length header) row)
             (rows df)
             (filter (fun row => negb (blank_row (List.length header) row)) data).
Proof.
  intros Hblank Hdup names df.
  assert (Hlen : List.length names = List.length header) by apply length_map.
  assert (Hstrip : map strip names = names).
  { unfold names. rewrite map_map. apply map_ext. intros h. apply strip_idem. }
  assert (Hrecords : Sheets._get_records_tolerant (header :: data) = rows_under names data).
  { rewrite records_of_values. rewrite (safe_headers_names header Hblank Hdup).
    fold names. unfold rows_under. apply map_ext. intros row.
    apply (dict_zip_distinct names _ [] Hdup).
    rewrite Forall_forall. reflexivity. }
  assert (Hkeys : Forall (fun r => map fst r = names) (rows_under names data)).
  { unfold rows_under. rewrite Forall_forall. intros r Hr.
    apply in_map_iff in Hr as (row & <- & _). apply combine_keys, fit_length. }
  assert (Hrow : forall r, In r (rows_under names data) ->
                           map (fun c => (strip c, text r c)) names = r).
  { intros r Hr. unfold rows_under in Hr.
    apply in_map_iff in Hr as (row & <- & _).
    rewrite combine_map_pair, Hstrip, combine_cells; [reflexivity|exact Hdup|].
    apply fit_length. }
  assert (Hrows : rows df = rows_under names data).
  { unfold df, Sheets._records_to_df. rewrite Hrecords. cbn [rows].
    destruct (rows_under names data) as [|r rest] eqn:Hunder; [reflexivity|].
    assert (Hlabels : Sheets.labels [] (r :: rest) = names).
    { cbn [Sheets.labels]. inversion Hkeys as [|? ? Hr Hrest]; subst.
      rewrite Hr, (labels_fresh names [] Hdup) by (intros k _ []).
      cbn [app]. apply labels_same_keys, Hrest. }
    rewrite Hlabels. rewrite <- (map_id (r :: rest)) at 2.
    apply map_ext_in. intros r' Hr'. apply Hrow. exact Hr'. }
  split; [exact Hrows|]. split.
  - unfold df, Sheets._records_to_df. rewrite Hrecords. cbn [columns].
    destruct (rows_under names data) as [|r rest] eqn:Hunder; [reflexivity|].
    cbn [Sheets.labels]. inversion Hkeys as [|? ? Hr Hrest]; subst.
    rewrite Hr, (labels_fresh names [] Hdup) by (intros k _ []).
    cbn [app]. rewrite (labels_same_keys names rest Hrest). exact Hstrip.
  - rewrite Hrows. unfold rows_under. rewrite Hlen.
    induction (filter (fun row => negb (blank_row (List.length header) row)) data)
      as [|row l IH]; cbn [map]; constructor; [|exact IH].
    rewrite <- Hlen. apply combine_cells; [exact Hdup|apply fit_length].
Qed.

Lemma sheet_read_as_written_witness :
  let df := Sheets._records_to_df
              (Sheets._get_records_tolerant
                 [[" Niveis"; "Sales Executive "];
                  ["Pleno"; "3%"; "x"];
                  [" "; ""];
                  ["Senior"]]) in
  rows df = [[("Niveis", "Pleno"); ("Sales Executive", "3%")];
             [("Niveis", "Senior"); ("Sales Executive", "")]]
  /\ columns df = ["Niveis"; "Sales Executive"].
Proof.
  pose proof (sheet_read_as_written
                [" Niveis"; "Sales Executive "]
                [["Pleno"; "3%"; "x"]; [" "; ""]; ["Senior"]]) as H.
  cbn zeta in H |- *.
  destruct H as (Hrows & Hcols & _).
  - repeat constructor.
  - vm_compute. repeat constructor; cbn; intuition discriminate.
  - split; [rewrite Hrows|rewrite Hcols]; vm_compute; reflexivity.
Defined.

(** ** Missing columns *)

Lemma require_columns_first_missing (sheet : string) (required cols : list string)
    (st : State) :
  Report.require_columns sheet required cols st
  = (match find (fun c => negb (mem c cols)) required with
     | Some c => Raise (RuntimeError (MissingColumn sheet c))
     | None => Return tt
     end, st).
Proof.
  induction required as [|c rest IH]; [reflexivity|].
  cbn [Report.require_columns find]. unfold bind, raise_if.
  destruct (mem c cols); cbn [negb]; [exact IH|reflexivity].
Qed.

(** X8: [get_sales_exec_people] fails on a missing column only, and
    names the first of Colaborador, Email, Função, Nível that the sheet
    lacks; it leaves the state as it was. *)
Theorem roster_missing_column (r : Ref) (st : State) :
  match find (fun c => negb (mem c (columns (deref r st)))) Report.required_columns with
  | Some c =>
      Report.get_sales_exec_people r st
      = (Raise (RuntimeError (MissingColumn "Meta Colaborador" c)), st)
  | None =>
      exists roster, Report.get_sales_exec_people r st = (Return roster, st)
  end.
Proof.
  unfold Report.get_sales_exec_people, bind.
  replace (frame r st) with (Return (deref r st), st) by (destruct r; reflexivity).
  rewrite require_columns_first_missing.
  destruct (find _ Report.required_columns); [reflexivity|].
  eexists. reflexivity.
Qed.

(** X9: a worksheet without a non-blank cell under its header row is
    read as a frame without columns, whatever the headers are; the
    level resolver, the roster and the report of a person then fail on
    a missing column. *)
Theorem blank_sheet_loses_header (E : Env) (header : list string)
    (data : list (list string)) (key : string) (gid : Z) (st : State) :
  Forall (fun row => blank_row (List.length header) row = true) data ->
  let df := Sheets._records_to_df (Sheets._get_records_tolerant (header :: data)) in
  df = empty_frame
  /\ (worksheet_values E key gid = Return (Some (header :: data)) ->
      Sheets.read_sheet_by_gid E key gid st = (Return empty_frame, st))
  /\ (forall r nivel,
        deref r st = df ->
        Report.get_percentual_sales_exec r nivel st
        = (Raise (RuntimeError (MissingColumn (u8 "Níveis") "Niveis")), st))
  /\ (forall r,
        deref r st = df ->
        Report.get_sales_exec_people r st
        = (Raise (RuntimeError (MissingColumn "Meta Colaborador" "Colaborador")), st))
  /\ (forall r_niveis r_ap nome email nivel competencias pay,
        deref r_ap st = df ->
        fst (Report.run_for_person E r_niveis r_ap nome email nivel competencias pay st)
        = Raise (RuntimeError MissingProfitColumn)).
Proof.
  intros Hblank df.
  assert (Hnone : filter (fun row => negb (blank_row (List.length header) row)) data = []).
  { induction Hblank as [|row rest Hrow _ IH]; [reflexivity|].
    cbn [filter]. rewrite Hrow. exact IH. }
  assert (Hdf : df = empty_frame).
  { unfold df. rewrite records_of_values, safe_headers_length, Hnone. reflexivity. }
  split; [exact Hdf|]. rewrite <- Hdf. repeat split.
  - intros Hvalues. unfold Sheets.read_sheet_by_gid, bind, lift. rewrite Hvalues.
    reflexivity.
  - intros r nivel Hr. rewrite resolver_reads, Hr, Hdf. reflexivity.
  - intros r Hr. unfold Report.get_sales_exec_people, bind.
    replace (frame r st) with (Return (deref r st), st) by (destruct r; reflexivity).
    rewrite require_columns_first_missing, Hr, Hdf. reflexivity.
  - intros r_niveis r_ap nome email nivel competencias pay Hr.
    destruct (run_for_person_reads E r_niveis r_ap nome email nivel competencias pay st)
      as (st' & Hrun & _).
    rewrite Hrun, Hr, Hdf. reflexivity.
Qed.

Lemma blank_sheet_loses_header_witness :
  Sheets._records_to_df
    (Sheets._get_records_tolerant
       [["Colaborador"; "Email"; u8 "Função"; u8 "Nível"]; [""; " "]; []])
  = empty_frame.
Proof.
  refine (proj1 (blank_sheet_loses_header Scenario.E
                   ["Colaborador"; "Email"; u8 "Função"; u8 "Nível"] [[""; " "]; []]
                   "" 0 Scenario.initial _)).
  repeat constructor.
Defined.

(** ** Names of sellers *)

Lemma startswith_iff (p s : string) :
  startswith p s = true <-> exists b, s = p ++ b.
Proof.
  revert s. induction p as [|a p IH]; intros s.
  - split; [intros _; exists s; reflexivity|reflexivity].
  - destruct s as [|c s]; cbn [startswith append].
    + split; [discriminate|intros (b & H); discriminate H].
    + rewrite andb_true_iff, IH, Ascii.eqb_eq. split.
      * intros (-> & b & ->). exists b. reflexivity.
      * intros (b & H). injection H as -> ->. split; [reflexivity|exists b; reflexivity].
Qed.

Lemma contains_unfold (p s : string) :
  contains p s = startswith p s || match s with
                                   | EmptyString => false
                                   | String _ rest => contains p rest
                                   end.
Proof. destruct s; reflexivity. Qed.

(** [p in s] holds when [s] is [p] between two texts. *)
Lemma contains_iff (p s : string) :
  contains p s = true <-> exists a b, s = a ++ p ++ b.
Proof.
  split.
  - induction s as [|c s IH]; rewrite contains_unfold, orb_true_iff.
    + intros [H|H]; [|discriminate H].
      apply startswith_iff in H as (b & H). exists EmptyString, b. exact H.
    + intros [H|H].
      * apply startswith_iff in H as (b & H). exists EmptyString, b. exact H.
      * destruct (IH H) as (a & b & ->). exists (String c a), b. reflexivity.
  - intros (a & b & ->). induction a as [|c a IH].
    + rewrite contains_unfold. cbn [append].
      rewrite (proj2 (startswith_iff p (p ++ b))) by (exists b; reflexivity). reflexivity.
    + rewrite contains_unfold. cbn [append]. rewrite IH. apply orb_true_r.
Qed.

Lemma contains_trans (x y z : string) :
  contains x y = true -> contains y z = true -> contains x z = true.
Proof.
  rewrite !contains_iff. intros (a & b & ->) (c & d & ->).
  exists (c ++ a), (b ++ d). rewrite !append_assoc. reflexivity.
Qed.

(** X10: a seller whose name, letter case apart, lies within the name
    of another is given every row of the other: the rows
    [filter_apurado_by_vendedor] returns for the longer name are among
    those it returns for the shorter one, and a row that counts for the
    longer name in a period counts for the shorter one too. *)
Theorem seller_name_within_another (E : Env) (r : Ref) (a b : string) (st : State) :
  Text.existsb Report.re_meta a = false ->
  Text.existsb Report.re_meta b = false ->
  mem (u8 "Código") (columns (deref r st)) = true ->
  mem "Vendedor" (columns (deref r st)) = true ->
  contains (lower a) (lower b) = true ->
  exists dfa dfb,
    Report.filter_apurado_by_vendedor E r a st = (Return dfa, st)
    /\ Report.filter_apurado_by_vendedor E r b st = (Return dfb, st)
    /\ rows dfb = filter (vendedor_matches b) (rows dfa)
    /\ forall comp pay row,
         contributes E b comp pay row = true -> contributes E a comp pay row = true.
Proof.
  intros Ha Hb Hcod Hven Hab.
  assert (Hwithin : forall row, vendedor_matches b row = true -> vendedor_matches a row = true).
  { intros row. unfold vendedor_matches. apply contains_trans, Hab. }
  rewrite !seller_reads.
  rewrite (seller_rows_plain E _ a Ha Hcod Hven), (seller_rows_plain E _ b Hb Hcod Hven).
  eexists. eexists. split; [reflexivity|]. split; [reflexivity|]. split.
  - cbn [rows].
    rewrite (filter_of_map (vendedor_matches b) (vendedor_matches b)).
    + rewrite filter_twice. f_equal. apply filter_ext. intros row.
      destruct (vendedor_matches b row) eqn:Hrow; [|reflexivity].
      rewrite (Hwithin row Hrow). reflexivity.
    + intros row. unfold vendedor_matches. rewrite text_set_text. reflexivity.
  - intros comp pay row. unfold contributes. rewrite !andb_true_iff.
    intros [Hrow Hin]. split; [exact (Hwithin row Hrow)|exact Hin].
Qed.

Lemma seller_name_within_another_witness :
  exists dfa dfb,
    Report.filter_apurado_by_vendedor Scenario.E DfApurado "ana" Scenario.loaded
    = (Return dfa, Scenario.loaded)
    /\ Report.filter_apurado_by_vendedor Scenario.E DfApurado "Ana Souza" Scenario.loaded
       = (Return dfb, Scenario.loaded)
    /\ rows dfb = filter (vendedor_matches "Ana Souza") (rows dfa).
Proof.
  destruct (seller_name_within_another Scenario.E DfApurado "ana" "Ana Souza"
              Scenario.loaded eq_refl eq_refl eq_refl eq_refl eq_refl)
    as (dfa & dfb & Ha & Hb & Hrows & _).
  exists dfa, dfb. split; [exact Ha|]. split; [exact Hb|exact Hrows].
Defined.

(** ** The debug code *)

Lemma in_periods_code (E : Env) (comp pay : string) (r r' : Row) :
  code_of r = code_of r' -> in_periods E comp pay r = in_periods E comp pay r'.
Proof. intros H. unfold in_periods. rewrite H. reflexivity. Qed.

Lemma rows_lines_debug (E : Env) (R : Report.Run) (comp : string) (rs : list Row) :
  truthy (Report.run_debug_code R) = true ->
  rows_lines E R comp rs
  = match find (fun r => String.eqb (code_of r) (Report.run_debug_code R)) rs with
    | Some r => if in_periods E comp (Report.run_pay R) r then [line_for E R r] else []
    | None => []
    end.
Proof.
  intros Hdebug. induction rs as [|r rest IH]; [reflexivity|].
  cbn [rows_lines find]. unfold row_result, debug_passes. rewrite Hdebug. cbn [negb orb].
  destruct (String.eqb (code_of r) (Report.run_debug_code R)) eqn:Hcode.
  - rewrite andb_true_r.
    destruct (in_periods E comp (Report.run_pay R) r) eqn:Hin; [reflexivity|].
    rewrite IH.
    destruct (find _ rest) as [r'|] eqn:Hfind; [|reflexivity].
    apply find_some in Hfind as [_ Hcode'].
    apply String.eqb_eq in Hcode, Hcode'.
    rewrite (in_periods_code E comp (Report.run_pay R) r' r), Hin by congruence.
    reflexivity.
  - rewrite andb_false_r. exact IH.
Qed.

(** X11: with a debug code, a period of a person holds one line at
    most: the line of the first row of the seller that carries the
    code, when the shipment is of the period and settled in the pay
    month.  Every other row is left out, later rows with the same code
    included. *)
Theorem debug_mode_single_line (E : Env) (R : Report.Run) (comp : string)
    (rs : list Row) :
  truthy (Report.run_debug_code R) = true ->
  let lines :=
    match find (fun r => String.eqb (code_of r) (Report.run_debug_code R)) rs with
    | Some r => if in_periods E comp (Report.run_pay R) r then [line_for E R r] else []
    | None => []
    end in
  yields (Report.rows_loop E R comp rs ([], Float.zero, Float.zero))
         (Return (period_of_lines lines))
  /\ (List.length lines <= 1)%nat.
Proof.
  intros Hdebug lines. split.
  - unfold lines. rewrite <- (rows_lines_debug E R comp rs Hdebug). apply period_yields.
  - unfold lines. destruct (find _ rs) as [r|]; [|cbn; lia].
    destruct (in_periods E comp (Report.run_pay R) r); cbn; lia.
Qed.

Lemma debug_mode_single_line_witness :
  yields (Report.rows_loop Scenario.E ana_debug "2025-08" twice_sh001
            ([], Float.zero, Float.zero))
         (Return ([{| codigo := "SH001";
                      date_creation := "2025-08-15";
                      date_comission := "2025-12-05";
                      line_nivel := u8 "Guardião";
                      percentual := 50;
                      gp := Prim2SF 1000;
                      valor_comissao := Prim2SF 500 |}],
                  Prim2SF 1000, Prim2SF 500)).
Proof.
  exact (proj1 (debug_mode_single_line Scenario.E ana_debug "2025-08" twice_sh001 eq_refl)).
Defined.

(** ** The queries of a report *)

Section Logs.

Context {A B : Type}.

Lemma logs_ret (a : A) : logs (ret a) (Return a) [].
Proof. intros st. exists st. split; reflexivity. Qed.

Lemma logs_lift (o : outcome A) : logs (lift o) o [].
Proof. intros st. exists st. split; reflexivity. Qed.

Lemma logs_bind_return (c : M A) (k : A -> M B) (a : A) (o : outcome B)
    (first second : list DbEvent) :
  logs c (Return a) first -> logs (k a) o second -> logs (bind c k) o (second ++ first).
Proof.
  intros Hc Hk st. destruct (Hc st) as (st1 & Hrun1 & Hlog1).
  destruct (Hk st1) as (st2 & Hrun2 & Hlog2).
  exists st2. unfold bind. rewrite Hrun1, Hrun2, Hlog2, Hlog1, app_assoc.
  split; reflexivity.
Qed.

Lemma logs_bind_quiet (c : M A) (k : A -> M B) (a : A) (o : outcome B)
    (events : list DbEvent) :
  logs c (Return a) [] -> logs (k a) o events -> logs (bind c k) o events.
Proof.
  intros Hc Hk. rewrite <- (app_nil_r events). exact (logs_bind_return _ _ _ _ _ _ Hc Hk).
Qed.

Lemma logs_bind_then (c : M A) (k : A -> M B) (a : A) (o : outcome B)
    (events : list DbEvent) :
  logs c (Return a) events -> logs (k a) o [] -> logs (bind c k) o events.
Proof. intros Hc Hk. exact (logs_bind_return _ _ _ _ _ _ Hc Hk). Qed.

End Logs.

Lemma logs_print (o : Out) : logs (print o) (Return tt) [].
Proof. intros st. eexists. split; reflexivity. Qed.

Lemma logs_db (ev : DbEvent) : logs (db ev) (Return tt) [ev].
Proof. intros st. eexists. split; reflexivity. Qed.

Lemma logs_when (cond : bool) (o : Out) : logs (Report.when cond (print o)) (Return tt) [].
Proof. destruct cond; [apply logs_print|apply logs_ret]. Qed.

Lemma logs_lookup (E : Env) (number : string) :
  truthy number = true ->
  logs (MysqlRepo.get_dates_by_shipment_number E (Some number))
       (Return (dates_of E number)) [Close; Execute number; Connect].
Proof.
  intros H.
  unfold MysqlRepo.get_dates_by_shipment_number, MysqlRepo.get_shipment_dates_by_number.
  rewrite H. cbn [negb].
  eapply logs_bind_then.
  - apply (logs_bind_return _ _ tt _ [Connect] [Close; Execute number]); [apply logs_db|].
    apply (logs_bind_return _ _ tt _ [Execute number] [Close]); [apply logs_db|].
    eapply logs_bind_then; [apply logs_db|apply logs_ret].
  - unfold dates_of. destruct (shipment_row E number) as [[a b]|]; apply logs_ret.
Qed.

Lemma row_step_logs (E : Env) (R : Report.Run) (comp : string) (r : Row) :
  logs (Report.row_step E R comp r) (Return (row_result E R comp r))
       (if truthy (code_of r) && debug_passes R r
        then [Close; Execute (code_of r); Connect] else []).
Proof.
  unfold Report.row_step, row_result, in_periods, debug_passes.
  fold (code_of r).
  destruct (truthy (code_of r)) eqn:Hcode; cbn [negb andb]; [|apply logs_ret].
  destruct (truthy (Report.run_debug_code R)) eqn:Hdebug; cbn [negb andb orb].
  - destruct (String.eqb (code_of r) (Report.run_debug_code R)) eqn:Hsame; cbn [negb].
    + eapply logs_bind_then; [apply logs_lookup, Hcode|].
      eapply logs_bind_quiet; [apply logs_when|].
      rewrite andb_true_r.
      destruct (dates_of E (code_of r)) as [[dc|] [dm|]] eqn:Hdates;
        try (eapply logs_bind_quiet; [apply logs_when|apply logs_ret]).
      destruct (String.eqb (Report._to_yyyymm dc) comp); cbn [negb andb];
        [|eapply logs_bind_quiet; [apply logs_when|apply logs_ret]].
      destruct (String.eqb (Report._to_yyyymm dm) (Report.run_pay R)); cbn [negb];
        [|eapply logs_bind_quiet; [apply logs_when|apply logs_ret]].
      eapply logs_bind_quiet; [rewrite money_of_cell; apply logs_lift|].
      unfold line_for. rewrite Hdates. apply logs_ret.
    + rewrite andb_false_r. apply logs_ret.
  - eapply logs_bind_then; [apply logs_lookup, Hcode|].
    eapply logs_bind_quiet; [apply logs_when|].
    rewrite andb_true_r.
    destruct (dates_of E (code_of r)) as [[dc|] [dm|]] eqn:Hdates;
      try (eapply logs_bind_quiet; [apply logs_when|apply logs_ret]).
    destruct (String.eqb (Report._to_yyyymm dc) comp); cbn [negb andb];
      [|eapply logs_bind_quiet; [apply logs_when|apply logs_ret]].
    destruct (String.eqb (Report._to_yyyymm dm) (Report.run_pay R)); cbn [negb];
      [|eapply logs_bind_quiet; [apply logs_when|apply logs_ret]].
    eapply logs_bind_quiet; [rewrite money_of_cell; apply logs_lift|].
    unfold line_for. rewrite Hdates. apply logs_ret.
Qed.

Lemma queries_cons (r : Row) (rs : list Row) :
  rev (queries (r :: rs))
  = (rev (queries rs)
     ++ (if truthy (code_of r) then [Close; Execute (code_of r); Connect] else []))%list.
Proof.
  unfold queries. cbn [filter]. destruct (truthy (code_of r)).
  - cbn [flat_map]. rewrite rev_app_distr. reflexivity.
  - rewrite app_nil_r. reflexivity.
Qed.

Lemma rows_loop_logs (E : Env) (R : Report.Run) (comp : string) (rs : list Row)
    (acc : Report.Period) :
  truthy (Report.run_debug_code R) = false ->
  logs (Report.rows_loop E R comp rs acc)
       (Return (fold_left Report.append_line (rows_lines E R comp rs) acc))
       (rev (queries rs)).
Proof.
  intros Hdebug. revert acc. induction rs as [|r rs IH]; intros acc.
  - apply logs_ret.
  - cbn [Report.rows_loop rows_lines]. rewrite queries_cons.
    eapply logs_bind_return.
    + pose proof (row_step_logs E R comp r) as H.
      unfold debug_passes in H. rewrite Hdebug in H. cbn [negb orb] in H.
      rewrite andb_true_r in H. exact H.
    + cbn beta. destruct (row_result E R comp r) as [l|]; [|apply IH].
      rewrite Hdebug. apply IH.
Qed.

Lemma periods_loop_logs (E : Env) (R : Report.Run) (nome : string) (df : DataFrame)
    (competencias : list string) (g c : Float.float) :
  truthy (Report.run_debug_code R) = false ->
  logs (Report.periods_loop E R nome df competencias g c)
       (Return (person_totals E R (rows df) competencias (g, c)))
       (rev (List.concat (repeat (queries (rows df)) (List.length competencias)))).
Proof.
  intros Hdebug. revert g c. induction competencias as [|comp rest IH]; intros g c.
  - apply logs_ret.
  - cbn [Report.periods_loop person_totals fold_left List.length repeat List.concat].
    rewrite rev_app_distr.
    eapply logs_bind_return.
    + pose proof (rows_loop_logs E R comp (rows df) ([], Float.zero, Float.zero) Hdebug) as H.
      rewrite fold_append_line in H. exact H.
    + cbn beta iota.
      eapply logs_bind_quiet; [apply logs_print|].
      destruct (rows_lines E R comp (rows df)) as [|l ls] eqn:Hlines.
      * eapply logs_bind_quiet; [apply logs_print|]. apply IH.
      * eapply logs_bind_quiet; [apply logs_print|].
        eapply logs_bind_quiet; [apply logs_print|]. apply IH.
Qed.

(** X12: without a debug code, every period of a person asks the
    shipment table once for each row of the seller that has a code,
    whether or not the row is of the period: a report over [n] periods
    opens [n] connections for each such row, one query on each, and
    closes them all. *)
Theorem one_query_per_row_and_period (E : Env) (R : Report.Run) (nome : string)
    (df : DataFrame) (competencias : list string) (g c : Float.float) (st : State) :
  truthy (Report.run_debug_code R) = false ->
  let run := Report.periods_loop E R nome df competencias g c st in
  let coded := filter (fun r => truthy (code_of r)) (rows df) in
  rev (db_log (snd run))
  = (rev (db_log st)
     ++ List.concat (repeat (flat_map (fun r => [Connect; Execute (code_of r); Close]) coded)
                       (List.length competencias)))%list
  /\ List.length (db_log (snd run))
     = (List.length (db_log st) + 3 * (List.length competencias * List.length coded))%nat.
Proof.
  intros Hdebug run coded.
  destruct (periods_loop_logs E R nome df competencias g c Hdebug st) as (st' & Hrun & Hlog).
  unfold run. rewrite Hrun. cbn [snd]. rewrite Hlog. fold (queries (rows df)). split.
  - rewrite rev_app_distr, rev_involutive. reflexivity.
  - rewrite length_app, length_rev.
    assert (Hq : List.length (queries (rows df)) = (3 * List.length coded)%nat).
    { unfold queries. fold coded. induction coded as [|r l IH]; [reflexivity|].
      cbn [flat_map List.length app]. rewrite IH. lia. }
    clear Hlog Hrun.
    induction (List.length competencias) as [|n IH]; cbn [repeat List.concat List.length].
    + lia.
    + rewrite length_app, Hq. lia.
Qed.

Lemma one_query_per_row_and_period_witness :
  rev (db_log (snd (Report.periods_loop Scenario.E Scenario.ana "Ana Souza"
                      (df_apurado Scenario.loaded) ["2025-08"; "2025-09"]
                      Float.zero Float.zero Scenario.loaded)))
  = [Connect; Execute "SH001"; Close; Connect; Execute "SH001"; Close].
Proof.
  exact (proj1 (one_query_per_row_and_period Scenario.E Scenario.ana "Ana Souza"
                  (df_apurado Scenario.loaded) ["2025-08"; "2025-09"]
                  Float.zero Float.zero Scenario.loaded eq_refl)).
Defined.

(** ** Whole percentages *)

Lemma replace_last_char (a : ascii) (new s : string) :
  Text.existsb (Ascii.eqb a) s = false ->
  replace_from (String a EmptyString) new O (s ++ String a EmptyString) = s ++ new.
Proof.
  induction s as [|c s IH].
  - intros _. cbn [append replace_from startswith]. rewrite Ascii.eqb_refl.
    cbn [andb String.length Nat.pred replace_from]. rewrite append_empty. reflexivity.
  - cbn [Text.existsb]. intros H. apply orb_false_iff in H as [Hc Hs].
    cbn [append replace_from startswith]. rewrite Hc. cbn [andb].
    rewrite (IH Hs). reflexivity.
Qed.

Lemma digits_without (a : ascii) (s : string) :
  isdigit a = false -> Text.forallb isdigit s = true ->
  Text.existsb (Ascii.eqb a) s = false.
Proof.
  intros Ha. induction s as [|c s IH]; [reflexivity|].
  cbn [Text.forallb Text.existsb]. intros H. apply andb_true_iff in H as [Hc Hs].
  rewrite (IH Hs), orb_false_r. apply Ascii.eqb_neq. intros <-. congruence.
Qed.

Lemma of_decimal_whole (n : Z) : 0 <= n -> Float.of_decimal false n 0 = Float.of_Z n.
Proof.
  intros Hn. unfold Float.of_decimal, Float.of_Z.
  destruct (n =? 0) eqn:H0.
  - apply Z.eqb_eq in H0. subst n. reflexivity.
  - cbn [Z.leb Z.compare cond_Zopp Z.pow]. rewrite Z.mul_1_r. reflexivity.
Qed.

(** The text of a whole number is read as the number. *)
Lemma float_of_str_whole (n : Z) :
  0 <= n -> Numeral.float_of_str (str_of_nat n) = Some (Float.of_Z n).
Proof.
  intros Hn.
  destruct (scan_str_of_nat n EmptyString Hn) as (d & Hd & _ & _ & Hlen & Hdigits & Hscan).
  assert (Hplain : Text.forallb plain_char (str_of_nat n) = true).
  { apply (forallb_weaken isdigit); [|exact Hdigits].
    intros c Hc. apply (digit_facts c Hc). }
  rewrite (float_of_str_plain _ Hplain). unfold Numeral.float_of_literal.
  destruct (plain_not_keyword _ Hplain) as (H1 & H2 & H3 & _).
  specialize (Hscan 0 0). rewrite append_empty in Hscan.
  destruct (str_of_nat n) as [|c s] eqn:Hs; [cbn in Hlen; lia|].
  cbn [Text.forallb] in Hdigits. apply andb_true_iff in Hdigits as [Hc _].
  rewrite (scan_sign_digit c s Hc). cbv beta iota zeta.
  rewrite H1, H2, H3. cbn [orb].
  unfold Numeral.scan_decimal. rewrite Hscan. cbn [Numeral.scan_digits].
  replace (0 + d + 0 =? 0) with false by (symmetry; apply Z.eqb_neq; lia).
  cbn [Numeral.scan_exponent]. f_equal.
  replace (0 * 10 ^ d + n) with n by lia. apply of_decimal_whole, Hn.
Qed.

Lemma pct_num_whole (n : Z) :
  0 <= n -> Report.pct_num (str_of_nat n ++ "%") = str_of_nat n.
Proof.
  intros Hn.
  destruct (scan_str_of_nat n EmptyString Hn) as (d & _ & _ & _ & _ & Hdigits & _).
  unfold Report.pct_num, replace.
  rewrite (replace_last_char "%" EmptyString) by (apply digits_without; [reflexivity|exact Hdigits]).
  rewrite append_empty. unfold strip.
  rewrite lstrip_by_id, rstrip_by_id;
    try (apply (forallb_weaken isdigit); [|exact Hdigits];
         intros c Hc; destruct (digit_facts c Hc) as (_ & _ & -> & _); reflexivity).
  rewrite (replace_absent "." EmptyString EmptyString)
    by (apply digits_without; [reflexivity|exact Hdigits]).
  apply replace_absent, digits_without; [reflexivity|exact Hdigits].
Qed.

Lemma whole_percents_checked :
  List.forallb whole_percent_ok (map Z.of_nat (seq 0 1001)) = true.
Proof. vm_compute. reflexivity. Qed.

(** X13: a level whose cell is a whole percentage from 0% to 1000%
    resolves to that number over 100, and the label [int(round(pct*100))]
    that the report prints for it is the number of the cell. *)
Theorem whole_percent_label (r : Ref) (st : State) (nivel : string) (first : Row) (n : Z) :
  0 <= n <= 1000 ->
  mem "Niveis" (columns (deref r st)) = true ->
  find (level_matches nivel) (rows (deref r st)) = Some first ->
  strip (text first "Sales Executive") = str_of_nat n ++ "%" ->
  let pct := Float.div (Float.of_Z n) (Float.of_Z 100) in
  Report.get_percentual_sales_exec r nivel st = (Return pct, st)
  /\ Report.percent_label pct = Return n.
Proof.
  intros Hn Hcol Hfind Hcell pct. split.
  - rewrite (resolver_by_first_row r st nivel Hcol), Hfind. cbv zeta. rewrite Hcell.
    replace (endswith "%" (str_of_nat n ++ "%")) with true.
    + rewrite pct_num_whole, float_of_str_whole by lia. reflexivity.
    + symmetry. clear. induction (str_of_nat n) as [|c s IH]; [reflexivity|].
      cbn [append]. cbn [endswith]. rewrite IH. apply orb_true_r.
  - pose proof whole_percents_checked as Hall.
    rewrite forallb_forall in Hall.
    specialize (Hall n). unfold whole_percent_ok in Hall. fold pct in Hall.
    destruct (Report.percent_label pct) as [m|e].
    + f_equal. apply Z.eqb_eq, Hall. rewrite <- (Z2Nat.id n) by lia.
      apply in_map, in_seq. lia.
    + discriminate Hall. rewrite <- (Z2Nat.id n) by lia. apply in_map, in_seq. lia.
Qed.

Lemma whole_percent_label_witness :
  Report.get_percentual_sales_exec DfNiveis (u8 "guardião") (with_niveis (guardiao_sheet "29%"))
  = (Return (Prim2SF 0.29), with_niveis (guardiao_sheet "29%"))
  /\ Report.percent_label (Prim2SF 0.29) = Return 29.
Proof.
  refine (whole_percent_label DfNiveis (with_niveis (guardiao_sheet "29%")) (u8 "guardião")
            [("Niveis", "Guardiao"); ("Sales Executive", "29%")] 29 _ _ _ _).
  - lia.
  - reflexivity.
  - vm_compute. reflexivity.
  - vm_compute. reflexivity.
Defined.

(** ** The pay column of the variant script *)

Lemma Forall2_map_left {A B : Type} (R : B -> A -> Prop) (f : A -> B) (l : list A) :
  (forall x, R (f x) x) -> Forall2 R (map f l) l.
Proof. intros H. induction l as [|x l IH]; cbn [map]; constructor; [apply H|exact IH]. Qed.

Lemma add_column_present (cols : list string) (c : string) :
  mem c cols = true -> add_column cols c = cols.
Proof. intros H. unfold add_column. rewrite H. reflexivity. Qed.

(** X14: when no pay column is named and the sheet has no column
    Aprovada, [filter_apurado] of the variant script does not look at
    the pay month: it returns every row of the seller, cells unchanged,
    whatever the month asked for.  A pay column that the sheet lacks is
    a [KeyError], raised after the two required columns were found. *)
Theorem variant_without_pay_column (E : Env) (r : Ref) (nome pay : string) (st : State) :
  Text.existsb Report.re_meta nome = false ->
  mem (u8 "Código") (columns (deref r st)) = true ->
  mem "Vendedor" (columns (deref r st)) = true ->
  let pay_col := pay_column E (columns (deref r st)) in
  let run := Variant.filter_apurado E r nome pay st in
  (truthy pay_col = false ->
   exists df,
     run = (Return (df, EmptyString), st)
     /\ Forall2 (same_cells_but ["_pay_yyyymm"]) (rows df)
                (filter (vendedor_matches nome) (rows (deref r st)))
     /\ Forall (fun out => text out "_pay_yyyymm" = EmptyString) (rows df)
     /\ forall pay', Variant.filter_apurado E r nome pay' st = run)
  /\ (truthy pay_col = true -> mem pay_col (columns (deref r st)) = false ->
      run = (Raise (KeyError pay_col), st)).
Proof.
  intros Hplain Hcod Hven pay_col run.
  assert (Hsel : forall sheet : DataFrame,
             rows (select (assign sheet "Vendedor" (fun r0 => text r0 "Vendedor"))
                     (fun r0 => contains (lower nome) (lower (text r0 "Vendedor"))))
             = map (fun r0 => set r0 "Vendedor" (text r0 "Vendedor"))
                   (filter (vendedor_matches nome) (rows sheet))).
  { intros sheet. cbn [select assign rows].
    apply (filter_of_map _ (vendedor_matches nome)).
    intros r0. unfold vendedor_matches. rewrite text_set_text. reflexivity. }
  assert (Hrun : forall pay',
             Variant.filter_apurado E r nome pay' st
             = (if truthy pay_col then
                  if mem pay_col (columns (deref r st))
                  then fst (Variant.filter_apurado E r nome pay' st)
                  else Raise (KeyError pay_col)
                else
                  Return
                    ({| columns := add_column (columns (deref r st)) "_pay_yyyymm";
                        rows := map (fun r1 => set r1 "_pay_yyyymm" EmptyString)
                                    (map (fun r0 => set r0 "Vendedor" (text r0 "Vendedor"))
                                         (filter (vendedor_matches nome)
                                                 (rows (deref r st)))) |}, pay_col), st)).
  { intros pay'. rewrite (surjective_pairing (Variant.filter_apurado E r nome pay' st)) at 1.
    rewrite variant_filter_state.
    unfold Variant.filter_apurado, bind.
    replace (frame r st) with (Return (deref r st), st) by (destruct r; reflexivity).
    fold (pay_column E (columns (deref r st))). fold pay_col.
    rewrite Hcod, Hven. cbn [negb raise_if ret].
    unfold Report.compile_ignorecase. rewrite Hplain. unfold lift.
    destruct (truthy pay_col) eqn:Hpay.
    - cbn [select assign columns]. rewrite (add_column_present _ "Vendedor" Hven).
      destruct (mem pay_col (columns (deref r st))); reflexivity.
    - unfold ret. cbn [fst]. unfold assign at 1. rewrite Hsel.
      cbn [select assign columns]. rewrite (add_column_present _ "Vendedor" Hven).
      reflexivity. }
  split.
  - intros Hnone. unfold run. eexists. rewrite (Hrun pay), Hnone. split.
    + f_equal. f_equal. f_equal. destruct pay_col; [reflexivity|discriminate Hnone].
    + cbn [rows]. rewrite map_map. split; [|split].
      * apply Forall2_map_left.
        intros r0 c Hc. cbn [mem List.existsb orb] in Hc. apply orb_false_iff in Hc as [Hc _].
        rewrite String.eqb_sym in Hc.
        rewrite (text_set_other _ _ _ _ Hc). apply text_set_text.
      * rewrite Forall_forall. intros out Hout.
        apply in_map_iff in Hout as (r0 & <- & _). apply text_set_same.
      * intros pay'. rewrite (Hrun pay'), Hnone, map_map. reflexivity.
  - intros Hsome Hmissing. unfold run. rewrite (Hrun pay), Hsome, Hmissing. reflexivity.
Qed.

Lemma variant_without_pay_column_witness :
  Variant.filter_apurado (with_pay_column "Pagamento") DfApurado "ana" "2025-12" Scenario.loaded
  = (Raise (KeyError "Pagamento"), Scenario.loaded)
  /\ exists df,
       Variant.filter_apurado Scenario.E DfApurado "ana" "2025-12" Scenario.loaded
       = (Return (df, EmptyString), Scenario.loaded)
       /\ Forall (fun out => text out "_pay_yyyymm" = EmptyString) (rows df).
Proof.
  split.
  - exact (proj2 (variant_without_pay_column (with_pay_column "Pagamento") DfApurado "ana"
                    "2025-12" Scenario.loaded eq_refl eq_refl eq_refl) eq_refl eq_refl).
  - destruct (proj1 (variant_without_pay_column Scenario.E DfApurado "ana" "2025-12"
                       Scenario.loaded eq_refl eq_refl eq_refl) eq_refl)
      as (df & Hrun & _ & Hmonth & _).
    exists df. split; [exact Hrun|exact Hmonth].
Defined.

(** ** The order of day and month *)

Lemma zfill_shape (w : nat) (n : Z) :
  (0 < w)%nat -> 0 <= n < 10 ^ Z.of_nat w ->
  String.length (zfill w n) = w /\ Text.forallb isdigit (zfill w n) = true.
Proof.
  intros Hw [Hn Hlt].
  destruct (scan_zfill w n EmptyString Hn) as (d & _ & Hdigits & Hd & Hlen & _).
  rewrite Hlen, (Hd Hw Hlt), Nat2Z.id. split; [reflexivity|exact Hdigits].
Qed.

Lemma digit_not_space (c : ascii) : isdigit c = true -> isspace c = false.
Proof. intros H. apply (digit_facts c H). Qed.

(** X15: a cell that starts, white space apart, with a date written
    year-month-day is parsed month first; one that starts with a date
    written day/month/year is parsed day first.  Both are handed to
    [dateutil] without the white space around them. *)
Theorem date_cells_order (E : Env) (d : datetime) (x rest : string) :
  0 <= year d < 10000 -> 0 <= month d < 100 -> 0 <= day d < 100 ->
  (strip x = strftime_Ymd d ++ rest ->
   Variant._parse_date_any E x = dateutil_parse E false (strip x))
  /\ (strip x = br_date d ++ rest ->
      Variant._parse_date_any E x = dateutil_parse E true (strip x)).
Proof.
  intros Hy Hm Hd.
  destruct (zfill_shape 4 (year d)) as [HlenY HdigY]; [lia|cbn; lia|].
  destruct (zfill_shape 2 (month d)) as [HlenM HdigM]; [lia|cbn; lia|].
  destruct (zfill_shape 2 (day d)) as [HlenD HdigD]; [lia|cbn; lia|].
  unfold Variant._parse_date_any, strftime_Ymd, br_date.
  destruct (zfill 4 (year d)) as [|y1 [|y2 [|y3 [|y4 [|]]]]]; try discriminate HlenY.
  destruct (zfill 2 (month d)) as [|m1 [|m2 [|]]]; try discriminate HlenM.
  destruct (zfill 2 (day d)) as [|d1 [|d2 [|]]]; try discriminate HlenD.
  cbn [Text.forallb] in HdigY, HdigM, HdigD.
  repeat match goal with
         | H : _ && _ = true |- _ => apply andb_true_iff in H as [? ?]
         end.
  split; intros Hx; rewrite Hx; cbn [append truthy negb].
  - unfold Variant.iso_date_prefix, lstrip. cbn [lstrip_by].
    rewrite (digit_not_space y1) by assumption.
    cbn [String.length Nat.leb substring Text.forallb String.eqb].
    repeat match goal with
           | H : isdigit _ = true |- _ => rewrite H; clear H
           end.
    replace (substring 0 0 rest) with EmptyString by (destruct rest; reflexivity).
    reflexivity.
  - unfold Variant.iso_date_prefix, lstrip. cbn [lstrip_by].
    rewrite (digit_not_space d1) by assumption.
    cbn [String.length Nat.leb substring Text.forallb String.eqb].
    change (isdigit "/") with false.
    rewrite !andb_false_r. reflexivity.
Qed.

Lemma date_cells_order_witness :
  Variant._parse_date_any Scenario.E " 2025-12-05 00:00:00"
  = dateutil_parse Scenario.E false "2025-12-05 00:00:00"
  /\ Variant._parse_date_any Scenario.E "05/12/2025 "
     = dateutil_parse Scenario.E true "05/12/2025".
Proof.
  split.
  - exact (proj1 (date_cells_order Scenario.E {| year := 2025; month := 12; day := 5 |}
                    " 2025-12-05 00:00:00" " 00:00:00"
                    ltac:(cbn; lia) ltac:(cbn; lia) ltac:(cbn; lia)) eq_refl).
  - exact (proj2 (date_cells_order Scenario.E {| year := 2025; month := 12; day := 5 |}
                    "05/12/2025 " ""
                    ltac:(cbn; lia) ltac:(cbn; lia) ltac:(cbn; lia)) eq_refl).
Defined.

(** ** The order of the table *)

Lemma code_inj (x y : ascii) : code x = code y -> x = y.
Proof.
  unfold code. intros H. apply Nat2Z.inj in H.
  rewrite <- (ascii_nat_embedding x), <- (ascii_nat_embedding y), H. reflexivity.
Qed.

Lemma ltb_irrefl (a : string) : ltb a a = false.
Proof.
  induction a as [|x a IH]; [reflexivity|].
  cbn [ltb]. rewrite IH, Z.ltb_irrefl, andb_false_r. reflexivity.
Qed.

Lemma ltb_trans (a b c : string) :
  ltb a b = true -> ltb b c = true -> ltb a c = true.
Proof.
  revert b c. induction a as [|x a IH]; intros [|y b] [|z c]; cbn [ltb];
    try discriminate; try reflexivity.
  rewrite !orb_true_iff, !andb_true_iff, !Z.ltb_lt, !Z.eqb_eq.
  intros [Hxy | [Hxy Hab]] [Hyz | [Hyz Hbc]].
  - left. lia.
  - left. lia.
  - left. lia.
  - right. split; [lia|]. exact (IH b c Hab Hbc).
Qed.

Lemma ltb_total (a b : string) : ltb a b = false -> ltb b a = false -> a = b.
Proof.
  revert b. induction a as [|x a IH]; intros [|y b]; cbn [ltb];
    try discriminate; try reflexivity.
  rewrite !orb_false_iff, !andb_false_iff, !Z.ltb_ge, !Z.eqb_neq.
  intros [Hxy Hab] [Hyx Hba].
  assert (Hcode : code x = code y) by lia.
  apply code_inj in Hcode. subst y.
  destruct Hab as [Hab|Hab]; [contradiction Hab; reflexivity|].
  destruct Hba as [Hba|Hba]; [contradiction Hba; reflexivity|].
  rewrite (IH b Hab Hba). reflexivity.
Qed.

Lemma ltb_asym (a b : string) : ltb a b = true -> ltb b a = false.
Proof.
  intros H. destruct (ltb b a) eqn:Hba; [|reflexivity].
  pose proof (ltb_trans a b a H Hba) as Haa. rewrite ltb_irrefl in Haa. discriminate Haa.
Qed.

Lemma line_le_total (a b : ReportLine) :
  Report.line_le a b = false -> Report.line_le b a = true.
Proof.
  unfold Report.line_le. intros H.
  apply orb_false_iff in H as [Hlt H].
  destruct (String.eqb (date_creation a) (date_creation b)) eqn:Heq.
  - apply String.eqb_eq in Heq. cbn [andb] in H. apply negb_false_iff in H.
    rewrite <- Heq, String.eqb_refl, (ltb_asym _ _ H). apply orb_true_r.
  - destruct (ltb (date_creation b) (date_creation a)) eqn:Hgt; [reflexivity|].
    apply String.eqb_neq in Heq. contradiction Heq. apply ltb_total; assumption.
Qed.

Lemma line_le_trans (a b c : ReportLine) :
  Report.line_le a b = true -> Report.line_le b c = true -> Report.line_le a c = true.
Proof.
  unfold Report.line_le.
  rewrite !orb_true_iff, !andb_true_iff, !negb_true_iff, !String.eqb_eq.
  intros [Hab | [Hab Hcab]] [Hbc | [Hbc Hcbc]].
  - left. exact (ltb_trans _ _ _ Hab Hbc).
  - left. rewrite <- Hbc. exact Hab.
  - left. rewrite Hab. exact Hbc.
  - right. split; [congruence|].
    destruct (ltb (codigo c) (codigo a)) eqn:Hca; [|reflexivity].
    destruct (ltb (codigo a) (codigo b)) eqn:Hlt.
    + pose proof (ltb_trans _ _ _ Hca Hlt) as H. congruence.
    + rewrite (ltb_total _ _ Hlt Hcab) in Hca. congruence.
Qed.

Lemma insert_line_perm (l : ReportLine) (sorted : list ReportLine) :
  Permutation (Report.insert_line l sorted) (l :: sorted).
Proof.
  induction sorted as [|x rest IH]; [apply Permutation_refl|].
  cbn [Report.insert_line]. destruct (Report.line_le l x); [apply Permutation_refl|].
  apply (Permutation_trans (perm_skip x IH)), perm_swap.
Qed.

Lemma insert_line_sorted (l : ReportLine) (sorted : list ReportLine) :
  StronglySorted (fun a b => Report.line_le a b = true) sorted ->
  StronglySorted (fun a b => Report.line_le a b = true) (Report.insert_line l sorted).
Proof.
  induction sorted as [|x rest IH]; intros Hs.
  - constructor; constructor.
  - cbn [Report.insert_line]. inversion Hs as [|? ? Hrest Hx]; subst.
    destruct (Report.line_le l x) eqn:Hlx.
    + constructor; [exact Hs|]. constructor; [exact Hlx|].
      eapply Forall_impl; [|exact Hx]. intros y Hy. exact (line_le_trans _ _ _ Hlx Hy).
    + constructor; [exact (IH Hrest)|].
      apply (Permutation_Forall (Permutation_sym (insert_line_perm l rest))).
      constructor; [exact (line_le_total _ _ Hlx)|exact Hx].
Qed.

Lemma sort_lines_sorted (ls : list ReportLine) :
  Permutation (Report.sort_lines ls) ls
  /\ StronglySorted (fun a b => Report.line_le a b = true) (Report.sort_lines ls).
Proof.
  split.
  - induction ls as [|l ls IH]; [apply Permutation_refl|].
    cbn [Report.sort_lines fold_right].
    apply (Permutation_trans (insert_line_perm _ _)), perm_skip, IH.
  - induction ls as [|l ls IH]; [constructor|].
    cbn [Report.sort_lines fold_right]. apply insert_line_sorted, IH.
Qed.

Section Prints.

Context {A B : Type}.

Lemma prints_ret (a : A) : prints (ret a) (Return a) [].
Proof. intros st. exists st. split; reflexivity. Qed.

Lemma prints_lift (o : outcome A) : prints (lift o) o [].
Proof. intros st. exists st. split; reflexivity. Qed.

Lemma prints_bind_return (c : M A) (k : A -> M B) (a : A) (o : outcome B)
    (first second : list Out) :
  prints c (Return a) first -> prints (k a) o second ->
  prints (bind c k) o (second ++ first).
Proof.
  intros Hc Hk st. destruct (Hc st) as (st1 & Hrun1 & Hout1).
  destruct (Hk st1) as (st2 & Hrun2 & Hout2).
  exists st2. unfold bind. rewrite Hrun1, Hrun2, Hout2, Hout1, app_assoc.
  split; reflexivity.
Qed.

Lemma prints_bind_quiet (c : M A) (k : A -> M B) (a : A) (o : outcome B)
    (outs : list Out) :
  prints c (Return a) [] -> prints (k a) o outs -> prints (bind c k) o outs.
Proof.
  intros Hc Hk. rewrite <- (app_nil_r outs). exact (prints_bind_return _ _ _ _ _ _ Hc Hk).
Qed.

End Prints.

Lemma prints_print (o : Out) : prints (print o) (Return tt) [o].
Proof. intros st. eexists. split; reflexivity. Qed.

Lemma prints_db (ev : DbEvent) : prints (db ev) (Return tt) [].
Proof. intros st. eexists. split; reflexivity. Qed.

Lemma prints_lookup (E : Env) (number : string) :
  truthy number = true ->
  prints (MysqlRepo.get_dates_by_shipment_number E (Some number))
         (Return (dates_of E number)) [].
Proof.
  intros H.
  unfold MysqlRepo.get_dates_by_shipment_number, MysqlRepo.get_shipment_dates_by_number.
  rewrite H. cbn [negb].
  eapply prints_bind_quiet.
  - eapply prints_bind_quiet; [apply prints_db|].
    eapply prints_bind_quiet; [apply prints_db|].
    eapply prints_bind_quiet; [apply prints_db|].
    apply prints_ret.
  - unfold dates_of. destruct (shipment_row E number) as [[a b]|]; apply prints_ret.
Qed.

Lemma row_step_prints (E : Env) (R : Report.Run) (comp : string) (r : Row) :
  truthy (Report.run_debug_code R) = false ->
  prints (Report.row_step E R comp r) (Return (row_result E R comp r)) [].
Proof.
  intros Hdebug.
  unfold Report.row_step, row_result, in_periods, debug_passes.
  fold (code_of r). rewrite Hdebug.
  destruct (truthy (code_of r)) eqn:Hcode; cbn [negb andb orb Report.when];
    [|apply prints_ret].
  eapply prints_bind_quiet; [apply prints_lookup, Hcode|].
  eapply prints_bind_quiet; [apply prints_ret|].
  rewrite andb_true_r.
  destruct (dates_of E (code_of r)) as [[dc|] [dm|]] eqn:Hdates;
    try (eapply prints_bind_quiet; [apply prints_ret|apply prints_ret]).
  destruct (String.eqb (Report._to_yyyymm dc) comp); cbn [negb andb];
    [|eapply prints_bind_quiet; [apply prints_ret|apply prints_ret]].
  destruct (String.eqb (Report._to_yyyymm dm) (Report.run_pay R)); cbn [negb];
    [|eapply prints_bind_quiet; [apply prints_ret|apply prints_ret]].
  eapply prints_bind_quiet; [rewrite money_of_cell; apply prints_lift|].
  unfold line_for. rewrite Hdates. apply prints_ret.
Qed.

Lemma rows_loop_prints (E : Env) (R : Report.Run) (comp : string) (rs : list Row)
    (acc : Report.Period) :
  truthy (Report.run_debug_code R) = false ->
  prints (Report.rows_loop E R comp rs acc)
         (Return (fold_left Report.append_line (rows_lines E R comp rs) acc)) [].
Proof.
  intros Hdebug. revert acc. induction rs as [|r rs IH]; intros acc.
  - apply prints_ret.
  - cbn [Report.rows_loop rows_lines].
    eapply prints_bind_quiet; [apply row_step_prints, Hdebug|].
    destruct (row_result E R comp r) as [l|]; [|apply IH].
    rewrite Hdebug. apply IH.
Qed.

Lemma periods_loop_prints (E : Env) (R : Report.Run) (nome : string) (df : DataFrame)
    (competencias : list string) (g c : Float.float) :
  truthy (Report.run_debug_code R) = false ->
  prints (Report.periods_loop E R nome df competencias g c)
         (Return (person_totals E R (rows df) competencias (g, c)))
         (rev (flat_map (period_output E R nome (rows df)) competencias)).
Proof.
  intros Hdebug. revert g c. induction competencias as [|comp rest IH]; intros g c.
  - apply prints_ret.
  - cbn [Report.periods_loop person_totals fold_left flat_map].
    rewrite rev_app_distr.
    eapply prints_bind_quiet.
    + pose proof (rows_loop_prints E R comp (rows df) ([], Float.zero, Float.zero) Hdebug)
        as H.
      rewrite fold_append_line in H. exact H.
    + cbn beta iota.
      set (X := rev (flat_map (period_output E R nome (rows df)) rest)) in *.
      unfold period_output.
      destruct (rows_lines E R comp (rows df)) as [|l ls] eqn:Hlines.
      * cbv beta iota zeta.
        replace (X ++ rev [PeriodHeader nome comp (Report.run_pay R); NoRows])%list
          with ((X ++ [NoRows]) ++ [PeriodHeader nome comp (Report.run_pay R)])%list
          by (rewrite <- app_assoc; reflexivity).
        eapply prints_bind_return; [apply prints_print|].
        eapply prints_bind_return; [apply prints_print|]. apply IH.
      * cbv beta iota zeta.
        set (tot := Totals (sum_from Float.zero (map gp (l :: ls)))
                           (sum_from Float.zero (map valor_comissao (l :: ls)))).
        replace (X ++ rev [PeriodHeader nome comp (Report.run_pay R);
                           Table (Report.sort_lines (l :: ls)); tot])%list
          with (((X ++ [tot]) ++ [Table (Report.sort_lines (l :: ls))])
                ++ [PeriodHeader nome comp (Report.run_pay R)])%list
          by (rewrite <- !app_assoc; reflexivity).
        eapply prints_bind_return; [apply prints_print|].
        eapply prints_bind_return; [apply prints_print|].
        eapply prints_bind_return; [apply prints_print|]. apply IH.
Qed.

(** X16: without a debug code, what the report of a person prints for
    its periods is, period by period, a header and then either the
    notice that nothing was found or the table and the two totals of
    the period.  The table holds the lines of the period, each as often
    as it was appended, in ascending order of creation date and, within
    a date, of code. *)
Theorem tables_in_date_order (E : Env) (R : Report.Run) (nome : string) (df : DataFrame)
    (competencias : list string) (g c : Float.float) (st : State) :
  truthy (Report.run_debug_code R) = false ->
  let run := Report.periods_loop E R nome df competencias g c st in
  rev (stdout (snd run))
  = (rev (stdout st) ++ flat_map (period_output E R nome (rows df)) competencias)%list
  /\ forall comp,
       let lines := rows_lines E R comp (rows df) in
       Permutation (Report.sort_lines lines) lines
       /\ StronglySorted (fun a b => Report.line_le a b = true) (Report.sort_lines lines).
Proof.
  intros Hdebug run. split.
  - destruct (periods_loop_prints E R nome df competencias g c Hdebug st)
      as (st' & Hrun & Hout).
    unfold run. rewrite Hrun. cbn [snd]. rewrite Hout, rev_app_distr, rev_involutive.
    reflexivity.
  - intros comp lines. apply sort_lines_sorted.
Qed.

Lemma tables_in_date_order_witness :
  rev (stdout (snd (Report.periods_loop Scenario.E Scenario.ana "Ana Souza"
                      (df_apurado Scenario.loaded) ["2025-08"; "2025-09"]
                      Float.zero Float.zero Scenario.loaded)))
  = [PeriodHeader "Ana Souza" "2025-08" "2025-12";
     Table [{| codigo := "SH001";
               date_creation := "2025-08-15";
               date_comission := "2025-12-05";
               line_nivel := u8 "Guardião";
               percentual := 50;
               gp := Prim2SF 1000;
               valor_comissao := Prim2SF 500 |}];
     Totals (Prim2SF 1000) (Prim2SF 500);
     PeriodHeader "Ana Souza" "2025-09" "2025-12";
     NoRows].
Proof.
  exact (proj1 (tables_in_date_order Scenario.E Scenario.ana "Ana Souza"
                  (df_apurado Scenario.loaded) ["2025-08"; "2025-09"]
                  Float.zero Float.zero Scenario.loaded eq_refl)).
Defined.

(** ** The debug precheck *)

Lemma set_set_same (r : Row) (c v w : string) : set (set r c v) c w = set r c w.
Proof.
  induction r as [|[k x] r IH]; cbn [set].
  - rewrite String.eqb_refl. reflexivity.
  - destruct (String.eqb k c) eqn:Hk; cbn [set]; rewrite Hk; [reflexivity|].
    rewrite IH. reflexivity.
Qed.

Lemma add_column_twice (cols : list string) (c : string) :
  add_column (add_column cols c) c = add_column cols c.
Proof.
  destruct (mem c cols) eqn:Hc.
  - rewrite (add_column_present cols c Hc). apply add_column_present, Hc.
  - apply add_column_present. unfold add_column. rewrite Hc.
    apply mem_true_iff, in_or_app. right. left. reflexivity.
Qed.

(** X17: with a debug code and a column Código, the precheck reports
    how many rows of the whole sheet carry the code, white space
    around it apart, and shows the first of them; it asks the shipment
    table nothing, and a second precheck leaves the sheet as the first
    one left it. *)
Theorem precheck_counts_rows (debug_code : string) (st : State) :
  truthy debug_code = true ->
  mem (u8 "Código") (columns (df_apurado st)) = true ->
  let mark r := set r "_codigo_norm" (code_of r) in
  let with_code r := String.eqb (code_of r) debug_code in
  let run := Report._debug_precheck_in_apurados DfApurado debug_code st in
  fst run = Return tt
  /\ stdout (snd run)
     = DebugHits (List.length (filter with_code (rows (df_apurado st))))
                 (option_map mark (find with_code (rows (df_apurado st))))
       :: DebugPrecheck debug_code :: stdout st
  /\ db_log (snd run) = db_log st
  /\ rows (df_apurado (snd run)) = map mark (rows (df_apurado st))
  /\ frames (snd (Report._debug_precheck_in_apurados DfApurado debug_code (snd run)))
     = frames (snd run).
Proof.
  intros Hdebug Hcod mark with_code run.
  assert (Hsame : forall r, text (mark r) "_codigo_norm" = code_of r).
  { intros r. apply text_set_same. }
  assert (Hhits : filter (fun r => String.eqb (text r "_codigo_norm") debug_code)
                         (map mark (rows (df_apurado st)))
                  = map mark (filter with_code (rows (df_apurado st)))).
  { apply filter_of_map. intros r. rewrite Hsame. reflexivity. }
  assert (Hrun : run
                 = (Return tt,
                    {| df_niveis := df_niveis st; df_meta := df_meta st;
                       df_apurado := assign (df_apurado st) "_codigo_norm" code_of;
                       db_log := db_log st;
                       stdout := DebugHits
                                   (List.length (filter with_code (rows (df_apurado st))))
                                   (option_map mark (find with_code (rows (df_apurado st))))
                                 :: DebugPrecheck debug_code :: stdout st |})).
  { unfold run, Report._debug_precheck_in_apurados. rewrite Hdebug. cbn [negb].
    unfold bind, print, frame, store. cbn [df_apurado columns]. rewrite Hcod. cbn [negb].
    cbn [df_niveis df_meta df_apurado db_log stdout select assign rows].
    change (fun r : Row => set r "_codigo_norm" (strip (text r (u8 "Código")))) with mark.
    rewrite Hhits, length_map. f_equal. f_equal. f_equal. f_equal.
    rewrite <- Hhits. apply hd_filter_map. intros r. rewrite Hsame. reflexivity. }
  rewrite Hrun. cbn [fst snd stdout db_log df_apurado assign rows].
  repeat split.
  rewrite precheck_frames. cbn [df_apurado assign columns]. rewrite Hdebug.
  replace (mem (u8 "Código") (add_column (columns (df_apurado st)) "_codigo_norm")) with true.
  - cbn [andb]. unfold frames. cbn [df_niveis df_meta df_apurado]. f_equal.
    unfold assign. cbn [columns rows]. rewrite add_column_twice, map_map. f_equal.
    apply map_ext. intros r. rewrite set_set_same. f_equal.
    unfold code_of. f_equal. apply text_set_other. reflexivity.
  - symmetry. rewrite mem_add_column_other; [exact Hcod|reflexivity].
Qed.

Lemma precheck_counts_rows_witness :
  stdout (snd (Report._debug_precheck_in_apurados DfApurado "SH001" Scenario.loaded))
  = [DebugHits 1 (Some [(u8 "Código", "SH001"); ("Vendedor", "Ana Souza");
                        ("Profit Liquido", "R$ 1.000,00"); ("_codigo_norm", "SH001")]);
     DebugPrecheck "SH001"].
Proof.
  exact (proj1 (proj2 (precheck_counts_rows "SH001" Scenario.loaded eq_refl eq_refl))).
Defined.

(** ** The list of periods *)

Section Strips.

Variable sp : ascii -> bool.

Lemma lstrip_by_length (s : string) :
  (String.length (lstrip_by sp s) <= String.length s)%nat.
Proof.
  induction s as [|c s IH]; [cbn; lia|].
  cbn [lstrip_by]. destruct (sp c); cbn [String.length] in *; lia.
Qed.

Lemma rstrip_by_length (s : string) :
  (String.length (rstrip_by sp s) <= String.length s)%nat.
Proof.
  induction s as [|c s IH]; [cbn; lia|].
  cbn [rstrip_by]. destruct (rstrip_by sp s); [destruct (sp c)|];
    cbn [String.length] in *; lia.
Qed.

Lemma existsb_lstrip_by (p : ascii -> bool) (s : string) :
  Text.existsb p s = false -> Text.existsb p (lstrip_by sp s) = false.
Proof.
  induction s as [|c s IH]; [reflexivity|].
  intros H. cbn [lstrip_by]. destruct (sp c); [|exact H].
  cbn [Text.existsb] in H. apply orb_false_iff in H as [_ H]. exact (IH H).
Qed.

Lemma existsb_rstrip_by (p : ascii -> bool) (s : string) :
  Text.existsb p s = false -> Text.existsb p (rstrip_by sp s) = false.
Proof.
  induction s as [|c s IH]; [reflexivity|].
  cbn [Text.existsb]. intros H. apply orb_false_iff in H as [Hc Hs].
  cbn [rstrip_by]. specialize (IH Hs). destruct (rstrip_by sp s).
  - destruct (sp c); [reflexivity|]. cbn [Text.existsb]. rewrite Hc. reflexivity.
  - cbn [Text.existsb] in *. rewrite Hc, IH. reflexivity.
Qed.

Lemma rstrip_by_after (t u : string) :
  u <> EmptyString -> rstrip_by sp u = u -> rstrip_by sp (t ++ u) = t ++ u.
Proof.
  intros Hne Hu. induction t as [|c t IH]; [exact Hu|].
  cbn [append rstrip_by]. rewrite IH.
  destruct (t ++ u) eqn:Htu; [|reflexivity].
  destruct t; [cbn [append] in Htu; congruence|discriminate Htu].
Qed.

(** A text that stripping leaves alone has no such character at either
    end. *)
Lemma strip_by_fixed (s : string) :
  rstrip_by sp (lstrip_by sp s) = s -> lstrip_by sp s = s /\ rstrip_by sp s = s.
Proof.
  destruct s as [|c s]; [split; reflexivity|].
  cbn [lstrip_by]. destruct (sp c) eqn:Hc.
  - intros H. exfalso.
    pose proof (rstrip_by_length (lstrip_by sp s)) as H1.
    pose proof (lstrip_by_length s) as H2.
    rewrite H in H1. cbn [String.length] in H1. lia.
  - intros H. split; [reflexivity|exact H].
Qed.

End Strips.

Lemma split_comma_token (c rest cur : string) :
  Text.existsb (Ascii.eqb ",") c = false ->
  Report.split_comma (c ++ rest) cur = Report.split_comma rest (cur ++ c).
Proof.
  revert cur. induction c as [|a c IH]; intros cur H.
  - rewrite append_empty. reflexivity.
  - cbn [Text.existsb] in H. apply orb_false_iff in H as [Ha Hc].
    cbn [append Report.split_comma]. rewrite Ascii.eqb_sym, Ha.
    rewrite (IH _ Hc), append_assoc. reflexivity.
Qed.

Lemma split_comma_tokens (s cur : string) :
  Text.existsb (Ascii.eqb ",") cur = false ->
  Forall (fun t => Text.existsb (Ascii.eqb ",") t = false) (Report.split_comma s cur).
Proof.
  revert cur. induction s as [|a s IH]; intros cur Hcur.
  - constructor; [exact Hcur|constructor].
  - cbn [Report.split_comma]. destruct (Ascii.eqb a ",") eqn:Ha.
    + constructor; [exact Hcur|]. apply IH. reflexivity.
    + apply IH. rewrite existsb_append, Hcur. cbn [Text.existsb].
      rewrite Ascii.eqb_sym, Ha. reflexivity.
Qed.

Lemma clean_facts (c : string) :
  clean c = true ->
  truthy c = true /\ Text.existsb (Ascii.eqb ",") c = false /\ strip c = c.
Proof.
  unfold clean. rewrite !andb_true_iff, negb_true_iff, String.eqb_eq. tauto.
Qed.

Lemma split_join (cs : list string) (cur : string) :
  cs <> [] -> Forall (fun c => clean c = true) cs ->
  cur = EmptyString \/ cur = " " ->
  filter truthy (map strip (Report.split_comma (String.concat ", " cs) cur)) = cs.
Proof.
  assert (Hone : forall c, clean c = true -> cur = EmptyString \/ cur = " " ->
                           strip (cur ++ c) = c /\ truthy c = true).
  { intros c Hc Hcur. destruct (clean_facts c Hc) as (Ht & _ & Hs).
    split; [|exact Ht]. destruct Hcur as [-> | ->]; exact Hs. }
  revert cur Hone. induction cs as [|c cs IH]; intros cur Hone Hne Hclean Hcur;
    [contradiction Hne; reflexivity|].
  inversion Hclean as [|? ? Hc Hrest]; subst.
  destruct (clean_facts c Hc) as (_ & Hcomma & _).
  destruct (Hone c Hc Hcur) as [Hstrip Htruthy].
  destruct cs as [|c2 cs].
  - cbn [String.concat]. rewrite <- (append_empty c) at 1.
    rewrite (split_comma_token c EmptyString cur Hcomma).
    cbn [Report.split_comma map filter]. rewrite Hstrip, Htruthy. reflexivity.
  - change (String.concat ", " (c :: c2 :: cs))
      with (c ++ ", " ++ String.concat ", " (c2 :: cs)).
    rewrite (split_comma_token c _ cur Hcomma).
    cbn [append Report.split_comma Ascii.eqb Bool.eqb map filter].
    rewrite Hstrip, Htruthy. f_equal.
    apply IH; [|discriminate|exact Hrest|right; reflexivity].
    intros c' Hc' _. destruct (clean_facts c' Hc') as (Ht & _ & Hs).
    split; [exact Hs|exact Ht].
Qed.

Lemma last_in {A : Type} (x : A) (l : list A) (d : A) : In (last (x :: l) d) (x :: l).
Proof.
  revert x. induction l as [|y l IH]; intros x; [left; reflexivity|].
  right. apply IH.
Qed.

Lemma join_ends (cs : list string) (c : string) :
  exists pre, String.concat ", " (c :: cs) = pre ++ last (c :: cs) EmptyString.
Proof.
  revert c. induction cs as [|c2 cs IH]; intros c.
  - exists EmptyString. reflexivity.
  - destruct (IH c2) as (pre & Hpre).
    exists (c ++ ", " ++ pre).
    change (String.concat ", " (c :: c2 :: cs))
      with (c ++ ", " ++ String.concat ", " (c2 :: cs)).
    change (last (c :: c2 :: cs) EmptyString) with (last (c2 :: cs) EmptyString).
    rewrite Hpre, !append_assoc. reflexivity.
Qed.

(** X18: the periods [main] reads from TEST_COMPETENCIAS are never
    empty, hold no comma and have no white space at their ends; and a
    list of such periods, written as the report prints it (joined by a
    comma and a blank), is read back as the same list. *)
Theorem periods_round_trip (raw : string) (cs : list string) :
  let read s := filter truthy (map strip (Report.split_comma (strip s) EmptyString)) in
  Forall (fun c => clean c = true) (read raw)
  /\ (Forall (fun c => clean c = true) cs -> read (String.concat ", " cs) = cs).
Proof.
  intros read. split.
  - unfold read. rewrite Forall_forall. intros c Hc.
    apply filter_In in Hc as [Hc Htruthy].
    apply in_map_iff in Hc as (t & <- & Ht).
    pose proof (split_comma_tokens (strip raw) EmptyString eq_refl) as Htokens.
    rewrite Forall_forall in Htokens. specialize (Htokens t Ht).
    unfold clean. rewrite Htruthy, strip_idem, String.eqb_refl.
    unfold strip. rewrite existsb_rstrip_by by (apply existsb_lstrip_by, Htokens).
    reflexivity.
  - intros Hclean. unfold read. destruct cs as [|c cs]; [reflexivity|].
    assert (Hstrip : strip (String.concat ", " (c :: cs)) = String.concat ", " (c :: cs)).
    { destruct (join_ends cs c) as (pre & Hpre).
      assert (Hlast : clean (last (c :: cs) EmptyString) = true).
      { rewrite Forall_forall in Hclean. apply Hclean, last_in. }
      inversion Hclean as [|? ? Hc _]; subst.
      destruct (clean_facts c Hc) as (Htc & _ & Hsc).
      destruct (clean_facts _ Hlast) as (Htl & _ & Hsl).
      apply strip_by_fixed in Hsc as [Hlc _]. apply strip_by_fixed in Hsl as [_ Hrl].
      unfold strip.
      assert (Hl : lstrip_by isspace (String.concat ", " (c :: cs))
                   = String.concat ", " (c :: cs)).
      { destruct c as [|a c']; [discriminate Htc|].
        pose proof (lstrip_by_head isspace _ _ _ Hlc) as Ha.
        destruct cs; cbn [String.concat append lstrip_by]; rewrite Ha; reflexivity. }
      rewrite Hl, Hpre. apply rstrip_by_after; [|exact Hrl].
      destruct (last (c :: cs) EmptyString); [discriminate Htl|discriminate]. }
    rewrite Hstrip. apply split_join; [discriminate|exact Hclean|left; reflexivity].
Qed.

Lemma periods_round_trip_witness :
  filter truthy (map strip (Report.split_comma
                              (strip (String.concat ", " ["2025-08"; "2025-09"; "2025-10"]))
                              EmptyString))
  = ["2025-08"; "2025-09"; "2025-10"].
Proof.
  apply (proj2 (periods_round_trip EmptyString ["2025-08"; "2025-09"; "2025-10"])).
  repeat constructor.
Defined.
